(** * dtek_fact_parser.py: extraction of the embedded schedule objects and
      normalisation of the per-hour outage codes

    A shallow embedding of [src/dtek_fact_parser.py].  A Python [str] is
    held as the [string] of its UTF-8 encoding: searching, slicing and
    comparing give the same texts on the encoding as on the characters, with
    offsets counted in bytes ([Str.len]), and [len] is the number of
    characters ([Str.char_len]).  Python [int]s are [Z], a [dict] is an
    association list
    in insertion order with unique keys, and every call that can raise
    returns a [result].  Library calls whose behaviour depends on the machine
    or on a large library ([requests.get], [json.loads], [int] on a string,
    [datetime.fromtimestamp], [datetime.now], the writing of the output
    file) are the fields of a [Host].  A run of [main] transforms a [world]:
    the lines printed so far and the contents of the output file.  [print]
    itself is taken to succeed. *)

From Stdlib Require Import ZArith String Ascii List Bool Lia DecimalString DecimalPos DecimalN Sorted.
Import ListNotations.

Local Open Scope string_scope.
Local Open Scope Z_scope.

(** ** Exceptions and the error monad *)

Inductive exn : Type :=
| HttpError (status_code : Z)   (* Exception(f"HTTP Error: {status_code}") *)
| ProtectionPage                (* Exception("Получена страница защиты, ...") *)
| FactNotFound                  (* Exception("Не удалось найти DisconSchedule.fact в HTML") *)
| JSONDecodeError               (* raised by json.loads *)
| ValueError                    (* raised by int() *)
| OverflowError                 (* raised by datetime.fromtimestamp *)
| UnicodeEncodeError            (* raised when text cannot be written *)
| TypeError
| KeyError
| AttributeError
| RequestError                  (* raised by requests.get *)
| OSError.                      (* raised by open() and by writing *)

Inductive result (A : Type) : Type :=
| Ok (a : A)
| Raise (e : exn).
Arguments Ok {A} a.
Arguments Raise {A} e.

Definition bind {A B : Type} (m : result A) (k : A -> result B) : result B :=
  match m with
  | Ok a => k a
  | Raise e => Raise e
  end.

Notation "x <- m ;; k" := (bind m (fun x => k))
  (at level 61, m at next level, right associativity).

Definition of_option {A : Type} (e : exn) (o : option A) : result A :=
  match o with
  | Some a => Ok a
  | None => Raise e
  end.

(** ** Python strings *)

Module Str.

(** The length of the encoding, in which offsets are counted. *)
Definition len (s : string) : Z := Z.of_nat (String.length s).

(** A byte that continues a character of the UTF-8 encoding. *)
Definition is_continuation (c : ascii) : bool :=
  (128 <=? nat_of_ascii c)%nat && (nat_of_ascii c <? 192)%nat.

Fixpoint chars (s : string) : nat :=
  match s with
  | EmptyString => O
  | String c r => ((if is_continuation c then 0 else 1) + chars r)%nat
  end.

(** [len(s)]: the number of characters. *)
Definition char_len (s : string) : Z := Z.of_nat (chars s).

Fixpoint drop (n : nat) (s : string) : string :=
  match n, s with
  | O, _ => s
  | S n', String _ s' => drop n' s'
  | S _, EmptyString => EmptyString
  end.

Fixpoint take (n : nat) (s : string) : string :=
  match n, s with
  | S n', String c s' => String c (take n' s')
  | _, _ => EmptyString
  end.

(** [s.startswith(sub)] *)
Fixpoint startswith (s sub : string) : bool :=
  match sub, s with
  | EmptyString, _ => true
  | String c sub', String d s' => Ascii.eqb c d && startswith s' sub'
  | String _ _, EmptyString => false
  end.

(** Lowest offset at which [sub] occurs in [s], counted from [i]; [-1]
    when there is none. *)
Fixpoint find_from (s sub : string) (i : Z) : Z :=
  if startswith s sub then i
  else match s with
       | EmptyString => -1
       | String _ s' => find_from s' sub (i + 1)
       end.

(** A slice bound as Python normalises it: a negative bound counts from
    the end, and the result is clamped to [0, len]. *)
Definition clamp (n : Z) (i : Z) : Z :=
  if i <? 0 then Z.max 0 (i + n) else Z.min i n.

(** [s.find(sub, start)] *)
Definition find (s sub : string) (start : Z) : Z :=
  let n := len s in
  let st := if start <? 0 then Z.max 0 (start + n) else start in
  if n <? st then -1
  else find_from (drop (Z.to_nat st) s) sub st.

(** [s[start:stop]]; [stop = None] is [s[start:]]. *)
Definition slice (s : string) (start : Z) (stop : option Z) : string :=
  let n := len s in
  let a := clamp n start in
  let b := match stop with Some e => clamp n e | None => n end in
  take (Z.to_nat (b - a)) (drop (Z.to_nat a) s).

(** [sub in s] *)
Definition contains (s sub : string) : bool :=
  negb (find s sub 0 =? -1).

End Str.

(** ** Python dicts

    A [dict] keeps its keys in insertion order and holds each key once.
    Assigning to a key that is present replaces the value where it stands;
    assigning to a new key appends it. *)

Definition dict (V : Type) : Type := list (string * V).

Module Dict.

Section Ops.
Context {V : Type}.

(** [d.get(k)] as an option. *)
Fixpoint get (k : string) (d : dict V) : option V :=
  match d with
  | [] => None
  | (k', v) :: d' => if String.eqb k k' then Some v else get k d'
  end.

(** [k in d] *)
Definition mem (k : string) (d : dict V) : bool :=
  match get k d with Some _ => true | None => false end.

(** [d[k] = v] *)
Fixpoint set (k : string) (v : V) (d : dict V) : dict V :=
  match d with
  | [] => [(k, v)]
  | (k', v') :: d' =>
      if String.eqb k k' then (k', v) :: d' else (k', v') :: set k v d'
  end.

Definition keys (d : dict V) : list string := map fst d.

(** Truth value of a dict: [if d:] *)
Definition truthy (d : dict V) : bool :=
  match d with [] => false | _ :: _ => true end.

End Ops.

End Dict.

(** ** Decoded JSON values and the Python operators applied to them *)

#[local] Set Warnings "-register-all".

Inductive json : Type :=
| JNull
| JBool (b : bool)
| JNumber (literal : string)       (* an int or a float; never inspected *)
| JStr (s : string)
| JList (items : list json)
| JDict (items : list (string * json)).

(** [v == s] for a [str] literal [s]: only an equal [str] compares equal. *)
Definition py_eq_str (v : json) (s : string) : bool :=
  match v with
  | JStr t => String.eqb t s
  | _ => false
  end.

(** [item in container] for a [str] [item]. *)
Definition py_in (item : string) (container : json) : result bool :=
  match container with
  | JDict d => Ok (Dict.mem item d)
  | JList l => Ok (existsb (fun x => py_eq_str x item) l)
  | JStr s => Ok (Str.contains s item)
  | JNull | JBool _ | JNumber _ => Raise TypeError
  end.

(** [container[key]] for a [str] [key]. *)
Definition py_getitem (container : json) (key : string) : result json :=
  match container with
  | JDict d => of_option KeyError (Dict.get key d)
  | _ => Raise TypeError
  end.

(** [v.items()] *)
Definition py_items (v : json) : result (dict json) :=
  match v with
  | JDict d => Ok d
  | _ => Raise AttributeError
  end.

(** [v.get(key, default)] *)
Definition py_get (v : json) (key : string) (default : json) : result json :=
  match v with
  | JDict d => Ok (match Dict.get key d with Some x => x | None => default end)
  | _ => Raise AttributeError
  end.

Fixpoint foldM {S A : Type} (f : S -> A -> result S) (s : S) (l : list A)
  : result S :=
  match l with
  | [] => Ok s
  | a :: l' => s' <- f s a ;; foldM f s' l'
  end.

(** ** The host: library calls the program relies on *)

Record Response : Type := { status_code : Z; text : string }.

(** How [with open(OUTPUT_FILE, 'w') as f: json.dump(...)] ends. *)
Inductive write_outcome : Type :=
| Written                 (* the document is in the file *)
| OpenRaises (e : exn)    (* [open] raised [e]: the file is as it was *)
| DumpRaises (e : exn).   (* [json.dump] raised [e] after the file was truncated *)

Class Host : Type := {
  (** [requests.get(URL, impersonate="chrome120", timeout=30)] *)
  requests_get : result Response;
  (** [json.loads(s)]; [None] when it raises *)
  json_loads : string -> option json;
  (** [int(s)] for a [str]; [None] when it raises *)
  py_int : string -> option Z;
  (** [datetime.fromtimestamp(t).strftime("%Y-%m-%d")] in the local time
      zone, or what [fromtimestamp] raises for [t] *)
  local_date : Z -> result string;
  (** [datetime.now().isoformat()] *)
  now_isoformat : string;
  (** [datetime.now().strftime("%Y-%m-%d")] *)
  now_date : string;
  (** what happens when the output file is written *)
  write : write_outcome
}.

(** ** Locating the end of an embedded object *)

Definition URL : string := "https://www.dtek-dnem.com.ua/ua/shutdowns".

Definition GROUPS_TO_PARSE : list string :=
  ["GPV1.1"; "GPV1.2"; "GPV2.1"; "GPV2.2"; "GPV3.1"; "GPV3.2";
   "GPV4.1"; "GPV4.2"; "GPV5.1"; "GPV5.2"; "GPV6.1"; "GPV6.2"].

Definition fact_marker : string := "DisconSchedule.fact = {".
Definition preset_marker : string := "DisconSchedule.preset = {".

(** The loop
    [for i, char in enumerate(html[json_start:], start=json_start)]
    of [parse_schedule], run over the characters [cs] not yet visited, the
    first of which has index [i].  [Some i] is the index at which the loop
    reaches [break]; [None] means that the loop ran to the end of the
    text. *)
Fixpoint scan_braces (cs : string) (i : Z) (brace_count : Z) : option Z :=
  match cs with
  | EmptyString => None
  | String char rest =>
      if Ascii.eqb char "{" then scan_braces rest (i + 1) (brace_count + 1)
      else if Ascii.eqb char "}" then
        let brace_count := brace_count - 1 in
        if brace_count =? 0 then Some i
        else scan_braces rest (i + 1) brace_count
      else scan_braces rest (i + 1) brace_count
  end.

(** Lines 53-72 of [parse_schedule]: the text handed to [json.loads] for
    the fact block. *)
Definition fact_json_str (html : string) : result string :=
  let fact_start := Str.find html fact_marker 0 in
  if fact_start =? -1 then Raise FactNotFound
  else
    let json_start := Str.find html "{" fact_start in
    let json_end :=
      match scan_braces (Str.slice html json_start None) json_start 0 with
      | Some i => i + 1
      | None => json_start
      end in
    Ok (Str.slice html json_start (Some json_end)).

(** Lines 76-88 of [parse_schedule], up to the call of [json.loads]: the
    text of the preset block, or [None] when [preset_data] keeps its
    initial value. *)
Definition preset_json_str (html : string) : option string :=
  let preset_start := Str.find html preset_marker 0 in
  if negb (preset_start =? -1) then
    let json_start := Str.find html "{" preset_start in
    match scan_braces (Str.slice html json_start None) json_start 0 with
    | Some i => Some (Str.slice html json_start (Some (i + 1)))
    | None => None
    end
  else None.

Record raw_data : Type := {
  fact : json;
  preset : json;
  fetched_at : string
}.

(** ** Status codes and time ranges *)

(** Lines 116-127 of [format_schedule_for_group]. *)
Definition readable_status (status : json) : result json :=
  if py_eq_str status "yes" then Ok (JStr "light_on")
  else if py_eq_str status "no" then Ok (JStr "light_off")
  else if py_eq_str status "first" then Ok (JStr "off_first_30min")
  else if py_eq_str status "second" then Ok (JStr "off_second_30min")
  else
    maybe <- py_in "maybe" status ;;
    if maybe then Ok (JStr "possible_outage") else Ok status.

Fixpoint zeros (n : nat) : string :=
  match n with
  | O => EmptyString
  | S n' => String "0" (zeros n')
  end.

(** [format(n, "02d")]: the decimal digits of [n], the sign first, zeros
    between the sign and the digits up to a width of two characters. *)
Definition format_02d (n : Z) : string :=
  let sign := if n <? 0 then "-" else EmptyString in
  let digits := NilZero.string_of_uint (N.to_uint (Z.to_N (Z.abs n))) in
  sign ++ zeros (2 - String.length sign - String.length digits) ++ digits.

(** [f"{hour-1:02d}:00-{hour:02d}:00"] *)
Definition time_range (hour : Z) : string :=
  format_02d (hour - 1) ++ ":00-" ++ format_02d hour ++ ":00".

(** ** Effects of a run: the lines printed and the output file *)

Record output : Type := {
  out_fetched_at : string;
  update_time : json;
  groups : dict (dict (dict json))
}.

(** The calls of [print], by the data they interpolate. *)
Inductive line : Type :=
| LConnecting                       (* "Подключение к DTEK..." *)
| LPageReceived (length : Z)        (* "Страница получена успешно (n байт)" *)
| LParsing                          (* "Парсинг данных..." *)
| LSaved                            (* "Данные сохранены в: ..." *)
| LSummary                          (* "СВОДКА:" *)
| LUpdateTime (update : json)
| LGroupCount (n : Z)
| LToday (today : string)           (* "GPV1.1 на сегодня (today):" *)
| LLightOn (ranges : list string)
| LLightOff (ranges : list string)
| LDone                             (* "Готово!" *)
| LError (e : exn).                 (* "ОШИБКА: e" *)

(** What OUTPUT_FILE holds. *)
Inductive file : Type :=
| Absent
| Document (o : output)             (* the whole dump of [o] *)
| Partial (o : output).             (* the beginning of a dump of [o] *)

Record world : Type := {
  stdout : list line;               (* oldest line first *)
  output_file : file
}.

Definition io (A : Type) : Type := world -> result A * world.

Definition io_ret {A : Type} (a : A) : io A := fun w => (Ok a, w).

Definition io_bind {A B : Type} (m : io A) (k : A -> io B) : io B :=
  fun w =>
    match m w with
    | (Ok a, w') => k a w'
    | (Raise e, w') => (Raise e, w')
    end.

Definition lift {A : Type} (r : result A) : io A := fun w => (r, w).

Definition print (l : line) : io unit :=
  fun w => (Ok tt, {| stdout := stdout w ++ [l]; output_file := output_file w |}).


(** [w] after the lines [ls] have been printed. *)
Definition printed (w : world) (ls : list line) : world :=
  {| stdout := stdout w ++ ls; output_file := output_file w |}.

Declare Scope io_scope.
Delimit Scope io_scope with io.
Notation "x <- m ;; k" := (io_bind m (fun x => k))
  (at level 61, m at next level, right associativity) : io_scope.
Notation "m ;; k" := (io_bind m (fun _ => k))
  (at level 61, right associativity) : io_scope.

(** [sorted(l)] on strings: insertion into an ordered list, by code point. *)
Fixpoint insert_sorted (x : string) (l : list string) : list string :=
  match l with
  | [] => [x]
  | y :: l' => if String.leb x y then x :: l else y :: insert_sorted x l'
  end.

Definition sorted (l : list string) : list string :=
  fold_right insert_sorted [] l.

Section Program.
Context `{Host}.

(** [with open(OUTPUT_FILE, 'w', encoding='utf-8') as f:
       json.dump(output, f, ensure_ascii=False, indent=2)] *)
Definition dump (o : output) : io unit :=
  fun w =>
    match write with
    | Written => (Ok tt, {| stdout := stdout w; output_file := Document o |})
    | OpenRaises e => (Raise e, w)
    | DumpRaises e => (Raise e, {| stdout := stdout w; output_file := Partial o |})
    end.

(** *** fetch_dtek_page *)

Definition fetch_dtek_page : io string :=
  (print LConnecting ;;
   response <- lift requests_get ;;
   if negb (status_code response =? 200) then
     lift (Raise (HttpError (status_code response)))
   else if (Str.char_len (text response) <? 1000)
           || negb (Str.contains (text response) "DisconSchedule") then
     lift (Raise ProtectionPage)
   else
     print (LPageReceived (Str.char_len (text response))) ;;
     io_ret (text response))%io.

(** *** parse_schedule *)

Definition parse_schedule (html : string) : result raw_data :=
  fact_json_str <- fact_json_str html ;;
  fact_data <- of_option JSONDecodeError (json_loads fact_json_str) ;;
  preset_data <-
    match preset_json_str html with
    | Some preset_json_str => of_option JSONDecodeError (json_loads preset_json_str)
    | None => Ok (JDict [])
    end ;;
  Ok {| fact := fact_data; preset := preset_data; fetched_at := now_isoformat |}.

(** *** format_schedule_for_group *)

Record formatted : Type := {
  group : string;
  days : dict (dict json)
}.

(** [result["days"][date][time_range] = readable_status] *)
Definition set_day_entry (date time_range : string) (v : json)
    (days : dict (dict json)) : result (dict (dict json)) :=
  day <- of_option KeyError (Dict.get date days) ;;
  Ok (Dict.set date (Dict.set time_range v day) days).

(** One pass of the loop over [hours_data.items()]. *)
Definition hour_step (date : string) (days : dict (dict json))
    (item : string * json) : result (dict (dict json)) :=
  let '(hour_str, status) := item in
  hour <- of_option ValueError (py_int hour_str) ;;
  let time_range := time_range hour in
  readable_status <- readable_status status ;;
  set_day_entry date time_range readable_status days.

(** One pass of the loop over [fact_data["data"].items()]. *)
Definition timestamp_step (group : string) (days : dict (dict json))
    (item : string * json) : result (dict (dict json)) :=
  let '(timestamp, groups_data) := item in
  t <- of_option ValueError (py_int timestamp) ;;
  date <- local_date t ;;
  present <- py_in group groups_data ;;
  if present then
    hours_data <- py_getitem groups_data group ;;
    let days := Dict.set date [] days in
    hours <- py_items hours_data ;;
    foldM (hour_step date) days hours
  else Ok days.

Definition format_schedule_for_group (fact_data : json) (group : string)
  : result formatted :=
  has_data <- py_in "data" fact_data ;;
  if negb has_data then Ok {| group := group; days := [] |}
  else
    data <- py_getitem fact_data "data" ;;
    items <- py_items data ;;
    days <- foldM (timestamp_step group) [] items ;;
    Ok {| group := group; days := days |}.

(** *** main *)

(** One pass of the loop over the configured groups (lines 150-153). *)
Definition group_step (fact_data : json) (groups : dict (dict (dict json)))
    (group : string) : result (dict (dict (dict json))) :=
  formatted <- format_schedule_for_group fact_data group ;;
  if Dict.truthy (days formatted) then Ok (Dict.set group (days formatted) groups)
  else Ok groups.

(** Lines 144-153: the document that is written out. *)
Definition build_output (raw : raw_data) (configured : list string)
  : result output :=
  update_time <- py_get (fact raw) "update" (JStr "unknown") ;;
  groups <- foldM (group_step (fact raw)) [] configured ;;
  Ok {| out_fetched_at := fetched_at raw;
        update_time := update_time;
        groups := groups |}.

Definition keys_with (label : string) (schedule : dict json) : list string :=
  map fst (filter (fun kv => py_eq_str (snd kv) label) schedule).

(** Lines 166-179: today's ranges for group 1.1. *)
Definition print_today (o : output) : io unit :=
  match Dict.get "GPV1.1" (groups o) with
  | Some gpv11 =>
      let today := now_date in
      match Dict.get today gpv11 with
      | Some schedule =>
          (print (LToday today) ;;
           let light_on := keys_with "light_on" schedule in
           let light_off := keys_with "light_off" schedule in
           (if negb (Nat.eqb (List.length light_on) 0)
            then print (LLightOn (firstn 5 (sorted light_on)))
            else io_ret tt) ;;
           (if negb (Nat.eqb (List.length light_off) 0)
            then print (LLightOff (firstn 5 (sorted light_off)))
            else io_ret tt))%io
      | None => io_ret tt
      end
  | None => io_ret tt
  end.

(** The body of the [try] block, for a configured list of groups. *)
Definition run (configured : list string) : io unit :=
  (html <- fetch_dtek_page ;;
   print LParsing ;;
   raw_data <- lift (parse_schedule html) ;;
   output <- lift (build_output raw_data configured) ;;
   dump output ;;
   print LSaved ;;
   print LSummary ;;
   print (LUpdateTime (update_time output)) ;;
   print (LGroupCount (Z.of_nat (List.length (groups output)))) ;;
   print_today output ;;
   print LDone)%io.

(** [main()]: the [try] block and its [except Exception] handler. *)
Definition main (w : world) : bool * world :=
  match run GROUPS_TO_PARSE w with
  | (Ok _, w') => (true, w')
  | (Raise e, w') =>
      (false, {| stdout := stdout w' ++ [LError e]; output_file := output_file w' |})
  end.

End Program.

(** ** Notions the statements use *)

(** The value of the depth counter after scanning [s] from zero. *)
Fixpoint brace_depth (s : string) : Z :=
  match s with
  | EmptyString => 0
  | String c r =>
      (if Ascii.eqb c "{" then 1 else if Ascii.eqb c "}" then -1 else 0)
      + brace_depth r
  end.

(** [obj] opens with a brace, and its last character is the first one that
    takes the depth counter back to zero. *)
Definition balanced_object (obj : string) : Prop :=
  Str.startswith obj "{" = true /\
  brace_depth obj = 0 /\
  forall n : nat, (0 < n < String.length obj)%nat ->
                  brace_depth (Str.take n obj) <> 0.

(** A decision procedure for [balanced_object]. *)
Definition balancedb (obj : string) : bool :=
  Str.startswith obj "{"
  && (brace_depth obj =? 0)
  && forallb (fun n => negb (brace_depth (Str.take n obj) =? 0))
       (seq 1 (String.length obj - 1)).

(** Objects as a grammar: any nesting of braces around brace-free text. *)
Inductive nested_body : string -> Prop :=
| body_empty : nested_body EmptyString
| body_char c body :
    Ascii.eqb c "{" = false -> Ascii.eqb c "}" = false ->
    nested_body body -> nested_body (String c body)
| body_obj inner body :
    nested_body inner -> nested_body body ->
    nested_body ("{" ++ inner ++ "}" ++ body).

Definition nested (obj : string) : Prop :=
  exists body, nested_body body /\ obj = "{" ++ body ++ "}".

(** A natural number below one hundred as two decimal digits. *)
Definition two_digits (n : Z) : string :=
  String (ascii_of_nat (48 + Z.to_nat (n / 10)))
    (String (ascii_of_nat (48 + Z.to_nat (n mod 10))) EmptyString).

(** The last element of [l] that satisfies [p]. *)
Fixpoint find_last {A : Type} (p : A -> bool) (l : list A) : option A :=
  match l with
  | [] => None
  | a :: l' =>
      match find_last p l' with
      | Some b => Some b
      | None => if p a then Some a else None
      end
  end.

(** Where the brace scan of each block breaks, if it does. *)
Definition fact_scan (html : string) : option Z :=
  let json_start := Str.find html "{" (Str.find html fact_marker 0) in
  scan_braces (Str.slice html json_start None) json_start 0.

Definition preset_scan (html : string) : option Z :=
  let json_start := Str.find html "{" (Str.find html preset_marker 0) in
  scan_braces (Str.slice html json_start None) json_start 0.

(** The status normaliser in the words of its contract: the exact-match
    table, then the substring test, then the code itself. *)
Definition has_substring (s sub : string) : Prop :=
  exists a b : string, s = a ++ sub ++ b.

Definition normalizes_to (code label : string) : Prop :=
  (code = "yes" -> label = "light_on") /\
  (code = "no" -> label = "light_off") /\
  (code = "first" -> label = "off_first_30min") /\
  (code = "second" -> label = "off_second_30min") /\
  (code <> "yes" -> code <> "no" -> code <> "first" -> code <> "second" ->
   (has_substring code "maybe" -> label = "possible_outage") /\
   (~ has_substring code "maybe" -> label = code)).

Section BuilderNotions.
Context `{Host}.

(** The entries that one hour mapping adds to a day that starts as [day]. *)
Definition format_hours (hours : dict json) (day : dict json)
  : result (dict json) :=
  foldM (fun day item =>
           hour <- of_option ValueError (py_int (fst item)) ;;
           label <- readable_status (snd item) ;;
           Ok (Dict.set (time_range hour) label day))
        day hours.

(** The day built for [group] from the data of one timestamp alone. *)
Definition group_day (group : string) (groups_data : json)
  : result (dict json) :=
  hours_data <- py_getitem groups_data group ;;
  hours <- py_items hours_data ;;
  format_hours hours [].

(** The calendar date of a timestamp key. *)
Definition item_date (timestamp : string) : result string :=
  t <- of_option ValueError (py_int timestamp) ;;
  local_date t.

(** The item of [data] is for [date] and holds [group]. *)
Definition contributes (group date : string) (item : string * json) : bool :=
  match item_date (fst item), py_in group (snd item) with
  | Ok d, Ok true => String.eqb d date
  | _, _ => false
  end.

End BuilderNotions.

(** *** Notions for the further properties *)

Fixpoint mapM {A B : Type} (f : A -> result B) (l : list A) : result (list B) :=
  match l with
  | [] => Ok []
  | a :: l' => b <- f a ;; bs <- mapM f l' ;; Ok (b :: bs)
  end.

(** Reads back what [format_02d] writes. *)
Definition parse_02d (s : string) : option Z :=
  match s with
  | EmptyString => None
  | String a s' =>
      if Ascii.eqb a "-"
      then option_map (fun d => - Z.of_N (N.of_uint d)) (NilEmpty.uint_of_string s')
      else option_map (fun d => Z.of_N (N.of_uint d)) (NilEmpty.uint_of_string s)
  end.

Fixpoint colon_free (s : string) : bool :=
  match s with
  | EmptyString => true
  | String c r => negb (Ascii.eqb c ":") && colon_free r
  end.

(** The elements of a list in the order in which they are first seen. *)
Definition add_once (acc : list string) (k : string) : list string :=
  if existsb (String.eqb k) acc then acc else (acc ++ [k])%list.

Definition first_seen (l : list string) : list string :=
  fold_left add_once l [].

(** Lines of the log, by kind. *)
Definition is_error (l : line) : bool :=
  match l with
  | LError _ => true
  | _ => false
  end.

Definition is_summary_line (l : line) : bool :=
  match l with
  | LToday _ | LLightOn _ | LLightOff _ => true
  | _ => false
  end.

Section FurtherNotions.
Context `{Host}.

(** The entry that one item of an hour mapping yields. *)
Definition hour_entry (item : string * json) : result (string * json) :=
  hour <- of_option ValueError (py_int (fst item)) ;;
  label <- readable_status (snd item) ;;
  Ok (time_range hour, label).

(** The hour item is filed under the time range [range]. *)
Definition filed_under (range : string) (item : string * json) : bool :=
  match py_int (fst item) with
  | Some hour => String.eqb (time_range hour) range
  | None => false
  end.

(** The dates of the timestamps that hold the group, in iteration order. *)
Definition contributed_dates (g : string) (data : dict json) : list string :=
  flat_map (fun item =>
              match item_date (fst item), py_in g (snd item) with
              | Ok date, Ok true => [date]
              | _, _ => []
              end) data.

(** What a line of the summary may list for a status: at most five
    ranges, at least one, in ascending order, each of them a range that
    today's schedule of group 1.1 files under that status. *)
Definition listed_for (o : output) (label : string) (ranges : list string) : Prop :=
  (0 < List.length ranges <= 5)%nat /\
  Sorted (fun a b => String.leb a b = true) ranges /\
  forall range, In range ranges ->
    exists gpv11 schedule,
      Dict.get "GPV1.1" (groups o) = Some gpv11 /\
      Dict.get now_date gpv11 = Some schedule /\
      In (range, JStr label) schedule.

(** The group is kept in the output: it formats to at least one day. *)
Definition has_days (fact_data : json) (g : string) : bool :=
  match format_schedule_for_group fact_data g with
  | Ok r => Dict.truthy (days r)
  | Raise _ => false
  end.

End FurtherNotions.

(** ** A reference host

    A concrete [Host] on which the program runs from end to end: a decoder
    for JSON texts without [\u] escapes, [int] on ASCII decimal literals and
    the calendar of a machine whose local time is UTC. *)

Module Reference.

Definition quote : ascii := "034".
Definition backslash : ascii := "092".

Definition is_digit (c : ascii) : bool :=
  (48 <=? nat_of_ascii c)%nat && (nat_of_ascii c <=? 57)%nat.

Definition digit_value (c : ascii) : Z := Z.of_nat (nat_of_ascii c) - 48.

(** *** int(s) *)

Definition is_space (c : ascii) : bool :=
  let n := nat_of_ascii c in
  ((9 <=? n) && (n <=? 13) || (28 <=? n) && (n <=? 32))%nat.

Fixpoint lstrip (s : string) : string :=
  match s with
  | String c r => if is_space c then lstrip r else s
  | EmptyString => EmptyString
  end.

Fixpoint rstrip (s : string) : string :=
  match s with
  | EmptyString => EmptyString
  | String c r =>
      match rstrip r with
      | EmptyString => if is_space c then EmptyString else String c EmptyString
      | r' => String c r'
      end
  end.

(** Digits with single underscores between them. *)
Fixpoint digits_value (s : string) (acc : Z) : option Z :=
  match s with
  | EmptyString => Some acc
  | String c r =>
      if is_digit c then digits_value r (10 * acc + digit_value c)
      else if Ascii.eqb c "_" then
        match r with
        | String d _ => if is_digit d then digits_value r acc else None
        | EmptyString => None
        end
      else None
  end.

Definition unsigned_value (s : string) : option Z :=
  match s with
  | String c _ => if is_digit c then digits_value s 0 else None
  | EmptyString => None
  end.

Definition int (s : string) : option Z :=
  match rstrip (lstrip s) with
  | String c r =>
      if Ascii.eqb c "-" then option_map Z.opp (unsigned_value r)
      else if Ascii.eqb c "+" then unsigned_value r
      else unsigned_value (String c r)
  | EmptyString => None
  end.

(** *** The calendar date of a timestamp, in UTC *)

Definition utc_date (t : Z) : result string :=
  let z := t / 86400 + 719468 in
  let era := z / 146097 in
  let doe := z - era * 146097 in
  let yoe := (doe - doe / 1460 + doe / 36524 - doe / 146096) / 365 in
  let doy := doe - (365 * yoe + yoe / 4 - yoe / 100) in
  let mp := (5 * doy + 2) / 153 in
  let d := doy - (153 * mp + 2) / 5 + 1 in
  let m := if mp <? 10 then mp + 3 else mp - 9 in
  let y := yoe + era * 400 + (if m <=? 2 then 1 else 0) in
  if (t <? - 2 ^ 63) || (2 ^ 63 <=? t) then Raise OverflowError
  else if (1 <=? y) && (y <=? 9999) then
    Ok (two_digits (y / 100) ++ two_digits (y mod 100) ++ "-"
        ++ two_digits m ++ "-" ++ two_digits d)
  else Raise ValueError.

(** *** json.loads *)

Definition is_ws (c : ascii) : bool :=
  Ascii.eqb c " " || Ascii.eqb c "009" || Ascii.eqb c "010" || Ascii.eqb c "013".

Fixpoint skip_ws (s : string) : string :=
  match s with
  | String c r => if is_ws c then skip_ws r else s
  | EmptyString => EmptyString
  end.

Definition unescape (c : ascii) : option ascii :=
  if Ascii.eqb c quote then Some quote
  else if Ascii.eqb c backslash then Some backslash
  else if Ascii.eqb c "/" then Some "/"%char
  else if Ascii.eqb c "b" then Some "008"%char
  else if Ascii.eqb c "f" then Some "012"%char
  else if Ascii.eqb c "n" then Some "010"%char
  else if Ascii.eqb c "r" then Some "013"%char
  else if Ascii.eqb c "t" then Some "009"%char
  else None.

(** The characters of a string literal after its opening quote, and the
    text after its closing quote. *)
Fixpoint read_string (s : string) : option (string * string) :=
  match s with
  | EmptyString => None
  | String c r =>
      if Ascii.eqb c quote then Some (EmptyString, r)
      else if Ascii.eqb c backslash then
        match r with
        | String e r' =>
            match unescape e, read_string r' with
            | Some x, Some (body, rest) => Some (String x body, rest)
            | _, _ => None
            end
        | EmptyString => None
        end
      else if (nat_of_ascii c <? 32)%nat then None
      else
        match read_string r with
        | Some (body, rest) => Some (String c body, rest)
        | None => None
        end
  end.

Fixpoint span_digits (s : string) : string * string :=
  match s with
  | String c r =>
      if is_digit c then let '(ds, rest) := span_digits r in (String c ds, rest)
      else (EmptyString, s)
  | EmptyString => (EmptyString, EmptyString)
  end.

(** A number literal: [-?int(.digits)?([eE][+-]?digits)?]. *)
Definition read_number (s : string) : option (string * string) :=
  let '(sign, s1) :=
    match s with
    | String c r => if Ascii.eqb c "-" then ("-", r) else (EmptyString, s)
    | EmptyString => (EmptyString, s)
    end in
  let '(int_part, s2) := span_digits s1 in
  let int_ok :=
    match int_part with
    | EmptyString => false
    | String c EmptyString => true
    | String c _ => negb (Ascii.eqb c "0")
    end in
  if negb int_ok then None
  else
    let '(frac, s3) :=
      match s2 with
      | String c r =>
          if Ascii.eqb c "." then
            let '(ds, rest) := span_digits r in
            match ds with
            | EmptyString => (EmptyString, s2)
            | _ => ("." ++ ds, rest)
            end
          else (EmptyString, s2)
      | EmptyString => (EmptyString, s2)
      end in
    let '(exp, s4) :=
      match s3 with
      | String c r =>
          if Ascii.eqb c "e" || Ascii.eqb c "E" then
            let '(esign, r1) :=
              match r with
              | String d r' =>
                  if Ascii.eqb d "-" || Ascii.eqb d "+"
                  then (String d EmptyString, r') else (EmptyString, r)
              | EmptyString => (EmptyString, r)
              end in
            let '(ds, rest) := span_digits r1 in
            match ds with
            | EmptyString => (EmptyString, s3)
            | _ => (String c esign ++ ds, rest)
            end
          else (EmptyString, s3)
      | EmptyString => (EmptyString, s3)
      end in
    Some (sign ++ int_part ++ frac ++ exp, s4).

Fixpoint decode_value (fuel : nat) (s : string) : option (json * string) :=
  match fuel with
  | O => None
  | S fuel =>
      match skip_ws s with
      | EmptyString => None
      | String c r =>
          if Ascii.eqb c "{" then
            match skip_ws r with
            | String d r' =>
                if Ascii.eqb d "}" then Some (JDict [], r')
                else decode_members fuel (String d r') []
            | EmptyString => None
            end
          else if Ascii.eqb c "[" then
            match skip_ws r with
            | String d r' =>
                if Ascii.eqb d "]" then Some (JList [], r')
                else decode_elements fuel (String d r') []
            | EmptyString => None
            end
          else if Ascii.eqb c quote then
            match read_string r with
            | Some (body, rest) => Some (JStr body, rest)
            | None => None
            end
          else if Str.startswith (String c r) "true" then Some (JBool true, Str.drop 4 (String c r))
          else if Str.startswith (String c r) "false" then Some (JBool false, Str.drop 5 (String c r))
          else if Str.startswith (String c r) "null" then Some (JNull, Str.drop 4 (String c r))
          else
            match read_number (String c r) with
            | Some (lit, rest) => Some (JNumber lit, rest)
            | None => None
            end
      end
  end
with decode_members (fuel : nat) (s : string) (acc : dict json)
  : option (json * string) :=
  match fuel with
  | O => None
  | S fuel =>
      match skip_ws s with
      | String c r =>
          if Ascii.eqb c quote then
            match read_string r with
            | Some (key, r1) =>
                match skip_ws r1 with
                | String colon r2 =>
                    if Ascii.eqb colon ":" then
                      match decode_value fuel r2 with
                      | Some (v, r3) =>
                          let acc := Dict.set key v acc in
                          match skip_ws r3 with
                          | String e r4 =>
                              if Ascii.eqb e "," then decode_members fuel r4 acc
                              else if Ascii.eqb e "}" then Some (JDict acc, r4)
                              else None
                          | EmptyString => None
                          end
                      | None => None
                      end
                    else None
                | EmptyString => None
                end
            | None => None
            end
          else None
      | EmptyString => None
      end
  end
with decode_elements (fuel : nat) (s : string) (acc : list json)
  : option (json * string) :=
  match fuel with
  | O => None
  | S fuel =>
      match decode_value fuel s with
      | Some (v, r) =>
          match skip_ws r with
          | String e r' =>
              if Ascii.eqb e "," then decode_elements fuel r' (acc ++ [v])
              else if Ascii.eqb e "]" then Some (JList (acc ++ [v]), r')
              else None
          | EmptyString => None
          end
      | None => None
      end
  end.

Definition loads (s : string) : option json :=
  match decode_value (2 * String.length s + 2) s with
  | Some (v, rest) =>
      match skip_ws rest with
      | EmptyString => Some v
      | String _ _ => None
      end
  | None => None
  end.

(** Replaces every apostrophe by a double quote, to write JSON texts. *)
Fixpoint dq (s : string) : string :=
  match s with
  | EmptyString => EmptyString
  | String c r => String (if Ascii.eqb c "'" then quote else c) (dq r)
  end.

Fixpoint spaces (n : nat) : string :=
  match n with
  | O => EmptyString
  | S n' => String " " (spaces n')
  end.

Fixpoint repeat_string (s : string) (n : nat) : string :=
  match n with
  | O => EmptyString
  | S n' => s ++ repeat_string s n'
  end.

(** The Cyrillic letter ya: one character, two bytes in UTF-8. *)
Definition ya : string := String "209" (String "143" EmptyString).

(** The page of the end-to-end scenario, padded to a plausible length. *)
Definition fixture_page : string :=
  spaces 1000
  ++ dq "<script>DisconSchedule.fact = {'update':'12:00','data':{'1700000000':{'GPV1.1':{'1':'yes','2':'no'}}}}; DisconSchedule.preset = {'sch_names':{'GPV1.1':'1.1'}};</script>".

Definition empty_world : world := {| stdout := []; output_file := Absent |}.

(** A host that answers the request with status 200 and body [page] at
    the instant [now] (seconds since the epoch). *)
Definition host (page : string) (now : Z) : Host := {|
  requests_get := Ok {| status_code := 200; text := page |};
  json_loads := loads;
  py_int := int;
  local_date := utc_date;
  now_isoformat :=
    match utc_date now with
    | Ok d => d ++ "T" ++ two_digits (now mod 86400 / 3600) ++ ":"
                ++ two_digits (now mod 3600 / 60) ++ ":" ++ two_digits (now mod 60)
    | Raise _ => EmptyString
    end;
  now_date := match utc_date now with Ok d => d | Raise _ => EmptyString end;
  write := Written
|}.

End Reference.

(** * Properties *)

(** ** Facts about strings *)

Section StringFacts.

Lemma length_append (a b : string) :
  String.length (a ++ b) = (String.length a + String.length b)%nat.
Proof. induction a as [|c a IH]; simpl; [reflexivity | now rewrite IH]. Qed.

Lemma append_assoc (a b c : string) : (a ++ b) ++ c = a ++ (b ++ c).
Proof. induction a as [|x a IH]; simpl; [reflexivity | now rewrite IH]. Qed.

Lemma append_empty_r (a : string) : a ++ EmptyString = a.
Proof. induction a as [|x a IH]; simpl; [reflexivity | now rewrite IH]. Qed.

Lemma drop_app (a b : string) : Str.drop (String.length a) (a ++ b) = b.
Proof. induction a as [|x a IH]; simpl; [now destruct b | exact IH]. Qed.

Lemma take_app (a b : string) : Str.take (String.length a) (a ++ b) = a.
Proof.
  induction a as [|x a IH]; simpl; [now destruct b | now rewrite IH].
Qed.

Lemma take_all (a : string) : Str.take (String.length a) a = a.
Proof. rewrite <- (append_empty_r a) at 2. apply take_app. Qed.

Lemma take_drop (n : nat) (s : string) : Str.take n s ++ Str.drop n s = s.
Proof.
  revert s; induction n as [|n IH]; intros [|c s]; simpl; try reflexivity.
  now rewrite IH.
Qed.

Lemma length_take (n : nat) (s : string) :
  (n <= String.length s)%nat -> String.length (Str.take n s) = n.
Proof.
  revert s; induction n as [|n IH]; intros [|c s]; simpl; intros Hn;
    try reflexivity; try lia.
  rewrite IH; [reflexivity | lia].
Qed.

Lemma startswith_app (a b : string) : Str.startswith (a ++ b) a = true.
Proof.
  induction a as [|x a IH]; simpl; [now destruct b |].
  now rewrite Ascii.eqb_refl, IH.
Qed.

Lemma startswith_prefix (s sub : string) :
  Str.startswith s sub = true <-> exists t, s = sub ++ t.
Proof.
  split.
  - revert s; induction sub as [|c sub IH]; intros s H.
    + now exists s.
    + destruct s as [|d s]; simpl in H; [discriminate |].
      apply andb_true_iff in H as [Hc Hs].
      apply Ascii.eqb_eq in Hc; subst d.
      destruct (IH _ Hs) as [t ->]. now exists t.
  - intros [t ->]. apply startswith_app.
Qed.


Lemma startswith_empty (s : string) : Str.startswith s EmptyString = true.
Proof. now destruct s. Qed.

(** [find_from] returns the offset of an occurrence, and no occurrence
    starts before it. *)
Lemma find_from_found (s sub : string) (i : Z) :
  Str.find_from s sub i <> -1 -> 0 <= i ->
  exists n : nat,
    Str.find_from s sub i = i + Z.of_nat n /\
    Str.startswith (Str.drop n s) sub = true /\
    forall m : nat, (m < n)%nat -> Str.startswith (Str.drop m s) sub = false.
Proof.
  revert i; induction s as [|c s IH]; intros i; cbn [Str.find_from].
  - destruct (Str.startswith EmptyString sub) eqn:E; [|intros H; congruence].
    intros _ _. exists 0%nat. rewrite Z.add_0_r. repeat split; [exact E | lia].
  - destruct (Str.startswith (String c s) sub) eqn:E.
    + intros _ _. exists 0%nat. rewrite Z.add_0_r. repeat split; [exact E | lia].
    + intros Hf Hi. destruct (IH (i + 1) Hf ltac:(lia)) as (n & Hn & Hs & Hlt).
      exists (S n). split; [lia |]. split; [exact Hs |].
      intros [|m] Hm; [exact E | apply Hlt; lia].
Qed.

Lemma find_from_none (s sub : string) (i : Z) :
  Str.find_from s sub i = -1 -> 0 <= i ->
  forall m : nat, Str.startswith (Str.drop m s) sub = false.
Proof.
  revert i; induction s as [|c s IH]; intros i; cbn [Str.find_from].
  - destruct (Str.startswith EmptyString sub) eqn:E; [lia |].
    intros _ _ [|m]; exact E.
  - destruct (Str.startswith (String c s) sub) eqn:E; [lia |].
    intros Hf Hi [|m]; [exact E | cbn [Str.drop]; apply (IH (i + 1)); [exact Hf | lia]].
Qed.

End StringFacts.

Section SliceFacts.

Lemma len_app (a b : string) : Str.len (a ++ b) = Str.len a + Str.len b.
Proof. unfold Str.len. rewrite length_append. lia. Qed.

Lemma len_nonneg (a : string) : 0 <= Str.len a.
Proof. unfold Str.len. lia. Qed.

Lemma to_nat_len (a : string) : Z.to_nat (Str.len a) = String.length a.
Proof. unfold Str.len. apply Nat2Z.id. Qed.

Lemma find_at_zero (s sub : string) : Str.find s sub 0 = Str.find_from s sub 0.
Proof.
  unfold Str.find. cbn [Z.ltb Z.compare Z.to_nat Str.drop].
  pose proof (len_nonneg s). destruct (Z.ltb_spec (Str.len s) 0); [lia | reflexivity].
Qed.

Lemma find_at_offset (a b sub : string) :
  Str.find (a ++ b) sub (Str.len a) = Str.find_from b sub (Str.len a).
Proof.
  unfold Str.find. pose proof (len_nonneg a). pose proof (len_nonneg b).
  destruct (Z.ltb_spec (Str.len a) 0); [lia |].
  rewrite len_app. destruct (Z.ltb_spec (Str.len a + Str.len b) (Str.len a)); [lia |].
  rewrite to_nat_len, drop_app. reflexivity.
Qed.

Lemma clamp_inside (n i : Z) : 0 <= i <= n -> Str.clamp n i = i.
Proof.
  intros Hi. unfold Str.clamp. destruct (Z.ltb_spec i 0); lia.
Qed.

Lemma slice_from (a b : string) : Str.slice (a ++ b) (Str.len a) None = b.
Proof.
  unfold Str.slice. pose proof (len_nonneg a). pose proof (len_nonneg b).
  rewrite len_app, clamp_inside by lia.
  rewrite to_nat_len, drop_app.
  replace (Str.len a + Str.len b - Str.len a) with (Str.len b) by lia.
  rewrite to_nat_len. apply take_all.
Qed.

Lemma slice_mid (a b c : string) :
  Str.slice (a ++ b ++ c) (Str.len a) (Some (Str.len a + Str.len b)) = b.
Proof.
  unfold Str.slice. pose proof (len_nonneg a). pose proof (len_nonneg b).
  pose proof (len_nonneg c).
  rewrite !len_app, !clamp_inside by lia.
  rewrite to_nat_len, drop_app.
  replace (Str.len a + Str.len b - Str.len a) with (Str.len b) by lia.
  rewrite to_nat_len. apply take_app.
Qed.

Lemma slice_empty (s : string) (i : Z) : Str.slice s i (Some i) = EmptyString.
Proof.
  unfold Str.slice. rewrite Z.sub_diag. cbn [Z.to_nat].
  now destruct (Str.drop _ s).
Qed.

End SliceFacts.

(** ** The brace scan *)

Section Scan.

Lemma brace_depth_app (a b : string) :
  brace_depth (a ++ b) = brace_depth a + brace_depth b.
Proof. induction a as [|c a IH]; cbn [brace_depth append]; lia. Qed.

Lemma brace_depth_take_step (n : nat) (s : string) :
  -1 <= brace_depth (Str.take (S n) s) - brace_depth (Str.take n s) <= 1.
Proof.
  revert s; induction n as [|n IH]; intros [|c s];
    cbn [Str.take brace_depth]; try lia.
  - destruct s; cbn [Str.take brace_depth];
      destruct (Ascii.eqb c "{"), (Ascii.eqb c "}"); lia.
  - specialize (IH s). cbn [Str.take brace_depth] in IH.
    destruct s as [|d s]; cbn [Str.take brace_depth] in *; lia.
Qed.

(** Inside a balanced object the counter is positive. *)
Lemma balanced_positive (obj : string) :
  balanced_object obj ->
  forall n : nat, (0 < n < String.length obj)%nat -> 0 < brace_depth (Str.take n obj).
Proof.
  intros (Hs & _ & Hnz) n. induction n as [|n IH]; [lia |].
  intros Hn. destruct n as [|n].
  - destruct obj as [|c obj]; [discriminate |].
    cbn [Str.startswith] in Hs. apply andb_true_iff in Hs as [Hc _].
    destruct obj; cbn [Str.take brace_depth]; rewrite Ascii.eqb_sym, Hc; lia.
  - specialize (IH ltac:(lia)). pose proof (Hnz (S (S n)) Hn).
    pose proof (brace_depth_take_step (S n) obj). lia.
Qed.

(** The loop breaks at the character that takes a positive counter back to
    zero for the first time, whatever follows it. *)
Lemma scan_braces_closes (s t : string) (i c : Z) :
  0 < c ->
  c + brace_depth s = 0 ->
  (forall n : nat, (0 < n < String.length s)%nat -> 0 < c + brace_depth (Str.take n s)) ->
  scan_braces (s ++ t) i c = Some (i + Str.len s - 1).
Proof.
  revert i c; induction s as [|a s IH]; intros i c Hc Hz Hpos.
  - cbn [brace_depth] in Hz. lia.
  - cbn [append scan_braces]. cbn [brace_depth] in Hz.
    assert (Htl : forall n : nat, (0 < n < String.length s)%nat ->
              0 < c + ((if Ascii.eqb a "{" then 1 else if Ascii.eqb a "}" then -1 else 0)
                       + brace_depth (Str.take n s))).
    { intros n Hn. specialize (Hpos (S n)). cbn [Str.take brace_depth String.length] in Hpos.
      apply Hpos. lia. }
    replace (Str.len (String a s)) with (Str.len s + 1)
      by (unfold Str.len; cbn [String.length]; lia).
    destruct (Ascii.eqb a "{") eqn:Eo.
    + rewrite (IH (i + 1) (c + 1)); [f_equal; lia | lia | lia |].
      intros n Hn. specialize (Htl n Hn). lia.
    + destruct (Ascii.eqb a "}") eqn:Ec.
      * destruct (Z.eqb_spec (c - 1) 0) as [E0 | E0].
        -- destruct s as [|b s].
           ++ unfold Str.len; cbn [String.length]. f_equal; lia.
           ++ specialize (Hpos 1%nat). cbn [Str.take brace_depth String.length] in Hpos.
              rewrite Eo, Ec in Hpos.
              assert (0 < c + (-1 + 0)) by (apply Hpos; lia). lia.
        -- assert (0 < c - 1).
           { destruct s as [|b s]; [cbn [brace_depth] in Hz; lia |].
             specialize (Hpos 1%nat). cbn [Str.take brace_depth String.length] in Hpos.
             rewrite Eo, Ec in Hpos.
             assert (0 < c + (-1 + 0)) by (apply Hpos; lia). lia. }
           rewrite (IH (i + 1) (c - 1)); [f_equal; lia | lia | lia |].
           intros n Hn. specialize (Htl n Hn). lia.
      * rewrite (IH (i + 1) c); [f_equal; lia | lia | lia |].
        intros n Hn. specialize (Htl n Hn). lia.
Qed.

Lemma scan_braces_balanced (obj t : string) (i : Z) :
  balanced_object obj ->
  scan_braces (obj ++ t) i 0 = Some (i + Str.len obj - 1).
Proof.
  intros Hb. pose proof (balanced_positive obj Hb) as Hpos.
  destruct Hb as (Hs & Hz & _).
  destruct obj as [|c body]; [discriminate |].
  cbn [Str.startswith] in Hs. apply andb_true_iff in Hs as [Hc _]. rewrite Ascii.eqb_sym in Hc.
  cbn [append scan_braces]. rewrite Hc.
  cbn [brace_depth] in Hz. rewrite Hc in Hz.
  rewrite (scan_braces_closes body t (i + 1) (0 + 1)).
  - f_equal. unfold Str.len; cbn [String.length]. lia.
  - lia.
  - lia.
  - intros n Hn. specialize (Hpos (S n)).
    cbn [Str.take brace_depth String.length] in Hpos. rewrite Hc in Hpos.
    assert (0 < 1 + brace_depth (Str.take n body)) by (apply Hpos; lia). lia.
Qed.

Lemma take_append (n : nat) (a b : string) :
  Str.take n (a ++ b) =
    if (n <=? String.length a)%nat then Str.take n a
    else a ++ Str.take (n - String.length a) b.
Proof.
  revert n; induction a as [|c a IH]; intros n; cbn [append String.length].
  - destruct n; cbn [Nat.leb Str.take]; [now destruct b | now rewrite Nat.sub_0_r].
  - destruct n as [|n]; cbn [Nat.leb Str.take Nat.sub]; [reflexivity |].
    rewrite IH. now destruct (n <=? String.length a)%nat.
Qed.

(** Inside well-nested text the counter never goes below its start, and
    it ends where it started. *)
Lemma nested_body_depth (body : string) :
  nested_body body ->
  brace_depth body = 0 /\ forall n : nat, 0 <= brace_depth (Str.take n body).
Proof.
  induction 1 as [| c body Ho Hc _ [IHz IHn] | inner body _ [IHiz IHin] _ [IHz IHn]].
  - split; [reflexivity | intros [|n]; cbn; lia].
  - split.
    + cbn [brace_depth]. rewrite Ho, Hc. lia.
    + intros [|n]; cbn [Str.take brace_depth]; [lia |].
      rewrite Ho, Hc. specialize (IHn n). lia.
  - cbn [append]. split.
    + cbn [brace_depth Ascii.eqb Bool.eqb]. rewrite brace_depth_app.
      cbn [brace_depth Ascii.eqb Bool.eqb]. lia.
    + intros [|n]; cbn [Str.take brace_depth Ascii.eqb Bool.eqb]; [lia |].
      rewrite take_append.
      destruct (n <=? String.length inner)%nat.
      * specialize (IHin n). lia.
      * rewrite brace_depth_app.
        destruct (n - String.length inner)%nat as [|m];
          cbn [Str.take brace_depth Ascii.eqb Bool.eqb]; [lia |].
        specialize (IHn m). lia.
Qed.

(** Every object of the grammar is balanced, however deep it nests. *)
Lemma nested_balanced (obj : string) : nested obj -> balanced_object obj.
Proof.
  intros (body & Hbody & ->).
  destruct (nested_body_depth body Hbody) as [Hz Hn].
  unfold balanced_object. cbn [append]. split.
  { cbn [Str.startswith]. now rewrite startswith_empty, Ascii.eqb_refl. }
  split.
  - cbn [brace_depth Ascii.eqb Bool.eqb]. rewrite brace_depth_app.
    cbn [brace_depth Ascii.eqb Bool.eqb]. lia.
  - intros n [Hpos Hlt]. cbn [String.length] in Hlt. rewrite length_append in Hlt.
    cbn [String.length] in Hlt.
    destruct n as [|n]; [lia |].
    cbn [Str.take brace_depth Ascii.eqb Bool.eqb].
    rewrite take_append.
    destruct (Nat.leb_spec n (String.length body)); [|lia].
    specialize (Hn n). lia.
Qed.

End Scan.

(** ** Extraction of the fact block *)

Section Extraction.

Lemma balancedb_correct (obj : string) :
  balancedb obj = true <-> balanced_object obj.
Proof.
  unfold balancedb, balanced_object.
  rewrite !andb_true_iff, forallb_forall, Z.eqb_eq.
  split.
  - intros [[Hs Hz] Hn]. repeat split; try assumption.
    intros n Hlt. specialize (Hn n). rewrite in_seq in Hn.
    destruct (Z.eqb_spec (brace_depth (Str.take n obj)) 0); [|assumption].
    assert (false = true) by (apply Hn; lia). discriminate.
  - intros (Hs & Hz & Hn). repeat split; try assumption.
    intros n Hin. apply in_seq in Hin.
    apply negb_true_iff, Z.eqb_neq, Hn. lia.
Qed.

(** The first brace at or after the marker is the marker's own. *)
Lemma find_brace_in_fact_marker (rest : string) (i : Z) :
  Str.find_from ("DisconSchedule.fact = " ++ String "{" rest) "{" i = i + 22.
Proof. cbn. rewrite startswith_empty. lia. Qed.

Lemma find_brace_in_preset_marker (rest : string) (i : Z) :
  Str.find_from ("DisconSchedule.preset = " ++ String "{" rest) "{" i = i + 24.
Proof. cbn. rewrite startswith_empty. lia. Qed.

Lemma balanced_starts (obj : string) :
  balanced_object obj -> exists body, obj = String "{" body.
Proof.
  intros [Hs _]. destruct obj as [|c body]; [discriminate |].
  cbn [Str.startswith] in Hs. apply andb_true_iff in Hs as [Hc _].
  apply Ascii.eqb_eq in Hc. subst c. now exists body.
Qed.

(** C1. When the first occurrence of the marker in the page is followed by
    an object whose closing brace is the first to take the depth counter
    back to zero, the extraction step returns exactly that object, from the
    marker's brace up to and including the closing one, whatever text
    follows the object and however deep its braces nest. *)
Theorem fact_json_str_balanced (pre obj trailing : string) :
  Str.find (pre ++ "DisconSchedule.fact = " ++ obj ++ trailing) fact_marker 0
    = Str.len pre ->
  balanced_object obj ->
  fact_json_str (pre ++ "DisconSchedule.fact = " ++ obj ++ trailing) = Ok obj.
Proof.
  intros Hfind Hb. unfold fact_json_str. rewrite Hfind.
  pose proof (len_nonneg pre) as Hpre.
  destruct (Z.eqb_spec (Str.len pre) (-1)) as [E | _]; [lia |].
  destruct (balanced_starts obj Hb) as [body Hobj].
  rewrite find_at_offset.
  assert (Hjs : Str.find_from ("DisconSchedule.fact = " ++ obj ++ trailing) "{" (Str.len pre)
                = Str.len (pre ++ "DisconSchedule.fact = ")).
  { rewrite Hobj. cbn [append]. rewrite (find_brace_in_fact_marker (body ++ trailing)).
    rewrite len_app. reflexivity. }
  rewrite Hjs.
  replace (pre ++ "DisconSchedule.fact = " ++ obj ++ trailing)
    with ((pre ++ "DisconSchedule.fact = ") ++ obj ++ trailing)
    by (rewrite append_assoc; reflexivity).
  rewrite slice_from, scan_braces_balanced by exact Hb.
  replace (Str.len (pre ++ "DisconSchedule.fact = ") + Str.len obj - 1 + 1)
    with (Str.len (pre ++ "DisconSchedule.fact = ") + Str.len obj) by lia.
  rewrite slice_mid. reflexivity.
Qed.

Lemma fact_json_str_balanced_witness :
  fact_json_str
    ("<script>var x = {};" ++ "DisconSchedule.fact = "
       ++ "{a:{b:{c:{d:{e:{f:1}}}}},g:{}}" ++ "; DisconSchedule.preset = {{ } </script>}")
  = Ok "{a:{b:{c:{d:{e:{f:1}}}}},g:{}}".
Proof.
  apply fact_json_str_balanced.
  - vm_compute. reflexivity.
  - apply balancedb_correct. vm_compute. reflexivity.
Defined.

End Extraction.

(** ** parse_schedule: which failures are raised where *)

Section ParseSchedule.
Context `{Host}.

Lemma fact_json_str_absent (html : string) :
  Str.find html fact_marker 0 = -1 -> fact_json_str html = Raise FactNotFound.
Proof. intros E. unfold fact_json_str. now rewrite E. Qed.

Lemma fact_json_str_present (html : string) :
  Str.find html fact_marker 0 <> -1 ->
  fact_json_str html =
    Ok (Str.slice html (Str.find html "{" (Str.find html fact_marker 0))
          (Some (match fact_scan html with
                 | Some i => i + 1
                 | None => Str.find html "{" (Str.find html fact_marker 0)
                 end))).
Proof.
  intros E. unfold fact_json_str, fact_scan.
  destruct (Z.eqb_spec (Str.find html fact_marker 0) (-1)); [contradiction | reflexivity].
Qed.

Lemma preset_json_str_none (html : string) :
  preset_json_str html = None <->
  Str.find html preset_marker 0 = -1 \/ preset_scan html = None.
Proof.
  unfold preset_json_str, preset_scan.
  destruct (Z.eqb_spec (Str.find html preset_marker 0) (-1)) as [E | E]; cbn [negb].
  - split; [now left | reflexivity].
  - destruct (scan_braces _ _ 0).
    + split; [discriminate | intros [? | ?]; [contradiction | discriminate]].
    + split; [now right | reflexivity].
Qed.

(** No failure of [parse_schedule] after the marker has been found is the
    marker's own. *)
Lemma parse_schedule_after_marker (html s : string) :
  fact_json_str html = Ok s -> parse_schedule html <> Raise FactNotFound.
Proof.
  intros E. unfold parse_schedule. rewrite E. cbn [bind].
  destruct (json_loads s); cbn [of_option bind]; [|discriminate].
  destruct (preset_json_str html) as [p |]; cbn [bind]; [|discriminate].
  destruct (json_loads p); cbn [of_option bind]; discriminate.
Qed.

(** C3, as the code has it.  The extraction of the fact block raises exactly
    when the marker is absent, and what it raises is the marker's error.
    When the marker is there but no brace takes the counter back to zero,
    the extraction does not fail: it yields the empty string, and it is
    [json.loads] that fails on it. *)
Theorem fact_extraction_failures (html : string) :
  (Str.find html fact_marker 0 = -1 ->
     fact_json_str html = Raise FactNotFound /\
     parse_schedule html = Raise FactNotFound) /\
  (Str.find html fact_marker 0 <> -1 ->
     (exists s, fact_json_str html = Ok s) /\
     parse_schedule html <> Raise FactNotFound) /\
  (Str.find html fact_marker 0 <> -1 -> fact_scan html = None ->
     fact_json_str html = Ok EmptyString /\
     (json_loads EmptyString = None -> parse_schedule html = Raise JSONDecodeError)).
Proof.
  split; [|split].
  - intros Habsent. split; [now apply fact_json_str_absent |].
    unfold parse_schedule. now rewrite fact_json_str_absent.
  - intros Hpresent. split.
    + rewrite fact_json_str_present by assumption. eauto.
    + apply (parse_schedule_after_marker html _ (fact_json_str_present html Hpresent)).
  - intros Hpresent Hscan. split.
    + rewrite fact_json_str_present, Hscan by assumption. now rewrite slice_empty.
    + intros Hl. unfold parse_schedule.
      rewrite fact_json_str_present, Hscan by assumption. rewrite slice_empty.
      cbn [bind]. now rewrite Hl.
Qed.

(** C5. When the preset block cannot be extracted, because its marker is
    absent or because no brace closes it, [parse_schedule] goes on with an
    empty object for it: the call fails only if the fact block fails, and
    otherwise returns the fact data with [preset = {}]. *)
Theorem preset_failure_is_recovered (html : string) :
  Str.find html preset_marker 0 = -1 \/ preset_scan html = None ->
  parse_schedule html =
    (s <- fact_json_str html ;;
     fact_data <- of_option JSONDecodeError (json_loads s) ;;
     Ok {| fact := fact_data; preset := JDict []; fetched_at := now_isoformat |}).
Proof.
  intros Hp. apply preset_json_str_none in Hp.
  unfold parse_schedule. rewrite Hp. reflexivity.
Qed.

End ParseSchedule.

Lemma fact_extraction_failures_witness :
  let html := "<html>DisconSchedule.fact = {{}</html>" in
  fact_json_str html = Ok EmptyString /\
  @parse_schedule (Reference.host html 0) html = Raise JSONDecodeError /\
  @parse_schedule (Reference.host "<html></html>" 0) "<html></html>" = Raise FactNotFound.
Proof.
  cbv zeta.
  pose proof (@fact_extraction_failures (Reference.host "<html>DisconSchedule.fact = {{}</html>" 0)
                "<html>DisconSchedule.fact = {{}</html>") as (_ & _ & H3).
  pose proof (@fact_extraction_failures (Reference.host "<html></html>" 0)
                "<html></html>") as (H1 & _).
  assert (Hm : Str.find "<html>DisconSchedule.fact = {{}</html>" fact_marker 0 <> -1)
    by (vm_compute; discriminate).
  assert (Hs : fact_scan "<html>DisconSchedule.fact = {{}</html>" = None)
    by (vm_compute; reflexivity).
  destruct (H3 Hm Hs) as [Hf Hd].
  split; [exact Hf |]. split.
  - apply Hd. vm_compute. reflexivity.
  - apply H1. vm_compute. reflexivity.
Defined.

(** C3 as stated fails: the marker is found, no brace brings the counter
    back to zero, and yet the extraction raises nothing; the run fails
    later, in [json.loads]. *)
Lemma unbalanced_fact_is_a_decode_error :
  let html := "<html>DisconSchedule.fact = {{}</html>" in
  Str.find html fact_marker 0 <> -1 /\
  fact_scan html = None /\
  ~ (exists e, fact_json_str html = Raise e) /\
  @parse_schedule (Reference.host html 0) html = Raise JSONDecodeError.
Proof.
  cbv zeta. repeat split.
  - vm_compute. discriminate.
  - intros [e He]. vm_compute in He. discriminate.
Qed.

Lemma preset_failure_is_recovered_witness :
  let html := Reference.dq
    "DisconSchedule.fact = {'update':'12:00'}; DisconSchedule.preset = {{'a':1};" in
  @parse_schedule (Reference.host html 1700000000) html =
    Ok {| fact := JDict [("update", JStr "12:00")];
          preset := JDict [];
          fetched_at := "2023-11-14T22:13:20" |}.
Proof.
  cbv zeta. rewrite preset_failure_is_recovered.
  - vm_compute. reflexivity.
  - right. vm_compute. reflexivity.
Defined.

(** ** The status normaliser *)

Section Normaliser.

Lemma contains_spec (s sub : string) :
  Str.contains s sub = true <-> has_substring s sub.
Proof.
  unfold Str.contains, has_substring. rewrite find_at_zero, negb_true_iff, Z.eqb_neq.
  split.
  - intros Hf. destruct (find_from_found s sub 0 Hf ltac:(lia)) as (n & _ & Hs & _).
    apply startswith_prefix in Hs as [t Ht].
    exists (Str.take n s), t. rewrite <- Ht. symmetry. apply take_drop.
  - intros (a & b & ->) Hf.
    pose proof (find_from_none _ _ 0 Hf ltac:(lia) (String.length a)) as Hn.
    rewrite drop_app, startswith_app in Hn. discriminate.
Qed.

Lemma contains_false (s sub : string) :
  Str.contains s sub = false <-> ~ has_substring s sub.
Proof.
  rewrite <- contains_spec. destruct (Str.contains s sub); split; intro; congruence.
Qed.

(** C4. On a string the normaliser never fails and returns a string: the
    label of the exact-match table for "yes", "no", "first" and "second";
    otherwise "possible_outage" when the code contains "maybe"; otherwise
    the code itself. *)
Theorem readable_status_of_string (code : string) :
  exists label : string,
    readable_status (JStr code) = Ok (JStr label) /\ normalizes_to code label.
Proof.
  unfold readable_status, normalizes_to. cbn [py_eq_str py_in bind].
  destruct (String.eqb_spec code "yes") as [-> | Hy].
  { exists "light_on". repeat split; congruence. }
  destruct (String.eqb_spec code "no") as [-> | Hn].
  { exists "light_off". repeat split; congruence. }
  destruct (String.eqb_spec code "first") as [-> | Hf].
  { exists "off_first_30min". repeat split; congruence. }
  destruct (String.eqb_spec code "second") as [-> | Hs].
  { exists "off_second_30min". repeat split; congruence. }
  destruct (Str.contains code "maybe") eqn:Hm.
  - exists "possible_outage". repeat split; try congruence.
    intros Hno. apply contains_spec in Hm. contradiction.
  - exists code. repeat split; try congruence.
    intros Hyes. apply contains_false in Hm. contradiction.
Qed.

Example readable_status_examples :
  map readable_status
    [JStr "yes"; JStr "no"; JStr "first"; JStr "second"; JStr "maybe_x";
     JStr "mmaybe"; JStr "unknown_code"; JStr EmptyString]
  = map Ok
    [JStr "light_on"; JStr "light_off"; JStr "off_first_30min";
     JStr "off_second_30min"; JStr "possible_outage"; JStr "possible_outage";
     JStr "unknown_code"; JStr EmptyString].
Proof. reflexivity. Qed.

(** A status that is not a string goes through the same tests: a number
    cannot be searched, a list is searched for the element "maybe". *)
Example readable_status_not_a_string :
  readable_status (JNumber "1") = Raise TypeError /\
  readable_status JNull = Raise TypeError /\
  readable_status (JList [JStr "maybe"]) = Ok (JStr "possible_outage") /\
  readable_status (JList [JStr "yes"]) = Ok (JList [JStr "yes"]).
Proof. repeat split. Qed.

End Normaliser.

(** ** Time ranges *)

Section TimeRange.
Context `{Host}.

Lemma time_range_two_digits (h : Z) :
  1 <= h <= 24 ->
  time_range h = two_digits (h - 1) ++ ":00-" ++ two_digits h ++ ":00".
Proof.
  intros Hh. replace h with (Z.of_nat (Z.to_nat h)) by lia.
  assert (Hn : (1 <= Z.to_nat h <= 24)%nat) by lia.
  generalize dependent (Z.to_nat h). clear. intros n Hn.
  do 25 (destruct n as [|n]; [try lia; reflexivity |]). lia.
Qed.

End TimeRange.

(** ** Dicts *)

Section DictFacts.
Context {V : Type}.
Implicit Types (d : dict V) (k : string) (v : V).

Lemma get_set_same k v d : Dict.get k (Dict.set k v d) = Some v.
Proof.
  induction d as [|[k' v'] d IH]; cbn [Dict.set Dict.get].
  - now rewrite String.eqb_refl.
  - destruct (String.eqb k k') eqn:E; cbn [Dict.get]; rewrite E; [reflexivity | exact IH].
Qed.

Lemma get_set_other k k' v d :
  k <> k' -> Dict.get k' (Dict.set k v d) = Dict.get k' d.
Proof.
  intros Hne. induction d as [|[k0 v0] d IH]; cbn [Dict.set Dict.get].
  - destruct (String.eqb_spec k' k); [congruence | reflexivity].
  - destruct (String.eqb_spec k k0) as [-> | Hk]; cbn [Dict.get].
    + destruct (String.eqb_spec k' k0); [congruence | reflexivity].
    + now rewrite IH.
Qed.

Lemma set_set k v v' d : Dict.set k v' (Dict.set k v d) = Dict.set k v' d.
Proof.
  induction d as [|[k0 v0] d IH]; cbn [Dict.set].
  - now rewrite String.eqb_refl.
  - destruct (String.eqb k k0) eqn:E; cbn [Dict.set]; rewrite E; [reflexivity | now rewrite IH].
Qed.

Lemma set_nonempty k v d : Dict.set k v d <> [].
Proof.
  destruct d as [|[k0 v0] d]; cbn [Dict.set]; [discriminate |].
  destruct (String.eqb k k0); discriminate.
Qed.

Lemma in_set k v d k' v' :
  In (k', v') (Dict.set k v d) -> (k' = k /\ v' = v) \/ In (k', v') d.
Proof.
  induction d as [|[k0 v0] d IH]; cbn [Dict.set].
  - intros [E | []]. left. now inversion E.
  - destruct (String.eqb_spec k k0) as [-> | Hk].
    + intros [E | Hin]; [left; now inversion E | right; now right].
    + intros [E | Hin]; [right; now left |].
      destruct (IH Hin) as [? | ?]; [now left | right; now right].
Qed.

Lemma mem_keys k d : Dict.mem k d = true <-> In k (Dict.keys d).
Proof.
  unfold Dict.mem, Dict.keys.
  induction d as [|[k0 v0] d IH]; cbn [Dict.get map fst In].
  - split; [discriminate | contradiction].
  - destruct (String.eqb_spec k k0) as [-> | Hk].
    + split; [now left | reflexivity].
    + rewrite IH. split; [now right | intros [? | ?]; [congruence | assumption]].
Qed.

Lemma set_get_id k v d : Dict.get k d = Some v -> Dict.set k v d = d.
Proof.
  induction d as [|[k0 v0] d IH]; cbn [Dict.set Dict.get]; [discriminate |].
  destruct (String.eqb_spec k k0) as [-> | Hk].
  - intros E; now inversion E.
  - intros E. now rewrite IH.
Qed.

End DictFacts.

(** ** The schedule builder *)

Section Builder.
Context `{Host}.

(** The inner loop only touches the day it was started for. *)
Lemma foldM_hour_step (date : string) (hours : dict json) :
  forall (days : dict (dict json)) (day : dict json),
    Dict.get date days = Some day ->
    foldM (hour_step date) days hours =
      (day' <- format_hours hours day ;; Ok (Dict.set date day' days)).
Proof.
  unfold format_hours.
  induction hours as [|[hour_str status] hours IH]; intros days day Hget.
  - cbn [foldM bind]. now rewrite set_get_id.
  - cbn [foldM fst snd]. unfold hour_step at 1, set_day_entry.
    destruct (py_int hour_str) as [h |]; cbn [of_option bind]; [|reflexivity].
    destruct (readable_status status) as [label | e]; cbn [bind]; [|reflexivity].
    rewrite Hget. cbn [of_option bind].
    rewrite (IH _ (Dict.set (time_range h) label day)) by apply get_set_same.
    destruct (foldM _ (Dict.set (time_range h) label day) hours); cbn [bind];
      [now rewrite set_set | reflexivity].
Qed.

Lemma timestamp_step_eq (g : string) (days : dict (dict json))
    (timestamp : string) (groups_data : json) :
  timestamp_step g days (timestamp, groups_data) =
    (date <- item_date timestamp ;;
     present <- py_in g groups_data ;;
     if present then
       day <- group_day g groups_data ;; Ok (Dict.set date day days)
     else Ok days).
Proof.
  unfold timestamp_step, item_date, group_day.
  destruct (py_int timestamp) as [t |]; cbn [of_option bind]; [|reflexivity].
  destruct (local_date t) as [date | e]; cbn [bind]; [|reflexivity].
  destruct (py_in g groups_data) as [[|] | e]; cbn [bind]; try reflexivity.
  destruct (py_getitem groups_data g) as [hours_data | e]; cbn [bind]; [|reflexivity].
  destruct (py_items hours_data) as [hours | e]; cbn [bind]; [|reflexivity].
  rewrite (foldM_hour_step date hours _ []) by apply get_set_same.
  destruct (format_hours hours []); cbn [bind]; [now rewrite set_set | reflexivity].
Qed.

(** What the loop over the timestamps leaves under each date: the day of
    the last item that is for that date and holds the group. *)
Lemma days_lookup (g : string) (data : dict json) :
  forall days0 days1 : dict (dict json),
    foldM (timestamp_step g) days0 data = Ok days1 ->
    forall date : string,
      option_map Ok (Dict.get date days1) =
        match find_last (contributes g date) data with
        | Some item => Some (group_day g (snd item))
        | None => option_map Ok (Dict.get date days0)
        end.
Proof.
  induction data as [|[timestamp groups_data] data IH]; intros days0 days1 Hfold date.
  - cbn in Hfold. now inversion Hfold.
  - cbn [foldM] in Hfold. rewrite timestamp_step_eq in Hfold.
    cbn [find_last]. unfold contributes at 2. cbn [fst snd].
    destruct (item_date timestamp) as [d | e]; cbn [bind] in Hfold; [|discriminate].
    destruct (py_in g groups_data) as [[|] | e]; cbn [bind] in Hfold;
      [| | discriminate].
    + destruct (group_day g groups_data) as [day | e] eqn:Eday; cbn [bind] in Hfold;
        [|discriminate].
      rewrite (IH _ _ Hfold date).
      destruct (find_last (contributes g date) data); [reflexivity |].
      destruct (String.eqb_spec d date) as [-> | Hne].
      * rewrite get_set_same. cbn [option_map snd]. now rewrite Eday.
      * now rewrite get_set_other.
    + rewrite (IH _ _ Hfold date).
      now destruct (find_last (contributes g date) data).
Qed.

(** Every day of the result was built from one item of the data. *)
Lemma days_members (g : string) (data : dict json) :
  forall days0 days1 : dict (dict json),
    foldM (timestamp_step g) days0 data = Ok days1 ->
    forall date day, In (date, day) days1 ->
      In (date, day) days0 \/
      exists timestamp groups_data,
        In (timestamp, groups_data) data /\ group_day g groups_data = Ok day.
Proof.
  induction data as [|[timestamp groups_data] data IH]; intros days0 days1 Hfold date day Hin.
  - cbn in Hfold. inversion Hfold; subst. now left.
  - cbn [foldM] in Hfold. rewrite timestamp_step_eq in Hfold.
    destruct (item_date timestamp) as [d | e]; cbn [bind] in Hfold; [|discriminate].
    destruct (py_in g groups_data) as [[|] | e]; cbn [bind] in Hfold;
      [| | discriminate].
    + destruct (group_day g groups_data) as [day' | e] eqn:Eday; cbn [bind] in Hfold;
        [|discriminate].
      destruct (IH _ _ Hfold date day Hin) as [Hin0 | (ts & gd & Hi & Hd)].
      * apply in_set in Hin0 as [[_ ->] | Hin0]; [|now left].
        right. exists timestamp, groups_data. split; [now left | exact Eday].
      * right. exists ts, gd. split; [now right | exact Hd].
    + destruct (IH _ _ Hfold date day Hin) as [Hin0 | (ts & gd & Hi & Hd)];
        [now left |].
      right. exists ts, gd. split; [now right | exact Hd].
Qed.

Lemma format_hours_nonempty (hours : dict json) :
  forall day0 day : dict json,
    format_hours hours day0 = Ok day -> hours <> [] \/ day0 <> [] -> day <> [].
Proof.
  unfold format_hours.
  induction hours as [|[hour_str status] hours IH]; intros day0 day Hf Hne.
  - cbn in Hf. inversion Hf; subst. destruct Hne; congruence.
  - cbn [foldM fst snd] in Hf.
    destruct (py_int hour_str) as [h |]; cbn [of_option bind] in Hf; [|discriminate].
    destruct (readable_status status) as [label | e]; cbn [bind] in Hf; [|discriminate].
    apply (IH _ _ Hf). right. apply set_nonempty.
Qed.

(** A day without entries comes from an hour mapping without entries. *)
Lemma group_day_empty (g : string) (groups_data : json) :
  group_day g groups_data = Ok [] -> py_getitem groups_data g = Ok (JDict []).
Proof.
  unfold group_day.
  destruct (py_getitem groups_data g) as [hours_data | e]; cbn [bind]; [|discriminate].
  destruct hours_data; cbn [py_items bind]; try discriminate.
  intros Hf. destruct items as [|item items]; [reflexivity |].
  exfalso. apply (format_hours_nonempty _ _ _ Hf); [left; discriminate | reflexivity].
Qed.

Lemma format_without_data (items : dict json) (g : string) :
  Dict.get "data" items = None ->
  format_schedule_for_group (JDict items) g = Ok {| group := g; days := [] |}.
Proof.
  intros Hd. unfold format_schedule_for_group. cbn [py_in bind].
  unfold Dict.mem. now rewrite Hd.
Qed.

Lemma format_with_data (items data : dict json) (g : string) :
  Dict.get "data" items = Some (JDict data) ->
  format_schedule_for_group (JDict items) g =
    (days <- foldM (timestamp_step g) [] data ;; Ok {| group := g; days := days |}).
Proof.
  intros Hd. unfold format_schedule_for_group. cbn [py_in py_getitem bind].
  unfold Dict.mem. rewrite Hd. reflexivity.
Qed.

(** A successful call either found no data or went through the loop. *)
Lemma format_ok_inv (fact_data : json) (g : string) (r : formatted) :
  format_schedule_for_group fact_data g = Ok r ->
  group r = g /\
  (days r = [] \/
   exists items data,
     fact_data = JDict items /\ Dict.get "data" items = Some (JDict data) /\
     foldM (timestamp_step g) [] data = Ok (days r)).
Proof.
  unfold format_schedule_for_group.
  destruct fact_data as [| b | lit | s | l | items]; cbn [py_in bind]; try discriminate.
  - destruct (Str.contains s "data"); cbn [negb py_getitem bind]; [discriminate |].
    intros E; inversion E; subst; cbn; auto.
  - destruct (existsb _ l); cbn [negb py_getitem bind]; [discriminate |].
    intros E; inversion E; subst; cbn; auto.
  - unfold Dict.mem. cbn [py_getitem].
    destruct (Dict.get "data" items) as [data |] eqn:Hd; cbn [negb of_option bind].
    + destruct data as [| b | lit | s | l | data]; cbn [py_items bind]; try discriminate.
      destruct (foldM (timestamp_step g) [] data) as [ds | e] eqn:Hf; cbn [bind];
        [|discriminate].
      intros E; inversion E; subst; cbn. split; [reflexivity |].
      right. exists items, data. auto.
    + intros E; inversion E; subst; cbn; auto.
Qed.

(** Every group of the output was configured, has at least one day, and
    maps to the days built for it. *)
Lemma groups_members (fact_data : json) (configured : list string) :
  forall groups0 groups1 : dict (dict (dict json)),
    foldM (group_step fact_data) groups0 configured = Ok groups1 ->
    forall g ds, In (g, ds) groups1 ->
      In (g, ds) groups0 \/
      (In g configured /\ ds <> [] /\
       format_schedule_for_group fact_data g = Ok {| group := g; days := ds |}).
Proof.
  induction configured as [|g0 configured IH]; intros groups0 groups1 Hfold g ds Hin.
  - cbn in Hfold. inversion Hfold; subst. now left.
  - cbn [foldM] in Hfold. unfold group_step at 1 in Hfold.
    destruct (format_schedule_for_group fact_data g0) as [r | e] eqn:Hr;
      cbn [bind] in Hfold; [|discriminate].
    pose proof (proj1 (format_ok_inv _ _ _ Hr)) as Hg.
    destruct r as [g0' ds0]; cbn [group days] in *; subst g0'.
    destruct ds0 as [|d0 ds0]; cbn [Dict.truthy] in Hfold.
    + destruct (IH _ _ Hfold g ds Hin) as [? | (Hc & Hne & Hf)]; [now left |].
      right. repeat split; [now right | exact Hne | exact Hf].
    + destruct (IH _ _ Hfold g ds Hin) as [Hin0 | (Hc & Hne & Hf)].
      * apply in_set in Hin0 as [[-> ->] | Hin0]; [|now left].
        right. repeat split; [now left | discriminate | exact Hr].
      * right. repeat split; [now right | exact Hne | exact Hf].
Qed.

End Builder.

Section BuilderClaims.
Context `{Host}.

Lemma find_last_app {A : Type} (p : A -> bool) (before after : list A) (x : A) :
  p x = true ->
  forallb (fun a => negb (p a)) after = true ->
  find_last p (before ++ x :: after) = Some x.
Proof.
  intros Hx Hafter.
  assert (Hnone : find_last p after = None).
  { induction after as [|a after IH]; [reflexivity |].
    cbn [forallb] in Hafter. apply andb_true_iff in Hafter as [Ha Hafter].
    cbn [find_last]. rewrite (IH Hafter).
    apply negb_true_iff in Ha. now rewrite Ha. }
  induction before as [|b before IH]; cbn [app find_last].
  - now rewrite Hnone, Hx.
  - now rewrite IH.
Qed.

(** C9. For a fact document without a "data" field the builder returns, for
    every group, a result with no days, and the groups of the output are
    empty; nothing is raised. *)
Theorem no_data_field (items : dict json) (p : json) (t : string)
    (configured : list string) :
  Dict.get "data" items = None ->
  (forall g, format_schedule_for_group (JDict items) g
             = Ok {| group := g; days := [] |}) /\
  build_output {| fact := JDict items; preset := p; fetched_at := t |} configured
  = Ok {| out_fetched_at := t;
          update_time := match Dict.get "update" items with
                         | Some u => u
                         | None => JStr "unknown"
                         end;
          groups := [] |}.
Proof.
  intros Hd. split; [intros g; now apply format_without_data |].
  unfold build_output. cbn [fact fetched_at py_get bind].
  assert (Hfold : forall acc, foldM (group_step (JDict items)) acc configured = Ok acc).
  { induction configured as [|g configured IH]; intros acc; [reflexivity |].
    cbn [foldM]. unfold group_step at 1. rewrite format_without_data by exact Hd.
    cbn [bind days Dict.truthy]. apply IH. }
  now rewrite Hfold.
Qed.

(** C10. Among the timestamps that convert to one date and hold the group,
    the last in iteration order decides: the day stored under that date is
    built from an empty mapping with the hour entries of that timestamp
    alone, whatever earlier timestamps of the same date had put there. *)
Theorem last_timestamp_of_a_date_wins (items before after : dict json)
    (timestamp : string) (groups_data : json) (g date : string) (r : formatted) :
  Dict.get "data" items = Some (JDict (before ++ (timestamp, groups_data) :: after)) ->
  contributes g date (timestamp, groups_data) = true ->
  forallb (fun item => negb (contributes g date item)) after = true ->
  format_schedule_for_group (JDict items) g = Ok r ->
  exists hours day,
    py_getitem groups_data g = Ok (JDict hours) /\
    format_hours hours [] = Ok day /\
    Dict.get date (days r) = Some day.
Proof.
  intros Hd Hlast Hafter Hr.
  rewrite (format_with_data _ _ _ Hd) in Hr.
  destruct (foldM (timestamp_step g) [] (before ++ (timestamp, groups_data) :: after))
    as [ds | e] eqn:Hfold; cbn [bind] in Hr; [|discriminate].
  inversion Hr; subst r; clear Hr. cbn [days].
  pose proof (days_lookup _ _ _ _ Hfold date) as Hlook.
  rewrite (find_last_app _ _ _ _ Hlast Hafter) in Hlook. cbn [snd] in Hlook.
  destruct (Dict.get date ds) as [day |]; cbn [option_map] in Hlook; [|discriminate].
  inversion Hlook as [Hday]. symmetry in Hday. unfold group_day in Hday.
  destruct (py_getitem groups_data g) as [hours_data | e]; cbn [bind] in Hday;
    [|discriminate].
  destruct hours_data as [| b | lit | s | l | hours]; cbn [py_items bind] in Hday;
    try discriminate.
  exists hours, day. auto.
Qed.

End BuilderClaims.

Lemma no_data_field_witness :
  @build_output (Reference.host EmptyString 0)
    {| fact := JDict [("update", JStr "12:00")]; preset := JDict [];
       fetched_at := "2023-11-14T22:13:20" |} GROUPS_TO_PARSE
  = Ok {| out_fetched_at := "2023-11-14T22:13:20";
          update_time := JStr "12:00";
          groups := [] |}.
Proof.
  apply (@no_data_field (Reference.host EmptyString 0)
           [("update", JStr "12:00")] (JDict []) "2023-11-14T22:13:20" GROUPS_TO_PARSE).
  reflexivity.
Defined.

(** C2 as stated fails: with an empty hour mapping for the group the date
    is a key of the output and maps to no time range at all. *)
Lemma empty_hours_give_an_empty_day :
  let fact_data :=
    JDict [("data", JDict [("1700000000", JDict [("GPV1.1", JDict [])])])] in
  let out := {| out_fetched_at := EmptyString; update_time := JStr "unknown";
                groups := [("GPV1.1", [("2023-11-14", [])])] |} in
  Reference.loads (Reference.dq "{'data':{'1700000000':{'GPV1.1':{}}}}")
  = Some fact_data /\
  @build_output (Reference.host EmptyString 0)
    {| fact := fact_data; preset := JDict []; fetched_at := EmptyString |}
    GROUPS_TO_PARSE
  = Ok out /\
  ~ (forall g ds date (day : dict json),
       In (g, ds) (groups out) -> In (date, day) ds -> day <> []).
Proof.
  cbv zeta. split; [vm_compute; reflexivity |]. split; [vm_compute; reflexivity |].
  intros Hall.
  apply (Hall "GPV1.1" [("2023-11-14", [])] "2023-11-14" []);
    [now left | now left | reflexivity].
Qed.

Lemma last_timestamp_of_a_date_wins_witness :
  let first := ("1700000000", JDict [("GPV1.1", JDict [("1", JStr "yes"); ("2", JStr "no")])]) in
  let last := ("1700003600", JDict [("GPV1.1", JDict [("3", JStr "maybe")])]) in
  let other := ("1700090000", JDict [("GPV1.1", JDict [("4", JStr "no")])]) in
  @format_schedule_for_group (Reference.host EmptyString 0)
    (JDict [("data", JDict [first; last; other])]) "GPV1.1"
  = Ok {| group := "GPV1.1";
          days := [("2023-11-14", [("02:00-03:00", JStr "possible_outage")]);
                   ("2023-11-15", [("03:00-04:00", JStr "light_off")])] |} /\
  exists hours day,
    py_getitem (snd last) "GPV1.1" = Ok (JDict hours) /\
    @format_hours (Reference.host EmptyString 0) hours [] = Ok day /\
    Dict.get "2023-11-14"
      [("2023-11-14", [("02:00-03:00", JStr "possible_outage")]);
       ("2023-11-15", [("03:00-04:00", JStr "light_off")])] = Some day.
Proof.
  cbv zeta. split; [vm_compute; reflexivity |].
  apply (@last_timestamp_of_a_date_wins (Reference.host EmptyString 0)
           [("data", JDict [("1700000000", JDict [("GPV1.1", JDict [("1", JStr "yes"); ("2", JStr "no")])]);
                            ("1700003600", JDict [("GPV1.1", JDict [("3", JStr "maybe")])]);
                            ("1700090000", JDict [("GPV1.1", JDict [("4", JStr "no")])])])]
           [("1700000000", JDict [("GPV1.1", JDict [("1", JStr "yes"); ("2", JStr "no")])])]
           [("1700090000", JDict [("GPV1.1", JDict [("4", JStr "no")])])]
           "1700003600" (JDict [("GPV1.1", JDict [("3", JStr "maybe")])])
           "GPV1.1" "2023-11-14"
           {| group := "GPV1.1";
              days := [("2023-11-14", [("02:00-03:00", JStr "possible_outage")]);
                       ("2023-11-15", [("03:00-04:00", JStr "light_off")])] |});
    vm_compute; reflexivity.
Defined.

(** ** The run as a whole *)

Section Run.
Context `{Host}.

Lemma fetch_dtek_page_eq (w : world) :
  fetch_dtek_page w =
    match requests_get with
    | Raise e => (Raise e, printed w [LConnecting])
    | Ok response =>
        if negb (status_code response =? 200) then
          (Raise (HttpError (status_code response)), printed w [LConnecting])
        else if (Str.char_len (text response) <? 1000)
                || negb (Str.contains (text response) "DisconSchedule") then
          (Raise ProtectionPage, printed w [LConnecting])
        else
          (Ok (text response),
           printed w [LConnecting; LPageReceived (Str.char_len (text response))])
    end.
Proof.
  unfold fetch_dtek_page, io_bind, print, lift, io_ret, printed.
  destruct requests_get as [response | e]; [|reflexivity].
  destruct (negb (status_code response =? 200)); [reflexivity |].
  destruct ((Str.char_len (text response) <? 1000)
            || negb (Str.contains (text response) "DisconSchedule")); [reflexivity |].
  cbn [stdout output_file]. now rewrite <- List.app_assoc.
Qed.

Lemma fetch_dtek_page_file (w : world) :
  output_file (snd (fetch_dtek_page w)) = output_file w.
Proof.
  rewrite fetch_dtek_page_eq.
  destruct requests_get as [response | e]; [|reflexivity].
  destruct (negb _); [reflexivity |]. now destruct (_ || _).
Qed.

Lemma print_today_ok (o : output) (w : world) :
  fst (print_today o w) = Ok tt /\
  output_file (snd (print_today o w)) = output_file w.
Proof.
  unfold print_today.
  destruct (Dict.get "GPV1.1" (groups o)) as [gpv11 |]; [|now split].
  destruct (Dict.get now_date gpv11) as [schedule |]; [|now split].
  unfold io_bind, print, io_ret.
  destruct (negb (Nat.eqb (List.length (keys_with "light_on" schedule)) 0));
    destruct (negb (Nat.eqb (List.length (keys_with "light_off" schedule)) 0));
    now split.
Qed.

(** The ways a run can go. *)
Lemma main_cases (w : world) :
  match fst (fetch_dtek_page w) with
  | Raise e => fst (main w) = false /\ output_file (snd (main w)) = output_file w
  | Ok html =>
      match parse_schedule html with
      | Raise e => fst (main w) = false /\ output_file (snd (main w)) = output_file w
      | Ok raw =>
          match build_output raw GROUPS_TO_PARSE with
          | Raise e => fst (main w) = false /\ output_file (snd (main w)) = output_file w
          | Ok out =>
              match write with
              | Written =>
                  fst (main w) = true /\ output_file (snd (main w)) = Document out
              | OpenRaises _ =>
                  fst (main w) = false /\ output_file (snd (main w)) = output_file w
              | DumpRaises _ =>
                  fst (main w) = false /\ output_file (snd (main w)) = Partial out
              end
          end
      end
  end.
Proof.
  pose proof (fetch_dtek_page_file w) as Hfile.
  remember (main w) as m eqn:Hm.
  unfold main, run in Hm. unfold io_bind at 1 in Hm.
  destruct (fetch_dtek_page w) as [[html | e] w1]; cbn [fst snd] in *;
    [|subst m; now split].
  unfold io_bind at 1 in Hm. cbn [print] in Hm.
  unfold io_bind at 1 in Hm. unfold lift at 1 in Hm.
  destruct (parse_schedule html) as [raw | e]; [|subst m; now split].
  unfold io_bind at 1 in Hm. unfold lift at 1 in Hm.
  destruct (build_output raw GROUPS_TO_PARSE) as [out | e]; [|subst m; now split].
  unfold io_bind at 1 in Hm. unfold dump at 1 in Hm.
  destruct write; [| subst m; now split | subst m; now split].
  do 4 (unfold io_bind at 1 in Hm; cbn [print] in Hm).
  unfold io_bind at 1 in Hm.
  match type of Hm with
  | context [print_today out ?w'] =>
      destruct (print_today_ok out w') as [Hok Hf];
      destruct (print_today out w') as [[[] | e] w2]; cbn [fst snd] in Hok, Hf;
      [| discriminate]
  end.
  cbn [print] in Hm. subst m. cbn [fst snd output_file]. now split.
Qed.

(** C6. A response with status 200 whose body has fewer than 1000 bytes,
    or whose text lacks the sentinel, is taken for the protection page:
    [fetch_dtek_page] raises, and [main] reports the failure without having
    started to parse and without touching the output file.  The code
    counts the characters of the decoded text, and a body has at least as
    many bytes as its text has characters. *)
Theorem protection_page_detected (response : Response) (body_bytes : Z) (w : world) :
  requests_get = Ok response ->
  status_code response = 200 ->
  Str.char_len (text response) <= body_bytes ->
  body_bytes < 1000 \/ ~ has_substring (text response) "DisconSchedule" ->
  fetch_dtek_page w
    = (Raise ProtectionPage,
       {| stdout := stdout w ++ [LConnecting]; output_file := output_file w |}) /\
  main w
    = (false,
       {| stdout := stdout w ++ [LConnecting; LError ProtectionPage];
          output_file := output_file w |}).
Proof.
  intros Hget Hstatus Hlen Hbad.
  assert (Hf : fetch_dtek_page w
    = (Raise ProtectionPage,
       {| stdout := stdout w ++ [LConnecting]; output_file := output_file w |})).
  { rewrite fetch_dtek_page_eq, Hget, Hstatus. cbn [Z.eqb Pos.eqb negb].
    replace ((Str.char_len (text response) <? 1000)
             || negb (Str.contains (text response) "DisconSchedule")) with true;
      [reflexivity |].
    symmetry. apply orb_true_iff. destruct Hbad as [Hshort | Hno].
    - left. apply Z.ltb_lt. lia.
    - right. apply negb_true_iff, contains_false, Hno. }
  split; [exact Hf |].
  unfold main, run. unfold io_bind at 1. rewrite Hf.
  cbn [stdout output_file]. now rewrite <- List.app_assoc.
Qed.

(** C7. When the fetch fails, or the fact marker is missing, or
    [json.loads] fails on either block, [main] returns [False] and the
    output file is what it was.  The file is touched only in runs that
    fetched, parsed and formatted in full, and when [main] returns [True]
    the file holds the whole document built in that run. *)
Theorem failure_writes_nothing (w : world) :
  (forall e, fst (fetch_dtek_page w) = Raise e ->
     fst (main w) = false /\ output_file (snd (main w)) = output_file w) /\
  (forall html,
     fst (fetch_dtek_page w) = Ok html ->
     fact_json_str html = Raise FactNotFound \/
     (exists s, fact_json_str html = Ok s /\ json_loads s = None) \/
     (exists p, preset_json_str html = Some p /\ json_loads p = None) ->
     fst (main w) = false /\ output_file (snd (main w)) = output_file w) /\
  (fst (main w) = true \/ output_file (snd (main w)) <> output_file w ->
     exists html raw out,
       fst (fetch_dtek_page w) = Ok html /\
       parse_schedule html = Ok raw /\
       build_output raw GROUPS_TO_PARSE = Ok out /\
       (fst (main w) = true -> output_file (snd (main w)) = Document out)).
Proof.
  pose proof (main_cases w) as Hc.
  split; [|split].
  - intros e He. rewrite He in Hc. exact Hc.
  - intros html Hfetch Hfail. rewrite Hfetch in Hc.
    assert (Hp : exists e, parse_schedule html = Raise e).
    { unfold parse_schedule.
      destruct Hfail as [Hm | [(s & Hs & Hl) | (p & Hp & Hl)]].
      - rewrite Hm. now exists FactNotFound.
      - rewrite Hs. cbn [bind]. rewrite Hl. now exists JSONDecodeError.
      - destruct (fact_json_str html) as [s | e]; cbn [bind]; [|now exists e].
        destruct (json_loads s); cbn [of_option bind]; [|now exists JSONDecodeError].
        rewrite Hp, Hl. now exists JSONDecodeError. }
    destruct Hp as [e Hp]. rewrite Hp in Hc. exact Hc.
  - intros Hreached.
    assert (Hno : fst (main w) = false /\ output_file (snd (main w)) = output_file w
                  -> False).
    { intros [Hf Hu]. destruct Hreached; congruence. }
    destruct (fst (fetch_dtek_page w)) as [html | e]; [|now destruct Hno].
    destruct (parse_schedule html) as [raw | e] eqn:Hp; [|now destruct Hno].
    destruct (build_output raw GROUPS_TO_PARSE) as [out | e] eqn:Hb; [|now destruct Hno].
    exists html, raw, out. repeat split; try assumption.
    intros Htrue. destruct write; destruct Hc as [Hf Hfile]; congruence.
Qed.

End Run.

Lemma protection_page_detected_witness :
  @main (Reference.host "<html>Request unsuccessful. Incapsula incident</html>" 1700000000)
    Reference.empty_world
  = (false, {| stdout := [LConnecting; LError ProtectionPage]; output_file := Absent |}).
Proof.
  apply (@protection_page_detected
           (Reference.host "<html>Request unsuccessful. Incapsula incident</html>" 1700000000)
           {| status_code := 200;
              text := "<html>Request unsuccessful. Incapsula incident</html>" |}
           53 Reference.empty_world).
  - reflexivity.
  - reflexivity.
  - vm_compute. discriminate.
  - left. lia.
Defined.

Lemma failure_writes_nothing_witness :
  let page := Reference.spaces 1000 ++ "<script>DisconSchedule.fact = {{</script>" in
  fst (@main (Reference.host page 1700000000) Reference.empty_world) = false /\
  output_file (snd (@main (Reference.host page 1700000000) Reference.empty_world))
  = Absent.
Proof.
  cbv zeta.
  apply (proj1 (proj2 (@failure_writes_nothing
           (Reference.host (Reference.spaces 1000 ++ "<script>DisconSchedule.fact = {{</script>")
              1700000000)
           Reference.empty_world))
         (Reference.spaces 1000 ++ "<script>DisconSchedule.fact = {{</script>")).
  - vm_compute. reflexivity.
  - right. left. exists EmptyString. split; vm_compute; reflexivity.
Defined.

(** A preset block that is located but is not JSON is another matter: its
    [json.loads] is not guarded, and the run fails. *)
Example preset_decode_failure_is_fatal :
  let html := Reference.dq
    "DisconSchedule.fact = {'update':'12:00'}; DisconSchedule.preset = {oops};" in
  preset_json_str html = Some "{oops}" /\
  @parse_schedule (Reference.host html 1700000000) html = Raise JSONDecodeError.
Proof. split; vm_compute; reflexivity. Qed.

(** ** The end-to-end scenario *)

Example main_on_fixture :
  @main (Reference.host Reference.fixture_page 1700000000) Reference.empty_world
  = (true,
     {| stdout :=
          [LConnecting; LPageReceived 1168; LParsing; LSaved; LSummary;
           LUpdateTime (JStr "12:00"); LGroupCount 1;
           LToday "2023-11-14"; LLightOn ["00:00-01:00"];
           LLightOff ["01:00-02:00"]; LDone];
        output_file :=
          Document {| out_fetched_at := "2023-11-14T22:13:20";
                  update_time := JStr "12:00";
                  groups :=
                    [("GPV1.1",
                      [("2023-11-14",
                        [("00:00-01:00", JStr "light_on");
                         ("01:00-02:00", JStr "light_off")])])] |} |}).
Proof. vm_compute. reflexivity. Qed.

Example fact_json_str_depths :
  fact_json_str "<script>DisconSchedule.fact = {}; var x = {1}</script>" = Ok "{}" /\
  fact_json_str "DisconSchedule.fact = {a:{b:1}}}}}" = Ok "{a:{b:1}}" /\
  fact_json_str "DisconSchedule.fact = {a:{b:{c:{d:{e:{}}}}}} {" = Ok "{a:{b:{c:{d:{e:{}}}}}}".
Proof. repeat split. Qed.

(** The scan counts braces inside string literals as well. *)
Example fact_json_str_brace_in_literal :
  fact_json_str (Reference.dq "DisconSchedule.fact = {'a':'}'};") = Ok (Reference.dq "{'a':'}").
Proof. vm_compute. reflexivity. Qed.

(** * Further properties of the code *)

(** ** What the brace scan returns *)

Section ScanSound.

Lemma drop_nonempty (n : nat) (s : string) :
  Str.drop n s <> EmptyString -> (n < String.length s)%nat.
Proof.
  revert s; induction n as [|n IH]; intros [|c s]; cbn [Str.drop String.length];
    try congruence; try lia.
  intros Hd. specialize (IH s Hd). lia.
Qed.

Lemma take_take (m n : nat) (s : string) :
  (m <= n)%nat -> Str.take m (Str.take n s) = Str.take m s.
Proof.
  revert n s; induction m as [|m IH]; intros [|n] [|c s] Hmn;
    cbn [Str.take]; try reflexivity; try lia.
  rewrite IH; [reflexivity | lia].
Qed.

Lemma slice_prefix (a cs : string) (k : nat) :
  (k <= String.length cs)%nat ->
  Str.slice (a ++ cs) (Str.len a) (Some (Str.len a + Z.of_nat k)) = Str.take k cs.
Proof.
  intros Hk. unfold Str.slice. pose proof (len_nonneg a).
  rewrite len_app.
  rewrite (clamp_inside _ (Str.len a)) by (unfold Str.len; lia).
  rewrite (clamp_inside _ (Str.len a + Z.of_nat k)) by (unfold Str.len; lia).
  rewrite to_nat_len, drop_app.
  replace (Str.len a + Z.of_nat k - Str.len a) with (Z.of_nat k) by lia.
  now rewrite Nat2Z.id.
Qed.

(** When the loop breaks, it breaks inside the text, on the first character
    that takes the counter to zero. *)
Lemma scan_braces_sound (cs : string) :
  forall (i c j : Z),
    0 < c ->
    scan_braces cs i c = Some j ->
    exists n : nat,
      j = i + Z.of_nat n /\
      (n < String.length cs)%nat /\
      c + brace_depth (Str.take (S n) cs) = 0 /\
      forall m : nat, (m <= n)%nat -> 0 < c + brace_depth (Str.take m cs).
Proof.
  induction cs as [|a cs IH]; intros i c j Hc Hscan; [discriminate |].
  cbn [scan_braces] in Hscan.
  assert (Hlift : forall c' : Z,
            0 < c' ->
            c' = c + (if Ascii.eqb a "{" then 1 else if Ascii.eqb a "}" then -1 else 0) ->
            scan_braces cs (i + 1) c' = Some j ->
            exists n : nat,
              j = i + Z.of_nat n /\
              (n < String.length (String a cs))%nat /\
              c + brace_depth (Str.take (S n) (String a cs)) = 0 /\
              forall m : nat, (m <= n)%nat ->
                              0 < c + brace_depth (Str.take m (String a cs))).
  { intros c' Hc' Ec' Hs. destruct (IH _ _ _ Hc' Hs) as (n & Hj & Hn & Hz & Hpos).
    exists (S n). cbn [String.length]. repeat split; [lia | lia | |].
    - cbn [Str.take brace_depth] in *. lia.
    - intros [|m] Hm; cbn [Str.take brace_depth]; [lia |].
      specialize (Hpos m ltac:(lia)). lia. }
  destruct (Ascii.eqb a "{") eqn:Eo.
  - apply (Hlift (c + 1)); [lia | lia | exact Hscan].
  - destruct (Ascii.eqb a "}") eqn:Ec.
    + destruct (Z.eqb_spec (c - 1) 0) as [E0 | E0].
      * inversion Hscan; subst j. exists 0%nat. cbn [String.length].
        repeat split; [lia | lia | |].
        -- destruct cs; cbn [Str.take brace_depth]; rewrite Eo, Ec; lia.
        -- intros m Hm. assert (m = 0%nat) by lia. subst m.
           cbn [Str.take brace_depth]. lia.
      * apply (Hlift (c - 1)); [lia | lia | exact Hscan].
    + apply (Hlift c); [lia | lia | exact Hscan].
Qed.

(** The scan of a block, started on its opening brace: what it cuts out
    is a balanced object, and nothing when it reaches the end of the
    text. *)
Lemma scan_region (a t : string) :
  match scan_braces (String "{" t) (Str.len a) 0 with
  | Some j =>
      exists obj rest,
        String "{" t = obj ++ rest /\
        balanced_object obj /\
        Str.slice (a ++ String "{" t) (Str.len a) (Some (j + 1)) = obj
  | None => True
  end.
Proof.
  destruct (scan_braces (String "{" t) (Str.len a) 0) as [j |] eqn:Hscan; [|exact I].
  cbn [scan_braces Ascii.eqb Bool.eqb] in Hscan.
  destruct (scan_braces_sound t _ 1 j ltac:(lia) Hscan) as (n & Hj & Hn & Hz & Hpos).
  exists (Str.take (S (S n)) (String "{" t)), (Str.drop (S (S n)) (String "{" t)).
  split; [symmetry; apply take_drop |]. split.
  - unfold balanced_object. split; [|split].
    + cbn [Str.take Str.startswith]. now rewrite startswith_empty.
    + cbn [Str.take brace_depth Ascii.eqb Bool.eqb] in *. lia.
    + intros m [Hm0 Hm].
      rewrite length_take in Hm by (cbn [String.length]; lia).
      rewrite take_take by lia.
      destruct m as [|m]; [lia |].
      cbn [Str.take brace_depth Ascii.eqb Bool.eqb].
      specialize (Hpos m ltac:(lia)). lia.
  - replace (j + 1) with (Str.len a + Z.of_nat (S (S n))) by lia.
    apply slice_prefix. cbn [String.length]. lia.
Qed.

(** A page in which the marker [text ++ "{"] is found decomposes around
    its first occurrence. *)
Lemma marker_found (html text : string) :
  Str.find html (text ++ "{") 0 <> -1 ->
  exists pre t,
    html = pre ++ text ++ String "{" t /\
    Str.find html (text ++ "{") 0 = Str.len pre.
Proof.
  intros Hf. rewrite find_at_zero in *.
  destruct (find_from_found html _ 0 Hf ltac:(lia)) as (n & Hn & Hs & _).
  assert (Hlt : (n < String.length html)%nat).
  { apply drop_nonempty. intros E. rewrite E in Hs.
    destruct text; cbn in Hs; discriminate. }
  apply startswith_prefix in Hs as [t Ht].
  exists (Str.take n html), t. split.
  - rewrite <- (take_drop n html) at 1. rewrite Ht, append_assoc. reflexivity.
  - rewrite Hn. unfold Str.len. rewrite length_take by lia. lia.
Qed.

End ScanSound.

(** ** What parse_schedule cuts out of the page *)

Section BlocksSound.

Lemma fact_json_start (pre t : string) :
  Str.find (pre ++ "DisconSchedule.fact = " ++ String "{" t) "{" (Str.len pre)
  = Str.len (pre ++ "DisconSchedule.fact = ").
Proof.
  rewrite find_at_offset, (find_brace_in_fact_marker t), len_app. reflexivity.
Qed.

Lemma preset_json_start (pre t : string) :
  Str.find (pre ++ "DisconSchedule.preset = " ++ String "{" t) "{" (Str.len pre)
  = Str.len (pre ++ "DisconSchedule.preset = ").
Proof.
  rewrite find_at_offset, (find_brace_in_preset_marker t), len_app. reflexivity.
Qed.

(** X1. Whatever the page, the text that the fact extraction hands to
    [json.loads] sits in the page right after the text of the first
    marker, and it is either a balanced object or, when no brace closes the
    block, the empty string. *)
Theorem fact_json_str_sound (html s : string) :
  fact_json_str html = Ok s ->
  exists pre rest,
    html = pre ++ "DisconSchedule.fact = " ++ s ++ rest /\
    Str.find html fact_marker 0 = Str.len pre /\
    ((s = EmptyString /\ fact_scan html = None) \/ balanced_object s).
Proof.
  unfold fact_json_str, fact_scan.
  destruct (Z.eqb_spec (Str.find html fact_marker 0) (-1)) as [E | E]; [discriminate |].
  destruct (marker_found html "DisconSchedule.fact = " E) as (pre & t & Hhtml & Hfind).
  change ("DisconSchedule.fact = " ++ "{") with fact_marker in Hfind.
  subst html. rewrite Hfind, fact_json_start.
  rewrite <- append_assoc, slice_from.
  pose proof (scan_region (pre ++ "DisconSchedule.fact = ") t) as Hscan.
  destruct (scan_braces (String "{" t) (Str.len (pre ++ "DisconSchedule.fact = ")) 0)
    as [j |].
  - destruct Hscan as (obj & rest & Hcs & Hbal & Hslice).
    rewrite Hslice. intros Hs; inversion Hs; subst s.
    exists pre, rest. split; [| split; [reflexivity | now right]].
    rewrite append_assoc, Hcs. reflexivity.
  - rewrite slice_empty. intros Hs; inversion Hs; subst s.
    exists pre, (String "{" t).
    split; [now rewrite append_assoc | split; [reflexivity | now left]].
Qed.

(** X2. The preset block is cut out by the same rule as the fact block:
    when the first occurrence of its marker is followed by a balanced
    object, that object is what is decoded, whatever follows it. *)
Theorem preset_json_str_balanced (pre obj trailing : string) :
  Str.find (pre ++ "DisconSchedule.preset = " ++ obj ++ trailing) preset_marker 0
    = Str.len pre ->
  balanced_object obj ->
  preset_json_str (pre ++ "DisconSchedule.preset = " ++ obj ++ trailing) = Some obj.
Proof.
  intros Hfind Hb. unfold preset_json_str. rewrite Hfind.
  pose proof (len_nonneg pre) as Hpre.
  destruct (Z.eqb_spec (Str.len pre) (-1)) as [E | _]; [lia |]. cbn [negb].
  destruct (balanced_starts obj Hb) as [body Hobj].
  assert (Hjs : Str.find (pre ++ "DisconSchedule.preset = " ++ obj ++ trailing) "{" (Str.len pre)
                = Str.len (pre ++ "DisconSchedule.preset = ")).
  { rewrite Hobj. cbn [append]. apply (preset_json_start pre (body ++ trailing)). }
  rewrite Hjs.
  replace (pre ++ "DisconSchedule.preset = " ++ obj ++ trailing)
    with ((pre ++ "DisconSchedule.preset = ") ++ obj ++ trailing)
    by (rewrite append_assoc; reflexivity).
  rewrite slice_from, scan_braces_balanced by exact Hb.
  replace (Str.len (pre ++ "DisconSchedule.preset = ") + Str.len obj - 1 + 1)
    with (Str.len (pre ++ "DisconSchedule.preset = ") + Str.len obj) by lia.
  now rewrite slice_mid.
Qed.

(** X3. Conversely, a preset text is decoded only if it is a balanced
    object that follows the first preset marker of the page; a block that
    no brace closes is never handed to [json.loads]. *)
Theorem preset_json_str_sound (html p : string) :
  preset_json_str html = Some p ->
  exists pre rest,
    html = pre ++ "DisconSchedule.preset = " ++ p ++ rest /\
    Str.find html preset_marker 0 = Str.len pre /\
    balanced_object p.
Proof.
  unfold preset_json_str.
  destruct (Z.eqb_spec (Str.find html preset_marker 0) (-1)) as [E | E];
    cbn [negb]; [discriminate |].
  destruct (marker_found html "DisconSchedule.preset = " E) as (pre & t & Hhtml & Hfind).
  change ("DisconSchedule.preset = " ++ "{") with preset_marker in Hfind.
  subst html. rewrite Hfind, preset_json_start.
  rewrite <- append_assoc, slice_from.
  pose proof (scan_region (pre ++ "DisconSchedule.preset = ") t) as Hscan.
  destruct (scan_braces (String "{" t) (Str.len (pre ++ "DisconSchedule.preset = ")) 0)
    as [j |]; [|discriminate].
  destruct Hscan as (obj & rest & Hcs & Hbal & Hslice).
  rewrite Hslice. intros Hs; inversion Hs; subst p.
  exists pre, rest. split; [| split; [reflexivity | exact Hbal]].
  rewrite append_assoc, Hcs. reflexivity.
Qed.

End BlocksSound.

Lemma fact_json_str_sound_witness :
  exists pre rest,
    "<script>DisconSchedule.fact = {a:{b:1},c:{}}; x = {}</script>"
      = pre ++ "DisconSchedule.fact = " ++ "{a:{b:1},c:{}}" ++ rest /\
    Str.find "<script>DisconSchedule.fact = {a:{b:1},c:{}}; x = {}</script>" fact_marker 0
      = Str.len pre /\
    (("{a:{b:1},c:{}}" = EmptyString /\
      fact_scan "<script>DisconSchedule.fact = {a:{b:1},c:{}}; x = {}</script>" = None)
     \/ balanced_object "{a:{b:1},c:{}}").
Proof.
  apply (fact_json_str_sound
           "<script>DisconSchedule.fact = {a:{b:1},c:{}}; x = {}</script>"
           "{a:{b:1},c:{}}").
  vm_compute. reflexivity.
Defined.

Lemma preset_json_str_balanced_witness :
  preset_json_str
    ("DisconSchedule.fact = {};" ++ "DisconSchedule.preset = "
       ++ "{a:{b:{c:2}}}" ++ "; } DisconSchedule.preset = {")
  = Some "{a:{b:{c:2}}}".
Proof.
  apply preset_json_str_balanced.
  - vm_compute. reflexivity.
  - apply balancedb_correct. vm_compute. reflexivity.
Defined.

Lemma preset_json_str_sound_witness :
  exists pre rest,
    "DisconSchedule.fact = {};DisconSchedule.preset = {a:{}};}"
      = pre ++ "DisconSchedule.preset = " ++ "{a:{}}" ++ rest /\
    Str.find "DisconSchedule.fact = {};DisconSchedule.preset = {a:{}};}" preset_marker 0
      = Str.len pre /\
    balanced_object "{a:{}}".
Proof.
  apply (preset_json_str_sound
           "DisconSchedule.fact = {};DisconSchedule.preset = {a:{}};}" "{a:{}}").
  vm_compute. reflexivity.
Defined.

(** ** fetch_dtek_page *)

Section Fetch.
Context `{Host}.

(** X4. The fetch returns a page exactly when the request returned a
    response with status 200 whose text has at least 1000 characters and
    contains "DisconSchedule"; the page is that text, unchanged. *)
Theorem fetch_succeeds_iff (w : world) (page : string) :
  fst (fetch_dtek_page w) = Ok page <->
  exists response,
    requests_get = Ok response /\
    status_code response = 200 /\
    1000 <= Str.char_len (text response) /\
    has_substring (text response) "DisconSchedule" /\
    page = text response.
Proof.
  rewrite fetch_dtek_page_eq. split.
  - destruct requests_get as [response | e]; [|discriminate].
    destruct (Z.eqb_spec (status_code response) 200) as [Hs | Hs]; cbn [negb];
      [|discriminate].
    destruct (Z.ltb_spec (Str.char_len (text response)) 1000) as [Hl | Hl]; cbn [orb];
      [discriminate |].
    destruct (Str.contains (text response) "DisconSchedule") eqn:Hc; cbn [negb];
      [|discriminate].
    cbn [fst]. intros E; inversion E; subst page.
    exists response. apply contains_spec in Hc. auto.
  - intros (response & Hget & Hs & Hl & Hc & ->).
    rewrite Hget, Hs. cbn [Z.eqb Pos.eqb negb].
    destruct (Z.ltb_spec (Str.char_len (text response)) 1000) as [Hl' | _]; [lia |].
    apply contains_spec in Hc. rewrite Hc. reflexivity.
Qed.

(** X5. The status is checked before the body: a response whose status is
    not 200 fails with the HTTP error that carries the status, whatever its
    body, and [main] then returns [False] after printing that error,
    without parsing and without touching the output file. *)
Theorem http_error_comes_first (response : Response) (w : world) :
  requests_get = Ok response ->
  status_code response <> 200 ->
  main w
  = (false,
     {| stdout := stdout w ++ [LConnecting; LError (HttpError (status_code response))];
        output_file := output_file w |}).
Proof.
  intros Hget Hs. unfold main, run. unfold io_bind at 1.
  rewrite fetch_dtek_page_eq, Hget.
  destruct (Z.eqb_spec (status_code response) 200) as [E | _]; [contradiction |].
  cbn [negb printed stdout output_file]. now rewrite <- List.app_assoc.
Qed.

End Fetch.

Lemma fetch_succeeds_iff_witness :
  fst (@fetch_dtek_page (Reference.host Reference.fixture_page 0) Reference.empty_world)
  = Ok Reference.fixture_page.
Proof.
  apply (@fetch_succeeds_iff (Reference.host Reference.fixture_page 0)).
  exists {| status_code := 200; text := Reference.fixture_page |}.
  split; [reflexivity |]. split; [reflexivity |].
  split; [vm_compute; discriminate |].
  split; [apply contains_spec; vm_compute; reflexivity | reflexivity].
Defined.

Lemma http_error_comes_first_witness :
  @main {| requests_get := Ok {| status_code := 403; text := Reference.fixture_page |};
           json_loads := Reference.loads; py_int := Reference.int;
           local_date := Reference.utc_date; now_isoformat := EmptyString;
           now_date := EmptyString; write := Written |}
    Reference.empty_world
  = (false,
     {| stdout := [LConnecting; LError (HttpError 403)]; output_file := Absent |}).
Proof.
  apply (@http_error_comes_first
           {| requests_get := Ok {| status_code := 403; text := Reference.fixture_page |};
              json_loads := Reference.loads; py_int := Reference.int;
              local_date := Reference.utc_date; now_isoformat := EmptyString;
              now_date := EmptyString; write := Written |}
           {| status_code := 403; text := Reference.fixture_page |}
           Reference.empty_world).
  - reflexivity.
  - cbn. discriminate.
Defined.

(** ** Time ranges are told apart *)

Section TimeRangeInjective.

Lemma colon_free_app (a b : string) :
  colon_free (a ++ b) = colon_free a && colon_free b.
Proof.
  induction a as [|c a IH]; cbn [append colon_free]; [reflexivity |].
  now rewrite IH, andb_assoc.
Qed.

Lemma colon_free_digits (d : Decimal.uint) :
  colon_free (NilEmpty.string_of_uint d) = true.
Proof. induction d; cbn [NilEmpty.string_of_uint colon_free]; auto. Qed.

Lemma colon_free_zeros (n : nat) : colon_free (zeros n) = true.
Proof. induction n; cbn [zeros colon_free]; auto. Qed.

Lemma to_uint_nonnil (m : N) : N.to_uint m <> Decimal.Nil.
Proof.
  destruct m; cbn; [discriminate | apply DecimalPos.Unsigned.to_uint_nonnil].
Qed.

Lemma digits_nilempty (m : N) :
  NilZero.string_of_uint (N.to_uint m) = NilEmpty.string_of_uint (N.to_uint m).
Proof.
  pose proof (to_uint_nonnil m). now destruct (N.to_uint m).
Qed.

Lemma digits_nonempty (d : Decimal.uint) :
  d <> Decimal.Nil ->
  exists c r, NilEmpty.string_of_uint d = String c r /\ Ascii.eqb c "-" = false.
Proof.
  destruct d; [congruence | ..]; intros _; cbn [NilEmpty.string_of_uint]; eauto.
Qed.

(** The layout of [format_02d]: a minus sign and the digits, or the digits
    with a zero in front when there is only one. *)
Lemma format_02d_layout (n : Z) :
  let digits := NilEmpty.string_of_uint (N.to_uint (Z.to_N (Z.abs n))) in
  format_02d n =
    if n <? 0 then String "-" digits
    else if (String.length digits =? 1)%nat then String "0" digits
    else digits.
Proof.
  cbv zeta. unfold format_02d. rewrite digits_nilempty.
  destruct (digits_nonempty _ (to_uint_nonnil (Z.to_N (Z.abs n)))) as (c & r & E & _).
  rewrite E. destruct (n <? 0); cbn [String.length Nat.sub zeros append].
  - reflexivity.
  - destruct r as [|c' r]; cbn [String.length Nat.sub zeros append Nat.eqb]; reflexivity.
Qed.

Lemma parse_format_02d (n : Z) : parse_02d (format_02d n) = Some n.
Proof.
  rewrite format_02d_layout.
  set (m := Z.to_N (Z.abs n)).
  pose proof (NilEmpty.usu (N.to_uint m)) as Husu.
  pose proof (DecimalN.Unsigned.of_to m) as Hof.
  destruct (digits_nonempty _ (to_uint_nonnil m)) as (c & r & E & Hc).
  destruct (Z.ltb_spec n 0) as [Hn | Hn].
  - cbn [parse_02d Ascii.eqb Bool.eqb]. rewrite Husu. cbn [option_map].
    rewrite Hof. f_equal. subst m. lia.
  - destruct (String.length (NilEmpty.string_of_uint (N.to_uint m)) =? 1)%nat.
    + cbn [parse_02d Ascii.eqb Bool.eqb NilEmpty.uint_of_string].
      rewrite Husu. cbn [uint_of_char option_map].
      change (N.of_uint (Decimal.D0 (N.to_uint m))) with (N.of_uint (N.to_uint m)).
      rewrite Hof. f_equal. subst m. lia.
    + rewrite E in *. cbn [parse_02d]. rewrite Hc, Husu. cbn [option_map].
      rewrite Hof. f_equal. subst m. lia.
Qed.

Lemma colon_free_format_02d (n : Z) : colon_free (format_02d n) = true.
Proof.
  unfold format_02d. rewrite digits_nilempty, !colon_free_app.
  rewrite colon_free_zeros, colon_free_digits. now destruct (n <? 0).
Qed.

Lemma split_at_colon (a a' x y : string) :
  colon_free a = true -> colon_free a' = true ->
  a ++ String ":" x = a' ++ String ":" y -> a = a'.
Proof.
  revert a'; induction a as [|c a IH]; intros [|c' a']; cbn [append colon_free].
  - reflexivity.
  - intros _ Hc E. inversion E; subst c'. cbn in Hc. discriminate.
  - intros Hc _ E. inversion E; subst c. cbn in Hc. discriminate.
  - intros Hc Hc' E. inversion E; subst c'.
    apply andb_true_iff in Hc as [_ Hc]. apply andb_true_iff in Hc' as [_ Hc'].
    f_equal. now apply IH.
Qed.

Lemma format_02d_injective (a b : Z) : format_02d a = format_02d b -> a = b.
Proof.
  intros E. apply (f_equal parse_02d) in E. rewrite !parse_format_02d in E.
  now inversion E.
Qed.

(** X7. Two different hours never get the same label, whatever integers
    the hour keys denote: an entry of a day is overwritten only by a key
    that denotes the same hour. *)
Theorem time_range_injective (h1 h2 : Z) :
  h1 <> h2 -> time_range h1 <> time_range h2.
Proof.
  unfold time_range. intros Hne E.
  apply split_at_colon in E; try apply colon_free_format_02d.
  apply format_02d_injective in E. lia.
Qed.

End TimeRangeInjective.

Lemma time_range_injective_witness : time_range 1 <> time_range (-1).
Proof. apply time_range_injective. lia. Defined.

(** ** More on dicts and loops *)

Section DictMore.
Context {V : Type}.
Implicit Types (d : dict V) (k : string) (v : V).

Lemma get_none_keys k d : Dict.get k d = None <-> ~ In k (Dict.keys d).
Proof.
  rewrite <- mem_keys. unfold Dict.mem.
  destruct (Dict.get k d); split; intros; congruence.
Qed.

Lemma set_fresh k v d : ~ In k (Dict.keys d) -> Dict.set k v d = (d ++ [(k, v)])%list.
Proof.
  unfold Dict.keys.
  induction d as [|[k0 v0] d IH]; cbn [Dict.set map fst In app]; [reflexivity |].
  intros Hn. destruct (String.eqb_spec k k0) as [-> | _]; [tauto |].
  rewrite IH; [reflexivity | tauto].
Qed.

Lemma keys_set_present k v d :
  In k (Dict.keys d) -> Dict.keys (Dict.set k v d) = Dict.keys d.
Proof.
  unfold Dict.keys.
  induction d as [|[k0 v0] d IH]; cbn [Dict.set map fst In]; [contradiction |].
  destruct (String.eqb_spec k k0) as [-> | Hne]; cbn [map fst]; [reflexivity |].
  intros [? | Hin]; [congruence | now rewrite IH].
Qed.

Lemma keys_set k v d :
  Dict.keys (Dict.set k v d) =
    if Dict.mem k d then Dict.keys d else (Dict.keys d ++ [k])%list.
Proof.
  destruct (Dict.mem k d) eqn:E.
  - apply keys_set_present, mem_keys, E.
  - rewrite set_fresh.
    + unfold Dict.keys. now rewrite map_app.
    + rewrite <- mem_keys. congruence.
Qed.

Lemma nodup_keys_set k v d :
  NoDup (Dict.keys d) -> NoDup (Dict.keys (Dict.set k v d)).
Proof.
  intros Hd. rewrite keys_set. destruct (Dict.mem k d) eqn:E; [exact Hd |].
  apply NoDup_app; [exact Hd | repeat constructor; intros [] | ].
  intros x Hx [<- | []]. apply mem_keys in Hx. congruence.
Qed.

End DictMore.

Section Loops.

Lemma foldM_invariant {S A : Type} (P : S -> Prop) (f : S -> A -> result S)
    (l : list A) :
  (forall s a s', P s -> f s a = Ok s' -> P s') ->
  forall s0 s1, P s0 -> foldM f s0 l = Ok s1 -> P s1.
Proof.
  intros Hstep. induction l as [|a l IH]; intros s0 s1 H0 Hf; cbn [foldM] in Hf.
  - now inversion Hf; subst.
  - destruct (f s0 a) as [s' | e] eqn:Ea; cbn [bind] in Hf; [|discriminate].
    exact (IH _ _ (Hstep _ _ _ H0 Ea) Hf).
Qed.

(** One element on which the body always raises makes the loop raise. *)
Lemma foldM_raises {S A : Type} (f : S -> A -> result S) (l : list A) (a : A) :
  In a l -> (forall s, exists e, f s a = Raise e) ->
  forall s0, exists e, foldM f s0 l = Raise e.
Proof.
  intros Hin Hbad. induction l as [|b l IH]; [contradiction |].
  intros s0. cbn [foldM].
  destruct Hin as [-> | Hin].
  - destruct (Hbad s0) as [e He]. rewrite He. now exists e.
  - destruct (f s0 b) as [s' | e]; cbn [bind]; [apply (IH Hin) | now exists e].
Qed.

Lemma foldM_ext {S A : Type} (f g : S -> A -> result S) (l : list A) :
  (forall s a, f s a = g s a) -> forall s0, foldM f s0 l = foldM g s0 l.
Proof.
  intros Hfg. induction l as [|a l IH]; intros s0; cbn [foldM]; [reflexivity |].
  rewrite Hfg. destruct (g s0 a); cbn [bind]; [apply IH | reflexivity].
Qed.

Lemma find_last_none {A : Type} (p : A -> bool) (l : list A) :
  find_last p l = None <-> existsb p l = false.
Proof.
  induction l as [|a l IH]; cbn [find_last existsb]; [tauto |].
  destruct (find_last p l) as [b |].
  - split; [discriminate |]. intros E. apply orb_false_iff in E as [_ E].
    apply IH in E. discriminate.
  - destruct (p a); cbn [orb]; [split; discriminate |]. tauto.
Qed.

End Loops.

(** ** The entries of one day *)

Section DayEntries.
Context `{Host}.

Lemma format_hours_cons (item : string * json) (hours day : dict json) :
  format_hours (item :: hours) day =
    (e <- hour_entry item ;; format_hours hours (Dict.set (fst e) (snd e) day)).
Proof.
  unfold format_hours, hour_entry. cbn [foldM].
  destruct (py_int (fst item)); cbn [of_option bind]; [|reflexivity].
  destruct (readable_status (snd item)); cbn [bind fst snd]; reflexivity.
Qed.

Lemma format_hours_entries (hours : dict json) :
  forall (entries day0 : dict json),
    mapM hour_entry hours = Ok entries ->
    format_hours hours day0 =
      Ok (fold_left (fun d e => Dict.set (fst e) (snd e) d) entries day0).
Proof.
  induction hours as [|item hours IH]; intros entries day0 Hm.
  - cbn in Hm. inversion Hm; subst. reflexivity.
  - rewrite format_hours_cons. cbn [mapM] in Hm.
    destruct (hour_entry item) as [e | x]; cbn [bind] in *; [|discriminate].
    destruct (mapM hour_entry hours) as [es | x]; cbn [bind] in Hm; [|discriminate].
    inversion Hm; subst entries. cbn [fold_left]. now apply IH.
Qed.

Lemma fold_set_fresh {V : Type} (entries : dict V) :
  forall d : dict V,
    NoDup (Dict.keys d ++ Dict.keys entries) ->
    fold_left (fun d e => Dict.set (fst e) (snd e) d) entries d = (d ++ entries)%list.
Proof.
  unfold Dict.keys.
  induction entries as [|[k v] entries IH]; intros d Hnd; cbn [fold_left fst snd map] in *.
  - now rewrite List.app_nil_r.
  - rewrite set_fresh.
    + rewrite IH.
      * now rewrite <- List.app_assoc.
      * rewrite map_app, <- List.app_assoc. exact Hnd.
    + intros Hin. apply NoDup_remove_2 in Hnd. apply Hnd.
      apply in_or_app. now left.
Qed.

Lemma getitem_in (gd : json) (g : string) (v : json) :
  py_getitem gd g = Ok v -> py_in g gd = Ok true.
Proof.
  destruct gd; cbn [py_getitem py_in]; try discriminate.
  unfold Dict.mem. destruct (Dict.get g items); [reflexivity | discriminate].
Qed.

(** X6. When the hour keys of a group denote hours with pairwise different
    labels, nothing is lost and nothing is reordered: the day stored for the
    timestamp lists one entry per hour key, in the order of the hour
    mapping. *)
Theorem hours_kept_in_order (g timestamp date : string) (groups_data : json)
    (hours entries : dict json) (days : dict (dict json)) :
  item_date timestamp = Ok date ->
  py_getitem groups_data g = Ok (JDict hours) ->
  mapM hour_entry hours = Ok entries ->
  NoDup (Dict.keys entries) ->
  timestamp_step g days (timestamp, groups_data) = Ok (Dict.set date entries days).
Proof.
  intros Hdate Hget Hentries Hnd.
  rewrite timestamp_step_eq, Hdate, (getitem_in _ _ _ Hget). cbn [bind].
  unfold group_day. rewrite Hget. cbn [bind py_items].
  rewrite (format_hours_entries _ _ _ Hentries), fold_set_fresh by exact Hnd.
  reflexivity.
Qed.

(** What the loop over the hours leaves under each label: the status of
    the last hour key that is filed under it. *)
Lemma hours_lookup (hours : dict json) :
  forall day0 day : dict json,
    format_hours hours day0 = Ok day ->
    forall range : string,
      option_map Ok (Dict.get range day) =
        match find_last (filed_under range) hours with
        | Some item => Some (readable_status (snd item))
        | None => option_map Ok (Dict.get range day0)
        end.
Proof.
  induction hours as [|[hour_str status] hours IH]; intros day0 day Hf range.
  - cbn in Hf. now inversion Hf.
  - rewrite format_hours_cons in Hf. unfold hour_entry in Hf. cbn [fst snd] in Hf.
    cbn [find_last]. unfold filed_under at 2. cbn [fst snd].
    destruct (py_int hour_str) as [h |]; cbn [of_option bind] in Hf; [|discriminate].
    destruct (readable_status status) as [label | e] eqn:Est; cbn [bind fst snd] in Hf;
      [|discriminate].
    rewrite (IH _ _ Hf range).
    destruct (find_last (filed_under range) hours); [reflexivity |].
    destruct (String.eqb_spec (time_range h) range) as [<- | Hne].
    + rewrite get_set_same. cbn [option_map snd]. now rewrite Est.
    + now rewrite get_set_other.
Qed.

(** X8. When several hour keys of a group denote the same hour (as "1" and
    "01" do), the status of the last of them is the one stored under the
    label of that hour. *)
Theorem last_hour_key_wins (g timestamp date hour_str : string) (groups_data : json)
    (before after : dict json) (status label : json) (h : Z)
    (days days' : dict (dict json)) :
  item_date timestamp = Ok date ->
  py_getitem groups_data g = Ok (JDict (before ++ (hour_str, status) :: after)) ->
  py_int hour_str = Some h ->
  readable_status status = Ok label ->
  (forall item h', In item after -> py_int (fst item) = Some h' -> h' <> h) ->
  timestamp_step g days (timestamp, groups_data) = Ok days' ->
  exists day,
    Dict.get date days' = Some day /\ Dict.get (time_range h) day = Some label.
Proof.
  intros Hdate Hget Hint Hst Hafter Hstep.
  rewrite timestamp_step_eq, Hdate, (getitem_in _ _ _ Hget) in Hstep. cbn [bind] in Hstep.
  unfold group_day in Hstep. rewrite Hget in Hstep. cbn [bind py_items] in Hstep.
  destruct (format_hours _ []) as [day | e] eqn:Hday; cbn [bind] in Hstep; [|discriminate].
  inversion Hstep; subst days'. exists day. split; [apply get_set_same |].
  pose proof (hours_lookup _ _ _ Hday (time_range h)) as Hlook.
  rewrite (find_last_app (filed_under (time_range h)) before after (hour_str, status))
    in Hlook.
  - cbn [snd] in Hlook. rewrite Hst in Hlook.
    destruct (Dict.get (time_range h) day); cbn [option_map] in Hlook; congruence.
  - unfold filed_under. cbn [fst]. rewrite Hint. apply String.eqb_refl.
  - apply forallb_forall. intros item Hin. unfold filed_under.
    destruct (py_int (fst item)) as [h' |] eqn:Eh; [|reflexivity].
    apply negb_true_iff, String.eqb_neq. unfold time_range. intros E.
    apply split_at_colon in E; try apply colon_free_format_02d.
    apply format_02d_injective in E. apply (Hafter item h' Hin Eh). lia.
Qed.

End DayEntries.

Lemma hours_kept_in_order_witness :
  @timestamp_step (Reference.host EmptyString 0) "GPV1.1"
    [("2023-11-13", [])]
    ("1700000000",
     JDict [("GPV1.1", JDict [("24", JStr "no"); ("1", JStr "yes"); ("7", JStr "maybe1")])])
  = Ok [("2023-11-13", []);
        ("2023-11-14",
         [("23:00-24:00", JStr "light_off"); ("00:00-01:00", JStr "light_on");
          ("06:00-07:00", JStr "possible_outage")])].
Proof.
  apply (@hours_kept_in_order (Reference.host EmptyString 0) "GPV1.1" "1700000000"
           "2023-11-14"
           (JDict [("GPV1.1", JDict [("24", JStr "no"); ("1", JStr "yes"); ("7", JStr "maybe1")])])
           [("24", JStr "no"); ("1", JStr "yes"); ("7", JStr "maybe1")]
           [("23:00-24:00", JStr "light_off"); ("00:00-01:00", JStr "light_on");
            ("06:00-07:00", JStr "possible_outage")]
           [("2023-11-13", [])]).
  - vm_compute. reflexivity.
  - reflexivity.
  - vm_compute. reflexivity.
  - cbn. repeat constructor; cbn; intuition discriminate.
Defined.

Lemma last_hour_key_wins_witness :
  exists day,
    Dict.get "2023-11-14"
      [("2023-11-14", [("00:00-01:00", JStr "light_off"); ("01:00-02:00", JStr "light_on")])]
    = Some day /\
    Dict.get (time_range 1) day = Some (JStr "light_off").
Proof.
  apply (@last_hour_key_wins (Reference.host EmptyString 0) "GPV1.1" "1700000000"
           "2023-11-14" "01"
           (JDict [("GPV1.1", JDict [("1", JStr "yes"); ("01", JStr "no"); ("2", JStr "yes")])])
           [("1", JStr "yes")] [("2", JStr "yes")] (JStr "no") (JStr "light_off") 1 []).
  - vm_compute. reflexivity.
  - reflexivity.
  - vm_compute. reflexivity.
  - reflexivity.
  - intros item h' [<- | []] Hh. vm_compute in Hh. inversion Hh. lia.
  - vm_compute. reflexivity.
Defined.

(** ** The output as a whole *)

Section OutputShape.
Context `{Host}.

Lemma format_hours_nodup (hours day0 day : dict json) :
  NoDup (Dict.keys day0) -> format_hours hours day0 = Ok day -> NoDup (Dict.keys day).
Proof.
  unfold format_hours.
  apply (foldM_invariant (fun d : dict json => NoDup (Dict.keys d))).
  intros d item d' Hd Hstep.
  destruct (py_int (fst item)); cbn [of_option bind] in Hstep; [|discriminate].
  destruct (readable_status (snd item)); cbn [bind] in Hstep; [|discriminate].
  inversion Hstep; subst d'. now apply nodup_keys_set.
Qed.

Lemma group_day_nodup (g : string) (groups_data : json) (day : dict json) :
  group_day g groups_data = Ok day -> NoDup (Dict.keys day).
Proof.
  unfold group_day.
  destruct (py_getitem groups_data g) as [hours_data | e]; cbn [bind]; [|discriminate].
  destruct (py_items hours_data) as [hours | e]; cbn [bind]; [|discriminate].
  apply format_hours_nodup. constructor.
Qed.

Lemma days_nodup (g : string) (data : dict json) (ds : dict (dict json)) :
  foldM (timestamp_step g) [] data = Ok ds -> NoDup (Dict.keys ds).
Proof.
  apply (foldM_invariant (fun d : dict (dict json) => NoDup (Dict.keys d)));
    [|constructor].
  intros d [timestamp groups_data] d' Hd Hstep. rewrite timestamp_step_eq in Hstep.
  destruct (item_date timestamp); cbn [bind] in Hstep; [|discriminate].
  destruct (py_in g groups_data) as [[|] | e]; cbn [bind] in Hstep; [| | discriminate].
  - destruct (group_day g groups_data); cbn [bind] in Hstep; [|discriminate].
    inversion Hstep; subst d'. now apply nodup_keys_set.
  - now inversion Hstep; subst d'.
Qed.

Lemma groups_nodup (fact_data : json) (configured : list string)
    (gs : dict (dict (dict json))) :
  foldM (group_step fact_data) [] configured = Ok gs -> NoDup (Dict.keys gs).
Proof.
  apply (foldM_invariant (fun d : dict (dict (dict json)) => NoDup (Dict.keys d)));
    [|constructor].
  intros d g d' Hd Hstep. unfold group_step in Hstep.
  destruct (format_schedule_for_group fact_data g) as [r | e]; cbn [bind] in Hstep;
    [|discriminate].
  destruct (Dict.truthy (days r)); inversion Hstep; subst d';
    [now apply nodup_keys_set | exact Hd].
Qed.

Lemma build_output_groups (raw : raw_data) (configured : list string) (out : output) :
  build_output raw configured = Ok out ->
  foldM (group_step (fact raw)) [] configured = Ok (groups out).
Proof.
  unfold build_output.
  destruct (py_get (fact raw) "update" (JStr "unknown")); cbn [bind]; [|discriminate].
  destruct (foldM (group_step (fact raw)) [] configured); cbn [bind]; [|discriminate].
  intros E; inversion E; subst out. reflexivity.
Qed.

(** X9. At every level the output holds each key once: each group, each
    date of a group (even when several timestamps fall on that date) and
    each time range of a date (even when several hour keys denote the same
    hour). *)
Theorem output_keys_unique (raw : raw_data) (configured : list string) (out : output) :
  build_output raw configured = Ok out ->
  NoDup (Dict.keys (groups out)) /\
  forall g ds, In (g, ds) (groups out) ->
    NoDup (Dict.keys ds) /\
    forall date day, In (date, day) ds -> NoDup (Dict.keys day).
Proof.
  intros Hb. apply build_output_groups in Hb.
  split; [exact (groups_nodup _ _ _ Hb) |].
  intros g ds Hin.
  destruct (groups_members _ _ _ _ Hb g ds Hin) as [[] | (_ & Hne & Hf)].
  destruct (format_ok_inv _ _ _ Hf) as (_ & [Hempty | (items & data & _ & _ & Hdays)]);
    cbn [days] in *; [contradiction |].
  split; [exact (days_nodup _ _ _ Hdays) |].
  intros date day Hind.
  destruct (days_members _ _ _ _ Hdays date day Hind) as [[] | (ts & gd & _ & Hgd)].
  exact (group_day_nodup _ _ _ Hgd).
Qed.

(** The keys that the loop over the groups adds, in order. *)
Lemma group_keys (fact_data : json) (configured : list string) :
  forall acc gs : dict (dict (dict json)),
    NoDup (Dict.keys acc ++ configured) ->
    foldM (group_step fact_data) acc configured = Ok gs ->
    Dict.keys gs = (Dict.keys acc ++ filter (has_days fact_data) configured)%list.
Proof.
  induction configured as [|g configured IH]; intros acc gs Hnd Hfold.
  - cbn in Hfold. inversion Hfold; subst. cbn [filter]. now rewrite List.app_nil_r.
  - cbn [foldM] in Hfold. unfold group_step at 1 in Hfold.
    cbn [filter]. unfold has_days at 1.
    destruct (format_schedule_for_group fact_data g) as [r | e]; cbn [bind] in Hfold;
      [|discriminate].
    assert (Hfresh : ~ In g (Dict.keys acc)).
    { intros Hin. apply NoDup_remove_2 in Hnd. apply Hnd, in_or_app. now left. }
    destruct (Dict.truthy (days r)); cbn [bind] in Hfold.
    + assert (Hkeys : Dict.keys (Dict.set g (days r) acc) = (Dict.keys acc ++ [g])%list).
      { rewrite set_fresh by exact Hfresh. unfold Dict.keys. now rewrite map_app. }
      rewrite (IH _ _ ltac:(rewrite Hkeys, <- List.app_assoc; exact Hnd) Hfold).
      rewrite Hkeys, <- List.app_assoc. reflexivity.
    + apply (IH _ _ (NoDup_remove_1 _ _ _ Hnd) Hfold).
Qed.

(** X10. The groups of the output are exactly the configured groups that
    format to at least one day, in the order in which they are
    configured. *)
Theorem output_groups_in_configured_order (raw : raw_data)
    (configured : list string) (out : output) :
  NoDup configured ->
  build_output raw configured = Ok out ->
  Dict.keys (groups out) = filter (has_days (fact raw)) configured.
Proof.
  intros Hnd Hb. apply build_output_groups in Hb.
  apply (group_keys _ _ [] _ Hnd Hb).
Qed.

(** X11. The groups stand or fall together: when formatting raises for
    one configured group, no document is built, and a run on such a page
    returns [False] and leaves the output file as it was, whatever the
    other groups hold. *)
Theorem one_bad_group_fails_the_run (w : world) (html : string) (raw : raw_data)
    (g : string) (e : exn) :
  fst (fetch_dtek_page w) = Ok html ->
  parse_schedule html = Ok raw ->
  In g GROUPS_TO_PARSE ->
  format_schedule_for_group (fact raw) g = Raise e ->
  (exists e', build_output raw GROUPS_TO_PARSE = Raise e') /\
  fst (main w) = false /\
  output_file (snd (main w)) = output_file w.
Proof.
  intros Hfetch Hparse Hin Hbad.
  assert (Hb : exists e', build_output raw GROUPS_TO_PARSE = Raise e').
  { unfold build_output.
    destruct (py_get (fact raw) "update" (JStr "unknown")) as [u | x]; cbn [bind];
      [|now exists x].
    destruct (foldM_raises (group_step (fact raw)) GROUPS_TO_PARSE g Hin) with (s0 := @nil (string * dict (dict json)))
      as [e' He'].
    - intros s. unfold group_step. rewrite Hbad. now exists e.
    - rewrite He'. now exists e'. }
  split; [exact Hb |].
  pose proof (main_cases w) as Hc. rewrite Hfetch, Hparse in Hc.
  destruct Hb as [e' He']. rewrite He' in Hc. exact Hc.
Qed.

End OutputShape.

(** ** One group at a time *)

Section OneGroup.
Context `{Host}.

(** X12. The date of a timestamp is computed before the group is looked
    up: a timestamp key that [int] or [fromtimestamp] rejects makes the
    formatting raise for every group, also for the groups that this
    timestamp does not hold. *)
Theorem unreadable_timestamp_fails_every_group (items data : dict json)
    (timestamp : string) (groups_data : json) (e0 : exn) :
  Dict.get "data" items = Some (JDict data) ->
  In (timestamp, groups_data) data ->
  item_date timestamp = Raise e0 ->
  forall g, exists e, format_schedule_for_group (JDict items) g = Raise e.
Proof.
  intros Hd Hin Hdate g. rewrite (format_with_data _ _ _ Hd).
  destruct (foldM_raises (timestamp_step g) data (timestamp, groups_data) Hin)
    with (s0 := @nil (string * dict json)) as [e He].
  - intros s. rewrite timestamp_step_eq, Hdate. now exists e0.
  - rewrite He. now exists e.
Qed.

Lemma timestamp_fold_agrees (g : string) (data1 data2 : dict json) :
  Forall2 (fun item1 item2 =>
             fst item1 = fst item2 /\
             py_in g (snd item1) = py_in g (snd item2) /\
             py_getitem (snd item1) g = py_getitem (snd item2) g)
          data1 data2 ->
  forall days0,
    foldM (timestamp_step g) days0 data1 = foldM (timestamp_step g) days0 data2.
Proof.
  induction 1 as [|[ts1 gd1] [ts2 gd2] data1 data2 (Hts & Hin & Hget) _ IH];
    intros days0; [reflexivity |].
  cbn [fst snd] in *. subst ts2. cbn [foldM].
  assert (Hstep : timestamp_step g days0 (ts1, gd1) = timestamp_step g days0 (ts1, gd2)).
  { rewrite !timestamp_step_eq. unfold group_day. now rewrite Hin, Hget. }
  rewrite Hstep.
  destruct (timestamp_step g days0 (ts1, gd2)); cbn [bind]; [apply IH | reflexivity].
Qed.

(** X13. What is built for a group depends, for each timestamp, only on
    whether the timestamp holds the group and on what it holds for it: two
    documents with the same timestamps that agree on these give the same
    result for the group, whatever they hold for other groups. *)
Theorem other_groups_do_not_matter (items1 items2 data1 data2 : dict json) (g : string) :
  Dict.get "data" items1 = Some (JDict data1) ->
  Dict.get "data" items2 = Some (JDict data2) ->
  Forall2 (fun item1 item2 =>
             fst item1 = fst item2 /\
             py_in g (snd item1) = py_in g (snd item2) /\
             py_getitem (snd item1) g = py_getitem (snd item2) g)
          data1 data2 ->
  format_schedule_for_group (JDict items1) g = format_schedule_for_group (JDict items2) g.
Proof.
  intros Hd1 Hd2 Hsame.
  rewrite (format_with_data _ _ _ Hd1), (format_with_data _ _ _ Hd2).
  now rewrite (timestamp_fold_agrees g data1 data2 Hsame).
Qed.

(** X14. A date is a key of the days built for a group exactly when some
    timestamp of the data converts to that date and holds the group. *)
Theorem date_is_key_iff (items data : dict json) (g date : string) (r : formatted) :
  Dict.get "data" items = Some (JDict data) ->
  format_schedule_for_group (JDict items) g = Ok r ->
  (In date (Dict.keys (days r)) <-> existsb (contributes g date) data = true).
Proof.
  intros Hd Hr. rewrite (format_with_data _ _ _ Hd) in Hr.
  destruct (foldM (timestamp_step g) [] data) as [ds | e] eqn:Hfold; cbn [bind] in Hr;
    [|discriminate].
  inversion Hr; subst r; clear Hr. cbn [days].
  pose proof (days_lookup _ _ _ _ Hfold date) as Hlook.
  rewrite <- mem_keys. unfold Dict.mem.
  destruct (find_last (contributes g date) data) as [item |] eqn:Hlast.
  - destruct (Dict.get date ds); cbn [option_map] in Hlook; [|discriminate].
    split; [intros _ | reflexivity].
    destruct (existsb (contributes g date) data) eqn:Ex; [reflexivity |].
    apply find_last_none in Ex. congruence.
  - cbn [Dict.get option_map] in Hlook.
    destruct (Dict.get date ds); cbn [option_map] in Hlook; [discriminate |].
    apply find_last_none in Hlast. rewrite Hlast. split; discriminate.
Qed.

Lemma timestamp_fold_skips (g : string) (data : dict json) :
  (forall timestamp groups_data,
     In (timestamp, groups_data) data ->
     (exists date, item_date timestamp = Ok date) /\
     py_in g groups_data = Ok false) ->
  forall days0, foldM (timestamp_step g) days0 data = Ok days0.
Proof.
  induction data as [|[ts gd] data IH]; intros Hall days0; [reflexivity |].
  cbn [foldM]. rewrite timestamp_step_eq.
  destruct (Hall ts gd ltac:(now left)) as [[date Hdate] Hin].
  rewrite Hdate, Hin. cbn [bind]. apply IH.
  intros ts' gd' Hin'. apply Hall. now right.
Qed.

(** X15. A group that no timestamp holds is not an error: when every
    timestamp converts to a date and none holds the group, the result for
    the group is the empty day map. *)
Theorem group_held_nowhere (items data : dict json) (g : string) :
  Dict.get "data" items = Some (JDict data) ->
  (forall timestamp groups_data,
     In (timestamp, groups_data) data ->
     (exists date, item_date timestamp = Ok date) /\
     py_in g groups_data = Ok false) ->
  format_schedule_for_group (JDict items) g = Ok {| group := g; days := [] |}.
Proof.
  intros Hd Hall. rewrite (format_with_data _ _ _ Hd).
  now rewrite (timestamp_fold_skips g data Hall).
Qed.

(** X16. A timestamp whose value is not an object still goes through the
    membership test: a string is searched for the group as a substring and
    a list for it as an element.  When the test finds nothing the
    timestamp is skipped without an error; in every other case the pass
    raises [TypeError]. *)
Theorem timestamp_value_not_an_object (g timestamp date : string) (groups_data : json)
    (days : dict (dict json)) :
  item_date timestamp = Ok date ->
  (forall d, groups_data <> JDict d) ->
  timestamp_step g days (timestamp, groups_data) =
    match py_in g groups_data with
    | Ok false => Ok days
    | _ => Raise TypeError
    end.
Proof.
  intros Hdate Hno. rewrite timestamp_step_eq, Hdate. cbn [bind]. unfold group_day.
  destruct groups_data as [| b | lit | s | l | d]; cbn [py_in py_getitem bind];
    try reflexivity.
  now destruct (Hno d).
Qed.

(** X17. The status chain fails on exactly three kinds of status: [null],
    a boolean and a number, none of which can be searched for "maybe";
    what it raises is [TypeError].  Strings, lists and objects all go
    through. *)
Theorem readable_status_raises_iff (status : json) (e : exn) :
  readable_status status = Raise e <->
  e = TypeError /\
  (status = JNull \/ (exists b, status = JBool b) \/ (exists lit, status = JNumber lit)).
Proof.
  unfold readable_status.
  destruct status as [| b | lit | s | l | d]; cbn [py_eq_str py_in bind].
  - split; [intros E; inversion E; auto | intros [-> _]; reflexivity].
  - split; [intros E; inversion E; eauto | intros [-> _]; reflexivity].
  - split; [intros E; inversion E; eauto 6 | intros [-> _]; reflexivity].
  - split.
    + repeat match goal with |- context [if ?c then _ else _] => destruct c end;
        discriminate.
    + intros [_ [E | [[b E] | [lit E]]]]; discriminate.
  - split.
    + destruct (existsb _ l); discriminate.
    + intros [_ [E | [[b E] | [lit E]]]]; discriminate.
  - split.
    + destruct (Dict.mem "maybe" d); discriminate.
    + intros [_ [E | [[b E] | [lit E]]]]; discriminate.
Qed.

End OneGroup.

Lemma groups_to_parse_nodup : NoDup GROUPS_TO_PARSE.
Proof.
  unfold GROUPS_TO_PARSE.
  repeat (constructor; [cbn [In]; intuition discriminate |]). constructor.
Qed.

Lemma output_keys_unique_witness :
  let day := [("00:00-01:00", JStr "light_off"); ("01:00-02:00", JStr "light_on")] in
  NoDup (Dict.keys [("GPV1.1", [("2023-11-14", day)])]) /\
  NoDup (Dict.keys [("2023-11-14", day)]) /\
  NoDup (Dict.keys day).
Proof.
  cbv zeta.
  assert (Hb : @build_output (Reference.host EmptyString 0)
    {| fact := JDict [("data", JDict
         [("1700000000", JDict [("GPV1.1", JDict [("1", JStr "yes"); ("2", JStr "no")])]);
          ("1700003600", JDict [("GPV1.1", JDict [("1", JStr "yes"); ("2", JStr "yes");
                                                    ("01", JStr "no")])])])];
       preset := JDict []; fetched_at := EmptyString |}
    GROUPS_TO_PARSE
  = Ok {| out_fetched_at := EmptyString; update_time := JStr "unknown";
          groups := [("GPV1.1", [("2023-11-14",
             [("00:00-01:00", JStr "light_off"); ("01:00-02:00", JStr "light_on")])])] |})
    by (vm_compute; reflexivity).
  destruct (@output_keys_unique (Reference.host EmptyString 0) _ _ _ Hb) as [Hg Hrest].
  split; [exact Hg |].
  destruct (Hrest "GPV1.1" _ (or_introl eq_refl)) as [Hd Hday].
  split; [exact Hd |].
  exact (Hday "2023-11-14" _ (or_introl eq_refl)).
Defined.

Lemma output_groups_in_configured_order_witness :
  Dict.keys [("GPV1.2", [("2023-11-14", [("00:00-01:00", JStr "light_on")])]);
             ("GPV6.1", [("2023-11-14", [("01:00-02:00", JStr "light_off")])])]
  = filter
      (@has_days (Reference.host EmptyString 0)
         (JDict [("data", JDict [("1700000000",
            JDict [("GPV6.1", JDict [("2", JStr "no")]);
                   ("GPV9.9", JDict [("3", JStr "no")]);
                   ("GPV1.2", JDict [("1", JStr "yes")])])])]))
      GROUPS_TO_PARSE.
Proof.
  apply (@output_groups_in_configured_order (Reference.host EmptyString 0)
           {| fact := JDict [("data", JDict [("1700000000",
                 JDict [("GPV6.1", JDict [("2", JStr "no")]);
                        ("GPV9.9", JDict [("3", JStr "no")]);
                        ("GPV1.2", JDict [("1", JStr "yes")])])])];
              preset := JDict []; fetched_at := EmptyString |}
           GROUPS_TO_PARSE
           {| out_fetched_at := EmptyString; update_time := JStr "unknown";
              groups :=
                [("GPV1.2", [("2023-11-14", [("00:00-01:00", JStr "light_on")])]);
                 ("GPV6.1", [("2023-11-14", [("01:00-02:00", JStr "light_off")])])] |}).
  - exact groups_to_parse_nodup.
  - vm_compute. reflexivity.
Defined.

Lemma one_bad_group_fails_the_run_witness :
  let page := (Reference.spaces 1000 ++ Reference.dq
    "DisconSchedule.fact = {'data':{'1700000000':{'GPV1.1':{'1':'yes'},'GPV6.2':{'x':'no'}}}};")
  in
  fst (@main (Reference.host page 0) Reference.empty_world) = false /\
  output_file (snd (@main (Reference.host page 0) Reference.empty_world)) = Absent.
Proof.
  cbv zeta.
  eapply (@one_bad_group_fails_the_run
            (Reference.host (Reference.spaces 1000 ++ Reference.dq
    "DisconSchedule.fact = {'data':{'1700000000':{'GPV1.1':{'1':'yes'},'GPV6.2':{'x':'no'}}}};") 0)
            Reference.empty_world _ _ "GPV6.2" ValueError).
  - vm_compute. reflexivity.
  - vm_compute. reflexivity.
  - cbn. tauto.
  - vm_compute. reflexivity.
Defined.

Lemma unreadable_timestamp_fails_every_group_witness :
  exists e,
    @format_schedule_for_group (Reference.host EmptyString 0)
      (JDict [("data", JDict [("1700000000", JDict [("GPV1.1", JDict [("1", JStr "yes")])]);
                              ("tomorrow", JDict [("GPV2.1", JDict [])])])])
      "GPV1.1"
    = Raise e.
Proof.
  apply (@unreadable_timestamp_fails_every_group (Reference.host EmptyString 0)
           [("data", JDict [("1700000000", JDict [("GPV1.1", JDict [("1", JStr "yes")])]);
                            ("tomorrow", JDict [("GPV2.1", JDict [])])])]
           [("1700000000", JDict [("GPV1.1", JDict [("1", JStr "yes")])]);
            ("tomorrow", JDict [("GPV2.1", JDict [])])]
           "tomorrow" (JDict [("GPV2.1", JDict [])]) ValueError).
  - reflexivity.
  - right. now left.
  - vm_compute. reflexivity.
Defined.

Lemma other_groups_do_not_matter_witness :
  @format_schedule_for_group (Reference.host EmptyString 0)
    (JDict [("data", JDict [("1700000000",
       JDict [("GPV1.1", JDict [("1", JStr "yes")]); ("GPV1.2", JDict [("x", JNull)])])])])
    "GPV1.1"
  = @format_schedule_for_group (Reference.host EmptyString 0)
    (JDict [("update", JStr "12:00");
            ("data", JDict [("1700000000", JDict [("GPV1.1", JDict [("1", JStr "yes")])])])])
    "GPV1.1".
Proof.
  apply (@other_groups_do_not_matter (Reference.host EmptyString 0) _ _
           [("1700000000",
             JDict [("GPV1.1", JDict [("1", JStr "yes")]); ("GPV1.2", JDict [("x", JNull)])])]
           [("1700000000", JDict [("GPV1.1", JDict [("1", JStr "yes")])])]).
  - reflexivity.
  - reflexivity.
  - repeat constructor.
Defined.

Lemma date_is_key_iff_witness :
  In "2023-11-14" (Dict.keys [("2023-11-14", [("00:00-01:00", JStr "light_on")])]).
Proof.
  apply (@date_is_key_iff (Reference.host EmptyString 0)
           [("data", JDict [("1700000000", JDict [("GPV1.1", JDict [("1", JStr "yes")])])])]
           [("1700000000", JDict [("GPV1.1", JDict [("1", JStr "yes")])])]
           "GPV1.1" "2023-11-14"
           {| group := "GPV1.1";
              days := [("2023-11-14", [("00:00-01:00", JStr "light_on")])] |}).
  - reflexivity.
  - vm_compute. reflexivity.
  - vm_compute. reflexivity.
Defined.

Lemma group_held_nowhere_witness :
  @format_schedule_for_group (Reference.host EmptyString 0)
    (JDict [("data", JDict [("1700000000", JDict [("GPV1.1", JDict [("1", JStr "yes")])]);
                            ("1700090000", JList [])])])
    "GPV3.1"
  = Ok {| group := "GPV3.1"; days := [] |}.
Proof.
  apply (@group_held_nowhere (Reference.host EmptyString 0) _
           [("1700000000", JDict [("GPV1.1", JDict [("1", JStr "yes")])]);
            ("1700090000", JList [])]).
  - reflexivity.
  - intros ts gd [E | [E | []]]; inversion E; subst; split;
      try (eexists; vm_compute; reflexivity); reflexivity.
Defined.

Lemma timestamp_value_not_an_object_witness :
  @timestamp_step (Reference.host EmptyString 0) "GPV1.1" []
    ("1700000000", JStr "schedule for GPV1.1 is not available")
  = Raise TypeError /\
  @timestamp_step (Reference.host EmptyString 0) "GPV1.1" []
    ("1700000000", JStr "not available")
  = Ok [].
Proof.
  split.
  - apply (@timestamp_value_not_an_object (Reference.host EmptyString 0) "GPV1.1"
             "1700000000" "2023-11-14" (JStr "schedule for GPV1.1 is not available") []);
      [vm_compute; reflexivity | discriminate].
  - apply (@timestamp_value_not_an_object (Reference.host EmptyString 0) "GPV1.1"
             "1700000000" "2023-11-14" (JStr "not available") []);
      [vm_compute; reflexivity | discriminate].
Defined.

Lemma readable_status_raises_iff_witness :
  readable_status (JNumber "0") = Raise TypeError.
Proof.
  apply readable_status_raises_iff. split; [reflexivity |].
  right. right. now exists "0".
Defined.

(** ** The log and the file at the end of a run *)

Section RunOutcome.
Context `{Host}.

Lemma print_today_lines (o : output) (w : world) :
  exists ls,
    print_today o w = (Ok tt, printed w ls) /\ forallb is_summary_line ls = true.
Proof.
  unfold print_today.
  destruct (Dict.get "GPV1.1" (groups o)) as [gpv11 |].
  2:{ exists []. unfold io_ret, printed. rewrite List.app_nil_r. now destruct w. }
  destruct (Dict.get now_date gpv11) as [schedule |].
  2:{ exists []. unfold io_ret, printed. rewrite List.app_nil_r. now destruct w. }
  unfold io_bind, print, io_ret, printed.
  destruct (negb (Nat.eqb (List.length (keys_with "light_on" schedule)) 0));
    destruct (negb (Nat.eqb (List.length (keys_with "light_off" schedule)) 0));
    cbn [stdout output_file]; eexists; (split; [rewrite <- ?List.app_assoc; reflexivity |]);
    reflexivity.
Qed.

Lemma summary_lines_quiet (ls : list line) :
  forallb is_summary_line ls = true ->
  existsb is_error ls = false /\ ~ In LSaved ls /\ ~ In LDone ls.
Proof.
  induction ls as [|l ls IH]; cbn [forallb existsb In]; [intuition |].
  intros Hl. apply andb_true_iff in Hl as [Hl Hls].
  destruct (IH Hls) as (He & Hs & Hd).
  destruct l; cbn in Hl; try discriminate; cbn [is_error orb];
    (split; [exact He | split; intros [E | Hin]; try discriminate; tauto]).
Qed.

(** The run, stage by stage: what is returned, what is printed and what
    the file holds. *)
Lemma main_eq (w : world) :
  exists ls,
    forallb is_summary_line ls = true /\
    main w =
      match requests_get with
      | Raise e => (false, printed w [LConnecting; LError e])
      | Ok response =>
          if negb (status_code response =? 200) then
            (false, printed w [LConnecting; LError (HttpError (status_code response))])
          else if (Str.char_len (text response) <? 1000)
                  || negb (Str.contains (text response) "DisconSchedule") then
            (false, printed w [LConnecting; LError ProtectionPage])
          else
            let received := [LConnecting; LPageReceived (Str.char_len (text response)); LParsing] in
            match parse_schedule (text response) with
            | Raise e => (false, printed w (received ++ [LError e]))
            | Ok raw =>
                match build_output raw GROUPS_TO_PARSE with
                | Raise e => (false, printed w (received ++ [LError e]))
                | Ok out =>
                    match write with
                    | OpenRaises e => (false, printed w (received ++ [LError e]))
                    | DumpRaises e =>
                        (false,
                         {| stdout := stdout w ++ received ++ [LError e];
                            output_file := Partial out |})
                    | Written =>
                        (true,
                         {| stdout :=
                              stdout w ++ received
                              ++ [LSaved; LSummary; LUpdateTime (update_time out);
                                  LGroupCount (Z.of_nat (List.length (groups out)))]
                              ++ ls ++ [LDone];
                            output_file := Document out |})
                    end
                end
            end
      end.
Proof.
  unfold main, run. unfold io_bind at 1. rewrite fetch_dtek_page_eq.
  destruct requests_get as [response | e].
  2:{ exists []. split; [reflexivity |]. unfold printed. cbn [stdout output_file].
      now rewrite <- List.app_assoc. }
  destruct (negb (status_code response =? 200)).
  { exists []. split; [reflexivity |]. unfold printed. cbn [stdout output_file].
    now rewrite <- List.app_assoc. }
  destruct ((Str.char_len (text response) <? 1000)
            || negb (Str.contains (text response) "DisconSchedule")).
  { exists []. split; [reflexivity |]. unfold printed. cbn [stdout output_file].
    now rewrite <- List.app_assoc. }
  cbv zeta. unfold io_bind at 1. cbn [print]. unfold io_bind at 1. unfold lift at 1.
  destruct (parse_schedule (text response)) as [raw | e].
  2:{ exists []. split; [reflexivity |]. unfold printed. cbn [stdout output_file].
      now rewrite <- !List.app_assoc. }
  unfold io_bind at 1. unfold lift at 1.
  destruct (build_output raw GROUPS_TO_PARSE) as [out | e].
  2:{ exists []. split; [reflexivity |]. unfold printed. cbn [stdout output_file].
      now rewrite <- !List.app_assoc. }
  unfold io_bind at 1. unfold dump at 1.
  destruct write.
  2:{ exists []. split; [reflexivity |]. unfold printed. cbn [stdout output_file].
      now rewrite <- !List.app_assoc. }
  2:{ exists []. split; [reflexivity |]. unfold printed. cbn [stdout output_file].
      now rewrite <- !List.app_assoc. }
  do 4 (unfold io_bind at 1; cbn [print]).
  unfold io_bind at 1.
  match goal with
  | |- context [print_today out ?w'] =>
      destruct (print_today_lines out w') as (ls & Hpt & Hls); rewrite Hpt
  end.
  exists ls. split; [exact Hls |].
  unfold printed. cbn [print stdout output_file].
  now rewrite <- !List.app_assoc.
Qed.

(** X18. Every failed run ends its log with exactly one error line and has
    not printed the line that reports the saved file; a successful run
    prints no error line, has printed that line and ends with the closing
    line.  Lines printed before the run are kept. *)
Theorem log_tells_the_outcome (w : world) :
  exists lines,
    stdout (snd (main w)) = (stdout w ++ lines)%list /\
    (fst (main w) = true ->
       existsb is_error lines = false /\ In LSaved lines /\
       last lines LConnecting = LDone) /\
    (fst (main w) = false ->
       exists e front,
         lines = (front ++ [LError e])%list /\
         existsb is_error front = false /\ ~ In LSaved front).
Proof.
  destruct (main_eq w) as (ls & Hls & Hmain). rewrite Hmain. clear Hmain.
  destruct (summary_lines_quiet ls Hls) as (Hquiet & Hns & _).
  assert (Hfail : forall (front : list line) (e : exn) (f : file),
            existsb is_error front = false -> ~ In LSaved front ->
            exists lines,
              stdout (snd (false, {| stdout := stdout w ++ front ++ [LError e];
                                     output_file := f |}))
              = (stdout w ++ lines)%list /\
              (fst (false, {| stdout := stdout w ++ front ++ [LError e];
                              output_file := f |}) = true ->
               existsb is_error lines = false /\ In LSaved lines /\
               last lines LConnecting = LDone) /\
              (fst (false, {| stdout := stdout w ++ front ++ [LError e];
                              output_file := f |}) = false ->
               exists e0 front0,
                 lines = (front0 ++ [LError e0])%list /\
                 existsb is_error front0 = false /\ ~ In LSaved front0)).
  { intros front e f He Hs. exists (front ++ [LError e])%list. cbn [fst snd stdout].
    split; [reflexivity |]. split; [discriminate |].
    intros _. now exists e, front. }
  destruct requests_get as [response | e].
  2:{ apply (Hfail [LConnecting] e); [reflexivity | intros [E | []]; discriminate]. }
  destruct (negb (status_code response =? 200)).
  { apply (Hfail [LConnecting]); [reflexivity | intros [E | []]; discriminate]. }
  destruct ((Str.char_len (text response) <? 1000)
            || negb (Str.contains (text response) "DisconSchedule")).
  { apply (Hfail [LConnecting]); [reflexivity | intros [E | []]; discriminate]. }
  cbv zeta.
  assert (Hrec : ~ In LSaved [LConnecting; LPageReceived (Str.char_len (text response)); LParsing])
    by (intros [E | [E | [E | []]]]; discriminate).
  destruct (parse_schedule (text response)) as [raw | e];
    [| apply (Hfail _ e); [reflexivity | exact Hrec]].
  destruct (build_output raw GROUPS_TO_PARSE) as [out | e];
    [| apply (Hfail _ e); [reflexivity | exact Hrec]].
  destruct write; [| apply Hfail; [reflexivity | exact Hrec] ..].
  eexists. cbn [fst snd stdout]. split; [reflexivity |]. split; [|discriminate].
  intros _. split; [| split].
  - cbn [app existsb is_error orb]. rewrite existsb_app, Hquiet. reflexivity.
  - cbn [app In]. tauto.
  - rewrite !List.app_assoc. apply last_last.
Qed.

(** X19. [main] returns [True] exactly when the page was fetched, parsed
    and formatted and the write went through; the file then holds the
    document that was built. *)
Theorem main_true_iff (w : world) :
  fst (main w) = true <->
  exists html raw out,
    fst (fetch_dtek_page w) = Ok html /\
    parse_schedule html = Ok raw /\
    build_output raw GROUPS_TO_PARSE = Ok out /\
    write = Written /\
    output_file (snd (main w)) = Document out.
Proof.
  pose proof (main_cases w) as Hc. split.
  - intros Htrue.
    destruct (fst (fetch_dtek_page w)) as [html | e]; [|destruct Hc; congruence].
    destruct (parse_schedule html) as [raw | e] eqn:Hp; [|destruct Hc; congruence].
    destruct (build_output raw GROUPS_TO_PARSE) as [out | e] eqn:Hb;
      [|destruct Hc; congruence].
    destruct write; [| destruct Hc; congruence ..].
    exists html, raw, out. repeat split; try assumption. apply Hc.
  - intros (html & raw & out & Hf & Hp & Hb & Hw & _).
    rewrite Hf, Hp, Hb, Hw in Hc. apply Hc.
Qed.

(** X20. The file is opened before the document is written to it: when the
    dump raises after a page was fetched, parsed and formatted, [main]
    returns [False] and the file no longer holds what it held, but the
    beginning of the new document; when [open] itself raises, the file is
    as it was. *)
Theorem failed_write (w : world) (html : string) (raw : raw_data) (out : output) :
  fst (fetch_dtek_page w) = Ok html ->
  parse_schedule html = Ok raw ->
  build_output raw GROUPS_TO_PARSE = Ok out ->
  write <> Written ->
  fst (main w) = false /\
  output_file (snd (main w)) =
    match write with
    | DumpRaises _ => Partial out
    | _ => output_file w
    end.
Proof.
  intros Hf Hp Hb Hw. pose proof (main_cases w) as Hc.
  rewrite Hf, Hp, Hb in Hc. destruct write; [contradiction | exact Hc | exact Hc].
Qed.

End RunOutcome.

Lemma main_true_iff_witness :
  fst (@main (Reference.host Reference.fixture_page 1700000000) Reference.empty_world)
  = true.
Proof.
  apply (@main_true_iff (Reference.host Reference.fixture_page 1700000000)).
  exists Reference.fixture_page. eexists. eexists.
  split; [vm_compute; reflexivity |].
  split; [vm_compute; reflexivity |].
  split; [vm_compute; reflexivity |].
  split; [reflexivity |].
  vm_compute. reflexivity.
Defined.

Lemma failed_write_witness :
  let host := {| requests_get := Ok {| status_code := 200; text := Reference.fixture_page |};
                 json_loads := Reference.loads; py_int := Reference.int;
                 local_date := Reference.utc_date; now_isoformat := EmptyString;
                 now_date := EmptyString; write := DumpRaises UnicodeEncodeError |} in
  fst (@main host Reference.empty_world) = false /\
  output_file (snd (@main host Reference.empty_world))
  = Partial {| out_fetched_at := EmptyString; update_time := JStr "12:00";
               groups := [("GPV1.1",
                           [("2023-11-14",
                             [("00:00-01:00", JStr "light_on");
                              ("01:00-02:00", JStr "light_off")])])] |}.
Proof.
  cbv zeta.
  eapply (@failed_write
            {| requests_get := Ok {| status_code := 200; text := Reference.fixture_page |};
               json_loads := Reference.loads; py_int := Reference.int;
               local_date := Reference.utc_date; now_isoformat := EmptyString;
               now_date := EmptyString; write := DumpRaises UnicodeEncodeError |}
            Reference.empty_world).
  - vm_compute. reflexivity.
  - vm_compute. reflexivity.
  - vm_compute. reflexivity.
  - cbn. discriminate.
Defined.

(** ** The order of the dates and where the entries come from *)

Section Provenance.
Context `{Host}.

Lemma mem_existsb {V : Type} (k : string) (d : dict V) :
  Dict.mem k d = existsb (String.eqb k) (Dict.keys d).
Proof.
  unfold Dict.mem, Dict.keys.
  induction d as [|[k0 v0] d IH]; cbn [Dict.get map fst existsb]; [reflexivity |].
  destruct (String.eqb k k0); cbn [orb]; [reflexivity | exact IH].
Qed.

Lemma keys_set_add_once {V : Type} (k : string) (v : V) (d : dict V) :
  Dict.keys (Dict.set k v d) = add_once (Dict.keys d) k.
Proof. rewrite keys_set, mem_existsb. reflexivity. Qed.

Lemma days_keys (g : string) (data : dict json) :
  forall days0 days1 : dict (dict json),
    foldM (timestamp_step g) days0 data = Ok days1 ->
    Dict.keys days1 = fold_left add_once (contributed_dates g data) (Dict.keys days0).
Proof.
  unfold contributed_dates.
  induction data as [|[timestamp groups_data] data IH]; intros days0 days1 Hfold.
  - cbn in Hfold. now inversion Hfold.
  - cbn [foldM] in Hfold. rewrite timestamp_step_eq in Hfold.
    cbn [flat_map fst snd]. rewrite fold_left_app.
    destruct (item_date timestamp) as [date | e]; cbn [bind] in Hfold; [|discriminate].
    destruct (py_in g groups_data) as [[|] | e]; cbn [bind] in Hfold; [| | discriminate].
    + destruct (group_day g groups_data) as [day | e]; cbn [bind] in Hfold; [|discriminate].
      rewrite (IH _ _ Hfold). cbn [fold_left]. now rewrite keys_set_add_once.
    + now rewrite (IH _ _ Hfold).
Qed.

(** X21. The dates of a group are listed in the order in which they are
    first met among the timestamps that hold the group: a later timestamp
    of a date that is already there replaces the day but leaves the date
    where it stands. *)
Theorem dates_in_first_seen_order (items data : dict json) (g : string) (r : formatted) :
  Dict.get "data" items = Some (JDict data) ->
  format_schedule_for_group (JDict items) g = Ok r ->
  Dict.keys (days r) = first_seen (contributed_dates g data).
Proof.
  intros Hd Hr. rewrite (format_with_data _ _ _ Hd) in Hr.
  destruct (foldM (timestamp_step g) [] data) as [ds | e] eqn:Hfold; cbn [bind] in Hr;
    [|discriminate].
  inversion Hr; subst r. cbn [days]. exact (days_keys _ _ _ _ Hfold).
Qed.

Lemma hours_members (hours : dict json) :
  forall day0 day : dict json,
    format_hours hours day0 = Ok day ->
    forall range label, In (range, label) day ->
      In (range, label) day0 \/
      exists hour_str status h,
        In (hour_str, status) hours /\ py_int hour_str = Some h /\
        range = time_range h /\ readable_status status = Ok label.
Proof.
  induction hours as [|[hour_str status] hours IH]; intros day0 day Hf range label Hin.
  - cbn in Hf. inversion Hf; subst. now left.
  - rewrite format_hours_cons in Hf. unfold hour_entry in Hf. cbn [fst snd] in Hf.
    destruct (py_int hour_str) as [h |] eqn:Eh; cbn [of_option bind] in Hf; [|discriminate].
    destruct (readable_status status) as [l | e] eqn:Est; cbn [bind fst snd] in Hf;
      [|discriminate].
    destruct (IH _ _ Hf range label Hin) as [Hin0 | (hs & st & h' & Hi & Hp & Hr & Hl)].
    + apply in_set in Hin0 as [[-> ->] | Hin0]; [|now left].
      right. exists hour_str, status, h. split; [now left | auto].
    + right. exists hs, st, h'. split; [now right | auto].
Qed.

Lemma days_members_dated (g : string) (data : dict json) :
  forall days0 days1 : dict (dict json),
    foldM (timestamp_step g) days0 data = Ok days1 ->
    forall date day, In (date, day) days1 ->
      In (date, day) days0 \/
      exists timestamp groups_data,
        In (timestamp, groups_data) data /\ item_date timestamp = Ok date /\
        group_day g groups_data = Ok day.
Proof.
  induction data as [|[timestamp groups_data] data IH]; intros days0 days1 Hfold date day Hin.
  - cbn in Hfold. inversion Hfold; subst. now left.
  - cbn [foldM] in Hfold. rewrite timestamp_step_eq in Hfold.
    destruct (item_date timestamp) as [d | e] eqn:Ed; cbn [bind] in Hfold; [|discriminate].
    destruct (py_in g groups_data) as [[|] | e]; cbn [bind] in Hfold; [| | discriminate].
    + destruct (group_day g groups_data) as [day' | e] eqn:Eday; cbn [bind] in Hfold;
        [|discriminate].
      destruct (IH _ _ Hfold date day Hin) as [Hin0 | (ts & gd & Hi & Hd & Hg)].
      * apply in_set in Hin0 as [[-> ->] | Hin0]; [|now left].
        right. exists timestamp, groups_data. split; [now left | auto].
      * right. exists ts, gd. split; [now right | auto].
    + destruct (IH _ _ Hfold date day Hin) as [Hin0 | (ts & gd & Hi & Hd & Hg)];
        [now left |].
      right. exists ts, gd. split; [now right | auto].
Qed.

(** X22. Nothing in the result is made up: every entry of every day comes
    from an hour item that the fact document holds for that group under a
    timestamp of that date; its label is the time range of that hour and
    its value the readable form of that status. *)
Theorem entries_come_from_the_document (items data : dict json) (g : string)
    (r : formatted) (date range : string) (day : dict json) (label : json) :
  Dict.get "data" items = Some (JDict data) ->
  format_schedule_for_group (JDict items) g = Ok r ->
  In (date, day) (days r) ->
  In (range, label) day ->
  exists timestamp groups_data hours hour_str status h,
    In (timestamp, groups_data) data /\
    item_date timestamp = Ok date /\
    py_getitem groups_data g = Ok (JDict hours) /\
    In (hour_str, status) hours /\
    py_int hour_str = Some h /\
    range = time_range h /\
    readable_status status = Ok label.
Proof.
  intros Hd Hr Hday Hentry. rewrite (format_with_data _ _ _ Hd) in Hr.
  destruct (foldM (timestamp_step g) [] data) as [ds | e] eqn:Hfold; cbn [bind] in Hr;
    [|discriminate].
  inversion Hr; subst r; clear Hr. cbn [days] in Hday.
  destruct (days_members_dated _ _ _ _ Hfold date day Hday)
    as [[] | (ts & gd & Hin & Hdate & Hgd)].
  unfold group_day in Hgd.
  destruct (py_getitem gd g) as [hours_data | e] eqn:Hget; cbn [bind] in Hgd;
    [|discriminate].
  destruct hours_data as [| b | lit | s | l | hours]; cbn [py_items bind] in Hgd;
    try discriminate.
  destruct (hours_members _ _ _ Hgd range label Hentry)
    as [[] | (hs & st & h & Hi & Hp & Hrange & Hl)].
  exists ts, gd, hours, hs, st, h. auto 10.
Qed.

End Provenance.

Lemma dates_in_first_seen_order_witness :
  Dict.keys [("2023-11-14", [("02:00-03:00", JStr "light_off")]);
             ("2023-11-15", [("01:00-02:00", JStr "light_on")])]
  = first_seen
      (@contributed_dates (Reference.host EmptyString 0) "GPV1.1"
         [("1700000000", JDict [("GPV1.1", JDict [("1", JStr "yes")])]);
          ("1700090000", JDict [("GPV1.1", JDict [("2", JStr "yes")])]);
          ("1700003600", JDict [("GPV1.1", JDict [("3", JStr "no")])])]).
Proof.
  apply (@dates_in_first_seen_order (Reference.host EmptyString 0)
           [("data", JDict
               [("1700000000", JDict [("GPV1.1", JDict [("1", JStr "yes")])]);
                ("1700090000", JDict [("GPV1.1", JDict [("2", JStr "yes")])]);
                ("1700003600", JDict [("GPV1.1", JDict [("3", JStr "no")])])])]
           _ "GPV1.1"
           {| group := "GPV1.1";
              days := [("2023-11-14", [("02:00-03:00", JStr "light_off")]);
                       ("2023-11-15", [("01:00-02:00", JStr "light_on")])] |}).
  - reflexivity.
  - vm_compute. reflexivity.
Defined.

Lemma entries_come_from_the_document_witness :
  exists timestamp groups_data hours hour_str status h,
    In (timestamp, groups_data)
       [("1700000000", JDict [("GPV1.1", JDict [("1", JStr "yes"); ("2", JStr "no")])])] /\
    @item_date (Reference.host EmptyString 0) timestamp = Ok "2023-11-14" /\
    py_getitem groups_data "GPV1.1" = Ok (JDict hours) /\
    In (hour_str, status) hours /\
    Reference.int hour_str = Some h /\
    "01:00-02:00" = time_range h /\
    readable_status status = Ok (JStr "light_off").
Proof.
  apply (@entries_come_from_the_document (Reference.host EmptyString 0)
           [("data", JDict
               [("1700000000", JDict [("GPV1.1", JDict [("1", JStr "yes"); ("2", JStr "no")])])])]
           _ "GPV1.1"
           {| group := "GPV1.1";
              days := [("2023-11-14",
                        [("00:00-01:00", JStr "light_on"); ("01:00-02:00", JStr "light_off")])] |}
           "2023-11-14" "01:00-02:00"
           [("00:00-01:00", JStr "light_on"); ("01:00-02:00", JStr "light_off")]
           (JStr "light_off")).
  - reflexivity.
  - vm_compute. reflexivity.
  - now left.
  - right. now left.
Defined.

(** ** The summary of today *)

Section Summary.
Context `{Host}.

Lemma insert_sorted_in (x y : string) (l : list string) :
  In x (insert_sorted y l) <-> x = y \/ In x l.
Proof.
  induction l as [|z l IH]; cbn [insert_sorted In]; [intuition |].
  destruct (String.leb y z); cbn [In]; [intuition |]. rewrite IH. intuition.
Qed.

Lemma sorted_in (x : string) (l : list string) : In x (sorted l) <-> In x l.
Proof.
  unfold sorted. induction l as [|y l IH]; cbn [fold_right In]; [tauto |].
  rewrite insert_sorted_in, IH. intuition.
Qed.

Lemma insert_sorted_length (x : string) (l : list string) :
  List.length (insert_sorted x l) = S (List.length l).
Proof.
  induction l as [|z l IH]; cbn [insert_sorted List.length]; [reflexivity |].
  destruct (String.leb x z); cbn [List.length]; [reflexivity | now rewrite IH].
Qed.

Lemma sorted_length (l : list string) : List.length (sorted l) = List.length l.
Proof.
  unfold sorted. induction l as [|y l IH]; cbn [fold_right List.length]; [reflexivity |].
  now rewrite insert_sorted_length, IH.
Qed.

Lemma insert_sorted_Sorted (x : string) (l : list string) :
  Sorted (fun a b => String.leb a b = true) l ->
  Sorted (fun a b => String.leb a b = true) (insert_sorted x l).
Proof.
  induction 1 as [|z l Hs IH Hhd]; cbn [insert_sorted]; [repeat constructor |].
  destruct (String.leb x z) eqn:E.
  - constructor; [now constructor | now constructor].
  - constructor; [exact IH |].
    assert (Hzx : String.leb z x = true)
      by (destruct (String.leb_total z x); congruence).
    destruct l as [|u l]; cbn [insert_sorted]; [now constructor |].
    inversion Hhd; subst. destruct (String.leb x u); now constructor.
Qed.

Lemma sorted_Sorted (l : list string) :
  Sorted (fun a b => String.leb a b = true) (sorted l).
Proof.
  unfold sorted. induction l as [|y l IH]; cbn [fold_right]; [constructor |].
  now apply insert_sorted_Sorted.
Qed.

Lemma Sorted_firstn {A : Type} (R : A -> A -> Prop) (n : nat) (l : list A) :
  Sorted R l -> Sorted R (firstn n l).
Proof.
  revert l; induction n as [|n IH]; intros l Hs; [constructor |].
  destruct Hs as [|a l Hs Hhd]; cbn [firstn]; [constructor |].
  constructor; [now apply IH |].
  destruct Hhd; destruct n; cbn [firstn]; now constructor.
Qed.

Lemma in_firstn {A : Type} (n : nat) (l : list A) (x : A) :
  In x (firstn n l) -> In x l.
Proof.
  revert l; induction n as [|n IH]; intros [|a l]; cbn [firstn In]; try tauto.
  intros [-> | Hin]; [now left | right; now apply IH].
Qed.

Lemma keys_with_in (label range : string) (schedule : dict json) :
  In range (keys_with label schedule) -> In (range, JStr label) schedule.
Proof.
  unfold keys_with. rewrite in_map_iff.
  intros ([k v] & <- & Hin). apply filter_In in Hin as [Hin Heq].
  cbn [fst snd] in *. destruct v; cbn [py_eq_str] in Heq; try discriminate.
  apply String.eqb_eq in Heq. now subst.
Qed.

(** The list of a summary line. *)
Lemma listed_ranges (o : output) (gpv11 : dict (dict json)) (schedule : dict json)
    (label : string) :
  Dict.get "GPV1.1" (groups o) = Some gpv11 ->
  Dict.get now_date gpv11 = Some schedule ->
  negb (Nat.eqb (List.length (keys_with label schedule)) 0) = true ->
  listed_for o label (firstn 5 (sorted (keys_with label schedule))).
Proof.
  intros Hg Hs Hne. apply negb_true_iff, Nat.eqb_neq in Hne.
  unfold listed_for. split; [|split].
  - rewrite length_firstn, sorted_length. lia.
  - apply Sorted_firstn, sorted_Sorted.
  - intros range Hin. exists gpv11, schedule.
    split; [exact Hg | split; [exact Hs |]].
    apply in_firstn in Hin. apply (proj1 (sorted_in _ _)) in Hin.
    exact (keys_with_in _ _ _ Hin).
Qed.

(** X23. The summary only prints lines about today, never fails, and what
    its two lists show is true of the output: each list has between one
    and five ranges, in ascending order, and each range is one that today's
    schedule of group 1.1 files under the status of the list. *)
Theorem summary_of_today (o : output) (w : world) :
  exists ls,
    print_today o w = (Ok tt, printed w ls) /\
    forallb is_summary_line ls = true /\
    forall ranges,
      (In (LLightOn ranges) ls -> listed_for o "light_on" ranges) /\
      (In (LLightOff ranges) ls -> listed_for o "light_off" ranges).
Proof.
  unfold print_today.
  destruct (Dict.get "GPV1.1" (groups o)) as [gpv11 |] eqn:Hg.
  2:{ exists []. unfold io_ret, printed. rewrite List.app_nil_r.
      split; [now destruct w | split; [reflexivity | intros; split; intros []]]. }
  destruct (Dict.get now_date gpv11) as [schedule |] eqn:Hs.
  2:{ exists []. unfold io_ret, printed. rewrite List.app_nil_r.
      split; [now destruct w | split; [reflexivity | intros; split; intros []]]. }
  pose proof (listed_ranges o gpv11 schedule "light_on" Hg Hs) as Hon.
  pose proof (listed_ranges o gpv11 schedule "light_off" Hg Hs) as Hoff.
  unfold io_bind, print, io_ret, printed.
  destruct (negb (Nat.eqb (List.length (keys_with "light_on" schedule)) 0));
    destruct (negb (Nat.eqb (List.length (keys_with "light_off" schedule)) 0));
    cbn [stdout output_file]; eexists;
    (split; [rewrite <- ?List.app_assoc; reflexivity |]);
    (split; [reflexivity |]);
    intros ranges; split; cbn [In]; intros Hin;
    repeat (destruct Hin as [Hin | Hin];
            [try discriminate Hin; injection Hin as <-; auto |]);
    contradiction.
Qed.

End Summary.

(** ** What the output holds for a group, a date and an hour *)

Section OutputContents.
Context `{Host}.

Lemma in_get {V : Type} (k : string) (v : V) (d : dict V) :
  NoDup (Dict.keys d) -> In (k, v) d -> Dict.get k d = Some v.
Proof.
  unfold Dict.keys. induction d as [|[k0 v0] d IH]; cbn [map fst In Dict.get];
    [contradiction |].
  intros Hnd [E | Hin].
  - inversion E; subst. now rewrite String.eqb_refl.
  - inversion Hnd as [|? ? Hnotin Hnd']; subst.
    destruct (String.eqb_spec k k0) as [-> | _]; [|now apply IH].
    exfalso. apply Hnotin. apply in_map_iff. now exists (k0, v).
Qed.

Lemma find_last_some {A : Type} (p : A -> bool) (l : list A) (x : A) :
  find_last p l = Some x -> In x l /\ p x = true.
Proof.
  induction l as [|a l IH]; cbn [find_last In]; [discriminate |].
  destruct (find_last p l) as [b |].
  - intros E; inversion E; subst b. destruct (IH eq_refl). auto.
  - destruct (p a) eqn:Ea; [|discriminate].
    intros E; inversion E; subst a. auto.
Qed.

(** The day under a date is the one built from the hour mapping that the
    last timestamp of that date holds for the group. *)
Lemma day_of_last_timestamp (g date : string) (data : dict json)
    (ds : dict (dict json)) (day : dict json) :
  foldM (timestamp_step g) [] data = Ok ds ->
  Dict.get date ds = Some day ->
  exists timestamp groups_data hours,
    find_last (contributes g date) data = Some (timestamp, groups_data) /\
    py_getitem groups_data g = Ok (JDict hours) /\
    format_hours hours [] = Ok day.
Proof.
  intros Hfold Hget. pose proof (days_lookup _ _ _ _ Hfold date) as Hlook.
  rewrite Hget in Hlook. cbn [option_map Dict.get] in Hlook.
  destruct (find_last (contributes g date) data) as [[timestamp groups_data] |];
    [|discriminate].
  cbn [snd] in Hlook. inversion Hlook as [Hday]. symmetry in Hday.
  unfold group_day in Hday.
  destruct (py_getitem groups_data g) as [hours_data | e] eqn:Hitem; cbn [bind] in Hday;
    [|discriminate].
  destruct hours_data as [| b | lit | s | l | hours]; cbn [py_items bind] in Hday;
    try discriminate.
  exists timestamp, groups_data, hours. auto.
Qed.

(** C2, as the code has it.  In the output a group never maps to an empty
    day map: every group that is a key was configured and has at least one
    date, and a group whose day map came out empty is not a key.  A date
    that is a key maps to the entries built from one hour mapping of the
    group, the one that the last timestamp of that date holds for it; the
    date has no entry exactly when that hour mapping has none. *)
Theorem output_groups_nonempty (raw : raw_data) (configured : list string)
    (out : output) :
  build_output raw configured = Ok out ->
  (forall g ds, In (g, ds) (groups out) ->
     In g configured /\ ds <> [] /\
     format_schedule_for_group (fact raw) g = Ok {| group := g; days := ds |}) /\
  (forall g r, format_schedule_for_group (fact raw) g = Ok r -> days r = [] ->
     ~ In g (Dict.keys (groups out))) /\
  (forall g ds date day,
     In (g, ds) (groups out) -> In (date, day) ds ->
     exists items data timestamp groups_data hours,
       fact raw = JDict items /\
       Dict.get "data" items = Some (JDict data) /\
       find_last (contributes g date) data = Some (timestamp, groups_data) /\
       py_getitem groups_data g = Ok (JDict hours) /\
       format_hours hours [] = Ok day /\
       (day = [] <-> hours = [])).
Proof.
  intros Hb. apply build_output_groups in Hb.
  assert (Hmem : forall g ds, In (g, ds) (groups out) ->
            In g configured /\ ds <> [] /\
            format_schedule_for_group (fact raw) g = Ok {| group := g; days := ds |}).
  { intros g ds Hin.
    destruct (groups_members _ _ _ _ Hb g ds Hin) as [[] | Hg]. exact Hg. }
  split; [exact Hmem |]. split.
  - intros g r Hr Hempty Hkey. unfold Dict.keys in Hkey.
    apply in_map_iff in Hkey as ([g' ds] & Eg & Hin). cbn [fst] in Eg. subst g'.
    destruct (Hmem g ds Hin) as (_ & Hne & Hf).
    rewrite Hr in Hf. inversion Hf; subst r. cbn [days] in Hempty. contradiction.
  - intros g ds date day Hing Hind.
    destruct (Hmem g ds Hing) as (_ & Hne & Hf).
    destruct (format_ok_inv _ _ _ Hf) as (_ & [Hempty | (items & data & Hfact & Hd & Hdays)]);
      cbn [days] in *; [contradiction |].
    pose proof (in_get _ _ _ (days_nodup _ _ _ Hdays) Hind) as Hget.
    destruct (day_of_last_timestamp _ _ _ _ _ Hdays Hget)
      as (timestamp & groups_data & hours & Hlast & Hhours & Hday).
    exists items, data, timestamp, groups_data, hours.
    repeat (split; [assumption |]). split.
    + intros ->. destruct hours as [|item hours]; [reflexivity |].
      exfalso. apply (format_hours_nonempty _ _ _ Hday); [left; discriminate | reflexivity].
    + intros ->. cbn in Hday. now inversion Hday.
Qed.

(** C8. For an hour key that [int] reads as [h], with [h] from 1 to 24,
    taken from the hour mapping that decides a date, the result of the
    builder has, under that date, an entry whose label is [h-1] on two
    digits, ":00-", [h] on two digits and ":00"; its value is the readable
    form of the status of an hour key that denotes [h]. *)
Theorem hour_label_in_output (items data hours : dict json) (g date timestamp : string)
    (groups_data : json) (r : formatted) (hour_str : string) (status : json) (h : Z) :
  Dict.get "data" items = Some (JDict data) ->
  format_schedule_for_group (JDict items) g = Ok r ->
  find_last (contributes g date) data = Some (timestamp, groups_data) ->
  py_getitem groups_data g = Ok (JDict hours) ->
  In (hour_str, status) hours ->
  py_int hour_str = Some h ->
  1 <= h <= 24 ->
  time_range h = two_digits (h - 1) ++ ":00-" ++ two_digits h ++ ":00" /\
  exists day label,
    Dict.get date (days r) = Some day /\
    Dict.get (two_digits (h - 1) ++ ":00-" ++ two_digits h ++ ":00") day = Some label /\
    exists hour_str' status',
      In (hour_str', status') hours /\
      py_int hour_str' = Some h /\
      readable_status status' = Ok label.
Proof.
  intros Hd Hr Hlast Hget Hin Hint Hh.
  split; [now apply time_range_two_digits |].
  rewrite <- (time_range_two_digits h Hh).
  rewrite (format_with_data _ _ _ Hd) in Hr.
  destruct (foldM (timestamp_step g) [] data) as [ds | e] eqn:Hfold; cbn [bind] in Hr;
    [|discriminate].
  inversion Hr; subst r; clear Hr. cbn [days].
  pose proof (days_lookup _ _ _ _ Hfold date) as Hlook.
  rewrite Hlast in Hlook. cbn [snd] in Hlook. unfold group_day in Hlook.
  rewrite Hget in Hlook. cbn [bind py_items] in Hlook.
  destruct (Dict.get date ds) as [day |] eqn:Hdate; cbn [option_map] in Hlook;
    [|discriminate].
  inversion Hlook as [Hday]. symmetry in Hday.
  pose proof (hours_lookup _ _ _ Hday (time_range h)) as Hentry.
  destruct (find_last (filed_under (time_range h)) hours) as [[hs st] |] eqn:Hfl.
  - cbn [snd] in Hentry.
    destruct (Dict.get (time_range h) day) as [label |] eqn:Hrange;
      cbn [option_map] in Hentry; [|discriminate].
    inversion Hentry as [Hlabel].
    apply find_last_some in Hfl as [Hin' Hfiled].
    unfold filed_under in Hfiled. cbn [fst] in Hfiled.
    destruct (py_int hs) as [h' |] eqn:Eh'; [|discriminate].
    apply String.eqb_eq in Hfiled. unfold time_range in Hfiled.
    apply split_at_colon in Hfiled; try apply colon_free_format_02d.
    apply format_02d_injective in Hfiled.
    assert (h' = h) by lia. subst h'.
    exists day, label. split; [reflexivity |]. split; [exact Hrange |].
    exists hs, st. auto.
  - exfalso. apply find_last_none in Hfl.
    assert (Hex : existsb (filed_under (time_range h)) hours = true).
    { apply existsb_exists. exists (hour_str, status). split; [exact Hin |].
      unfold filed_under. cbn [fst]. rewrite Hint. apply String.eqb_refl. }
    congruence.
Qed.

End OutputContents.

Lemma output_groups_nonempty_witness :
  let fact_data :=
    JDict [("update", JStr "12:00");
           ("data", JDict [("1700000000",
              JDict [("GPV1.1", JDict [("1", JStr "yes"); ("2", JStr "no")])])])] in
  let day := [("00:00-01:00", JStr "light_on"); ("01:00-02:00", JStr "light_off")] in
  Reference.loads (Reference.dq
    "{'update':'12:00','data':{'1700000000':{'GPV1.1':{'1':'yes','2':'no'}}}}")
  = Some fact_data /\
  @build_output (Reference.host EmptyString 0)
    {| fact := fact_data; preset := JDict []; fetched_at := EmptyString |}
    ["GPV1.1"; "GPV1.2"]
  = Ok {| out_fetched_at := EmptyString; update_time := JStr "12:00";
          groups := [("GPV1.1", [("2023-11-14", day)])] |} /\
  ~ In "GPV1.2" (Dict.keys [("GPV1.1", [("2023-11-14", day)])]) /\
  exists items data timestamp groups_data hours,
    fact_data = JDict items /\
    Dict.get "data" items = Some (JDict data) /\
    find_last (@contributes (Reference.host EmptyString 0) "GPV1.1" "2023-11-14") data
    = Some (timestamp, groups_data) /\
    py_getitem groups_data "GPV1.1" = Ok (JDict hours) /\
    @format_hours (Reference.host EmptyString 0) hours [] = Ok day /\
    (day = [] <-> hours = []).
Proof.
  cbv zeta.
  assert (Hb : @build_output (Reference.host EmptyString 0)
    {| fact := JDict [("update", JStr "12:00");
           ("data", JDict [("1700000000",
              JDict [("GPV1.1", JDict [("1", JStr "yes"); ("2", JStr "no")])])])];
       preset := JDict []; fetched_at := EmptyString |}
    ["GPV1.1"; "GPV1.2"]
  = Ok {| out_fetched_at := EmptyString; update_time := JStr "12:00";
          groups := [("GPV1.1", [("2023-11-14",
             [("00:00-01:00", JStr "light_on"); ("01:00-02:00", JStr "light_off")])])] |})
    by (vm_compute; reflexivity).
  split; [vm_compute; reflexivity |]. split; [exact Hb |].
  destruct (@output_groups_nonempty (Reference.host EmptyString 0) _ _ _ Hb)
    as (_ & Habsent & Hdays).
  split.
  - apply (Habsent "GPV1.2" {| group := "GPV1.2"; days := [] |}); reflexivity.
  - apply (Hdays "GPV1.1"
             [("2023-11-14",
               [("00:00-01:00", JStr "light_on"); ("01:00-02:00", JStr "light_off")])]
             "2023-11-14"); now left.
Defined.

Lemma hour_label_in_output_witness :
  let doc :=
    JDict [("data", JDict [("1700000000",
       JDict [("GPV1.1", JDict [("1", JStr "yes"); ("24", JStr "no")])])])] in
  let days1 :=
    [("2023-11-14", [("00:00-01:00", JStr "light_on"); ("23:00-24:00", JStr "light_off")])] in
  @format_schedule_for_group (Reference.host EmptyString 0) doc "GPV1.1"
  = Ok {| group := "GPV1.1"; days := days1 |} /\
  (time_range 1 = "00:00-01:00" /\
   exists day label,
     Dict.get "2023-11-14" days1 = Some day /\
     Dict.get "00:00-01:00" day = Some label /\
     exists hour_str' status',
       In (hour_str', status') [("1", JStr "yes"); ("24", JStr "no")] /\
       Reference.int hour_str' = Some 1 /\
       readable_status status' = Ok label) /\
  (time_range 24 = "23:00-24:00" /\
   exists day label,
     Dict.get "2023-11-14" days1 = Some day /\
     Dict.get "23:00-24:00" day = Some label /\
     exists hour_str' status',
       In (hour_str', status') [("1", JStr "yes"); ("24", JStr "no")] /\
       Reference.int hour_str' = Some 24 /\
       readable_status status' = Ok label).
Proof.
  cbv zeta. split; [vm_compute; reflexivity |]. split.
  - apply (@hour_label_in_output (Reference.host EmptyString 0)
             [("data", JDict [("1700000000",
                 JDict [("GPV1.1", JDict [("1", JStr "yes"); ("24", JStr "no")])])])]
             [("1700000000", JDict [("GPV1.1", JDict [("1", JStr "yes"); ("24", JStr "no")])])]
             [("1", JStr "yes"); ("24", JStr "no")]
             "GPV1.1" "2023-11-14" "1700000000"
             (JDict [("GPV1.1", JDict [("1", JStr "yes"); ("24", JStr "no")])])
             {| group := "GPV1.1";
                days := [("2023-11-14",
                          [("00:00-01:00", JStr "light_on");
                           ("23:00-24:00", JStr "light_off")])] |}
             "1" (JStr "yes") 1);
      [reflexivity | vm_compute; reflexivity | vm_compute; reflexivity | reflexivity
       | now left | reflexivity | lia].
  - apply (@hour_label_in_output (Reference.host EmptyString 0)
             [("data", JDict [("1700000000",
                 JDict [("GPV1.1", JDict [("1", JStr "yes"); ("24", JStr "no")])])])]
             [("1700000000", JDict [("GPV1.1", JDict [("1", JStr "yes"); ("24", JStr "no")])])]
             [("1", JStr "yes"); ("24", JStr "no")]
             "GPV1.1" "2023-11-14" "1700000000"
             (JDict [("GPV1.1", JDict [("1", JStr "yes"); ("24", JStr "no")])])
             {| group := "GPV1.1";
                days := [("2023-11-14",
                          [("00:00-01:00", JStr "light_on");
                           ("23:00-24:00", JStr "light_off")])] |}
             "24" (JStr "no") 24);
      [reflexivity | vm_compute; reflexivity | vm_compute; reflexivity | reflexivity
       | right; now left | reflexivity | lia].
Defined.

(** ** Characters and bytes *)

Lemma chars_le_length (s : string) : (Str.chars s <= String.length s)%nat.
Proof.
  induction s as [|c s IH]; cbn [Str.chars String.length]; [lia |].
  destruct (Str.is_continuation c); lia.
Qed.

Lemma char_len_le_len (s : string) : Str.char_len s <= Str.len s.
Proof. unfold Str.char_len, Str.len. pose proof (chars_le_length s). lia. Qed.

(** A page of 614 characters is too short, though it has 1214 bytes. *)
Example cyrillic_page_is_too_short :
  let page := Reference.repeat_string Reference.ya 600 ++ "DisconSchedule" in
  Str.len page = 1214 /\
  Str.char_len page = 614 /\
  fst (@fetch_dtek_page (Reference.host page 0) Reference.empty_world)
  = Raise ProtectionPage.
Proof. cbv zeta. repeat split; vm_compute; reflexivity. Qed.
